(** * System Health Monitor: a shallow embedding of [system_health_monitor.py]

    The development follows the Python source method by method, from
    [__init__] to [main].  What [print_summary], [save_to_file] and [main]
    do to the outside (lines printed, files opened and written, sleeps) is
    kept as a trace of events.

    - Part 1 gives the fragment of Python values the monitor manipulates
      (None, numbers, strings, lists, string-keyed dictionaries) and the
      operators the source applies to them ([in], subscript, [>], [or],
      [isinstance(_, dict)], [.items()]), with the exceptions they raise.
    - Part 2 gives the operating-system interface ([psutil]) as a record of
      call outcomes, and the methods of [SystemHealthMonitor] over it.
    - Part 3 gives the same [__init__] and [check_alerts] over a store of
      mutable objects, to speak about aliasing and mutation.
    - Part 4 gives the vocabulary of the properties and the machines the
      model is run on.
    - Part 5 holds the lemmas and the theorems on alert evaluation, the
      collectors, collection and construction.
    - Part 6 holds further properties: what ends the loops of the
      collectors, what alert evaluation reads, the summary, the runs of
      [main], and what is shared in the store.

    Numbers: a Python [int] is a [Z]; a finite Python [float] is the
    rational it denotes, so comparisons are exact.  The result of a
    division, a multiplication, a subtraction or a [round] is rounded as
    binary64 rounds it: to the nearest number with a significand of 53
    bits, ties to even.  The exponent is not bounded: overflow and
    subnormal numbers, which the byte counts and times of a machine are
    far from, are not modelled. *)

From Stdlib Require Import List ZArith QArith Qround Qpower Bool Lia.
From Stdlib Require Import Sorting.Sorted Sorting.Permutation.
From stdpp Require Import base option list sorting strings gmap.

Import ListNotations.
Local Open Scope string_scope.
Local Open Scope list_scope.

(* ===================================================================== *)
(** * Part 1: Python values and operators *)
(* ===================================================================== *)

(** ** Exceptions *)

(** The exception classes that occur in the source or are raised by the
    operators it uses.  [OtherError] stands for any other subclass of
    [Exception] ([OSError], [AttributeError], ...). *)
Inductive exn_class :=
| KeyError
| TypeError
| ZeroDivisionError
| RecursionError
| PermissionError
| NoSuchProcess
| ZombieProcess          (* psutil: a subclass of NoSuchProcess *)
| AccessDenied
| OtherError (name : string).

(** An exception: its class and [str(e)].  The texts of the exceptions
    the operators raise are abridged; a [KeyError] shows its key in
    quotes.  Exceptions that are not subclasses of [Exception]
    ([KeyboardInterrupt], [SystemExit]) are not modelled. *)
Record exn := Exn { exn_cls : exn_class; exn_msg : string }.

Inductive result (A : Type) :=
| Ok (a : A)
| Raise (e : exn).
Arguments Ok {A} a.
Arguments Raise {A} e.

#[global] Instance result_ret : MRet result := fun A a => Ok a.
#[global] Instance result_bind : MBind result := fun A B f m =>
  match m with
  | Ok a => f a
  | Raise e => Raise e
  end.

Definition raise {A} (c : exn_class) (msg : string) : result A :=
  Raise (Exn c msg).

(** ** Values *)

(** Dictionaries are association lists in insertion order, which is the
    order Python iterates them in; only string keys occur in the source. *)
#[warnings="-register-all"]
Inductive pyval :=
| PNone
| PInt (n : Z)
| PFloat (x : Q)
| PStr (s : string)
| PList (xs : list pyval)
| PDict (kvs : list (string * pyval)).

(** [d.get(k)]: the first binding of [k]. *)
Fixpoint dict_get {V} (k : string) (kvs : list (string * V)) : option V :=
  match kvs with
  | [] => None
  | (k', v) :: rest => if String.eqb k k' then Some v else dict_get k rest
  end.

(** [d[k] = v]: an existing key keeps its position, a new key goes last. *)
Fixpoint dict_set {V} (k : string) (v : V) (kvs : list (string * V))
  : list (string * V) :=
  match kvs with
  | [] => [(k, v)]
  | (k', v') :: rest =>
      if String.eqb k k' then (k', v) :: rest
      else (k', v') :: dict_set k v rest
  end.

(** [k in d] *)
Definition dict_has {V} (k : string) (kvs : list (string * V)) : bool :=
  match dict_get k kvs with Some _ => true | None => false end.

Definition dict_keys {V} (kvs : list (string * V)) : list string :=
  map fst kvs.

(** The rational a number denotes. *)
Definition num_of (v : pyval) : option Q :=
  match v with
  | PInt n => Some (inject_Z n)
  | PFloat x => Some x
  | _ => None
  end.

(** [a < b] and [a > b] on rationals. *)
Definition Qltb (a b : Q) : bool := negb (Qle_bool b a).
Definition Qgtb (a b : Q) : bool := Qltb b a.

(** Truthiness, as used by [or]. *)
Definition py_truthy (v : pyval) : bool :=
  match v with
  | PNone => false
  | PInt n => negb (n =? 0)%Z
  | PFloat x => negb (Qeq_bool x 0)
  | PStr s => negb (String.eqb s "")
  | PList xs => match xs with [] => false | _ => true end
  | PDict kvs => match kvs with [] => false | _ => true end
  end.

(** [a or b] *)
Definition py_or (a b : pyval) : pyval := if py_truthy a then a else b.

(** [a == b].  Numbers compare by value across [int] and [float];
    dictionaries compare regardless of order. *)
Fixpoint py_eq (a b : pyval) {struct a} : bool :=
  match a, b with
  | PNone, PNone => true
  | PInt m, PInt n => (m =? n)%Z
  | PInt m, PFloat y => Qeq_bool (inject_Z m) y
  | PFloat x, PInt n => Qeq_bool x (inject_Z n)
  | PFloat x, PFloat y => Qeq_bool x y
  | PStr s, PStr t => String.eqb s t
  | PList xs, PList ys =>
      (fix go (xs ys : list pyval) : bool :=
         match xs, ys with
         | [], [] => true
         | x :: xs', y :: ys' => py_eq x y && go xs' ys'
         | _, _ => false
         end) xs ys
  | PDict kvs, PDict kvs' =>
      (length kvs =? length kvs')%nat &&
      (fix go (kvs : list (string * pyval)) : bool :=
         match kvs with
         | [] => true
         | (k, v) :: rest =>
             match dict_get k kvs' with
             | Some v' => py_eq v v'
             | None => false
             end && go rest
         end) kvs
  | _, _ => false
  end.

(** [a > b].  Numbers by value, strings and lists lexicographically;
    everything else is a [TypeError]. *)
Fixpoint py_gt (a b : pyval) {struct a} : result bool :=
  match a, b with
  | PInt m, PInt n => Ok (n <? m)%Z
  | PInt m, PFloat y => Ok (Qgtb (inject_Z m) y)
  | PFloat x, PInt n => Ok (Qgtb x (inject_Z n))
  | PFloat x, PFloat y => Ok (Qgtb x y)
  | PStr s, PStr t => Ok (String.ltb t s)
  | PList xs, PList ys =>
      (fix go (xs ys : list pyval) : result bool :=
         match xs, ys with
         | [], _ => Ok false
         | _ :: _, [] => Ok true
         | x :: xs', y :: ys' => if py_eq x y then go xs' ys' else py_gt x y
         end) xs ys
  | _, _ => raise TypeError "'>' not supported between these instances"
  end.

(** [k in c] for a string [k]. *)
Definition py_contains (k : string) (c : pyval) : result bool :=
  match c with
  | PDict kvs => Ok (dict_has k kvs)
  | PList xs => Ok (existsb (fun x => py_eq x (PStr k)) xs)
  | PStr s => Ok (bool_decide (is_Some (String.index 0 k s)))
  | _ => raise TypeError "argument is not iterable"
  end.

(** [c[k]] for a string [k]. *)
Definition py_getitem (c : pyval) (k : string) : result pyval :=
  match c with
  | PDict kvs =>
      match dict_get k kvs with
      | Some v => Ok v
      | None => raise KeyError ("'" +:+ k +:+ "'")
      end
  | PList _ | PStr _ => raise TypeError "indices must be integers"
  | _ => raise TypeError "object is not subscriptable"
  end.

(** [isinstance(v, dict)] *)
Definition isinstance_dict (v : pyval) : bool :=
  match v with PDict _ => true | _ => false end.

(** A [for] loop with an accumulator, stopping at the first exception. *)
Fixpoint for_each {A S} (body : A -> S -> result S) (xs : list A) (s : S)
  : result S :=
  match xs with
  | [] => Ok s
  | x :: rest => s' ← body x s; for_each body rest s'
  end.

(* ===================================================================== *)
(** * Part 2: the monitor *)
(* ===================================================================== *)

(** The object state of [SystemHealthMonitor]: its one attribute. *)
Record SystemHealthMonitor := { alert_thresholds : pyval }.

Definition default_thresholds : pyval :=
  PDict [("cpu_percent", PFloat 80); ("memory_percent", PFloat 85);
         ("disk_percent", PFloat 90)].

(** [__init__(self, alert_thresholds=None)] *)
Definition __init__ (alert_thresholds : pyval) : SystemHealthMonitor :=
  {| alert_thresholds := py_or alert_thresholds default_thresholds |}.

(** ** The operating system, as [psutil] shows it *)

Module psutil.

(** The result of [os.uname()], with the five attributes it has. *)
Record uname_result :=
  { sysname : string; nodename : string; release : string;
    version : string; machine : string }.

(** [u.attr] on the result of [os.uname()]; the text is that of a POSIX
    system. *)
Definition uname_attr (u : uname_result) (attr : string) : result string :=
  if String.eqb attr "sysname" then Ok (sysname u)
  else if String.eqb attr "nodename" then Ok (nodename u)
  else if String.eqb attr "release" then Ok (release u)
  else if String.eqb attr "version" then Ok (version u)
  else if String.eqb attr "machine" then Ok (machine u)
  else raise (OtherError "AttributeError")
         ("'posix.uname_result' object has no attribute '" +:+ attr +:+ "'").

Record svmem :=
  { vm_total : Z; vm_available : Z; vm_used : Z; vm_percent : Q }.

Record sswap := { sw_total : Z; sw_used : Z; sw_percent : Q }.

Record sdiskpart :=
  { device : string; mountpoint : string; fstype : string }.

Record sdiskusage := { du_total : Z; du_used : Z; du_free : Z }.

Record snetio :=
  { bytes_sent : Z; bytes_recv : Z; packets_sent : Z; packets_recv : Z;
    errin : Z; errout : Z }.

(** [proc.info] for the attributes the monitor asks for; an attribute
    psutil could not read is [None]. *)
Record pinfo :=
  { pid : Z; name : option string;
    cpu_percent : option Q; memory_percent : option Q }.

(** What each call returns or raises at the time of one collection.  A
    call the source makes several times ([boot_time], [os.uname]) has one
    outcome. *)
Record api :=
  { boot_time : result Q;
    (** [os.uname()]; it raises where [os] has no [uname] *)
    uname : result uname_result;
    (** [datetime.fromtimestamp(t)]: the exception it raises, or the text
        [strftime('%Y-%m-%d %H:%M:%S')] gives for the date *)
    format_timestamp : Q -> result string;
    (** [time.time()] *)
    time_time : Q;
    (** [datetime.now().strftime('%Y-%m-%d %H:%M:%S')] *)
    now : string;
    (** [psutil.cpu_percent(interval=1)] *)
    sample_cpu_percent : result Q;
    cpu_count_logical : result (option Z);
    cpu_count_physical : result (option Z);
    (** [psutil.cpu_freq()]: [None], or the [current] frequency *)
    cpu_freq : result (option Q);
    (** [None] when [psutil] has no [getloadavg] attribute *)
    getloadavg : option (result (Q * Q * Q));
    virtual_memory : result svmem;
    swap_memory : result sswap;
    disk_partitions : result (list sdiskpart);
    disk_usage : string -> result sdiskusage;
    (** [psutil.net_io_counters(pernic=True)], in iteration order *)
    net_io_counters : result (list (string * snetio));
    (** [psutil.process_iter(...)]: the processes in the order yielded,
        each with the outcome of reading its [info].  psutil yields them
        sorted by process ID. *)
    process_iter : result (list (result pinfo)) }.

End psutil.

(** ** Arithmetic *)

(** The integer nearest to a rational, ties to even. *)
Definition round_half_even (y : Q) : Z :=
  let f := Qfloor y in
  match (y - inject_Z f ?= 1 # 2)%Q with
  | Lt => f
  | Gt => (f + 1)%Z
  | Eq => if Z.even f then f else (f + 1)%Z
  end.

(** The binary exponent of a positive rational [x]: the [e] with
    [2^e <= x < 2^(e+1)].  The difference of the two logarithms is [e] or
    [e + 1]. *)
Definition exponent (x : Q) : Z :=
  let e := (Z.log2 (Qnum x) - Z.log2 (Zpos (Qden x)))%Z in
  if Qle_bool (2 ^ e) x then e else (e - 1)%Z.

(** A positive rational rounded to a significand of 53 bits. *)
Definition round53 (x : Q) : Q :=
  let q := (exponent x - 52)%Z in
  (inject_Z (round_half_even (x / 2 ^ q)) * 2 ^ q)%Q.

(** The float nearest to a rational, ties to even, in lowest terms: what
    an operation on floats returns for the exact result [x]. *)
Definition nearest_float (x : Q) : Q :=
  Qred match Qnum x with
       | Z0 => 0
       | Zpos _ => round53 x
       | Zneg _ => - round53 (- x)
       end.

(** [x * y] and [x - y] on floats *)
Definition float_mul (x y : Q) : Q := nearest_float (x * y).
Definition float_sub (x y : Q) : Q := nearest_float (x - y).

(** [x / n] on a float and an integer that is not zero and is a float *)
Definition float_div (x : Q) (n : Z) : Q := nearest_float (x / inject_Z n).

(** [a / b] on integers: the float nearest to the quotient *)
Definition py_truediv (a b : Z) : result Q :=
  if (b =? 0)%Z then raise ZeroDivisionError "division by zero"
  else Ok (nearest_float (inject_Z a / inject_Z b)).

(** [round(x, 2)] on a float: the float nearest to the hundredth nearest
    to [x], ties to even. *)
Definition py_round2 (x : Q) : Q :=
  nearest_float (round_half_even (x * 100) # 100).

(** [1024**3] *)
Definition GiB : Z := 1073741824.

(** [round(n / (1024**3), 2)] *)
Definition to_gb (n : Z) : Q :=
  py_round2 (nearest_float (inject_Z n / inject_Z GiB)).

Definition opt_int (o : option Z) : pyval :=
  match o with Some n => PInt n | None => PNone end.

Definition opt_float (o : option Q) : pyval :=
  match o with Some x => PFloat x | None => PNone end.

Definition opt_str (o : option string) : pyval :=
  match o with Some s => PStr s | None => PNone end.

(** The value of [except Exception as e: return {'error': f'<what>{str(e)}'}] *)
Definition error_marker (what : string) (e : exn) : pyval :=
  PDict [("error", PStr (what +:+ exn_msg e))].

(** [try: body  except Exception as e: return {'error': ...}] *)
Definition try_or_error (what : string) (body : result pyval) : pyval :=
  match body with
  | Ok v => v
  | Raise e => error_marker what e
  end.

(** ** The collectors *)

(** [get_system_info(self)].  The entries of the dictionary are evaluated
    in the order they are written; the second asks the result of
    [os.uname()] for an attribute [system]. *)
Definition get_system_info (os : psutil.api) : pyval :=
  try_or_error "Failed to get system info: "
    (t ← psutil.boot_time os;
     boot_time ← psutil.format_timestamp os t;
     u ← psutil.uname os;
     hostname ← psutil.uname_attr u "nodename";
     u ← psutil.uname os;
     platform ← psutil.uname_attr u "system";
     u ← psutil.uname os;
     architecture ← psutil.uname_attr u "machine";
     t' ← psutil.boot_time os;
     Ok (PDict
       [("hostname", PStr hostname);
        ("platform", PStr platform);
        ("architecture", PStr architecture);
        ("boot_time", PStr boot_time);
        ("uptime_hours",
          PFloat (py_round2
                    (float_div (float_sub (psutil.time_time os) t')
                       3600)))])).

(** [get_cpu_info(self)] *)
Definition get_cpu_info (os : psutil.api) : pyval :=
  try_or_error "Failed to get CPU info: "
    (cpu_percent ← psutil.sample_cpu_percent os;
     cpu_count ← psutil.cpu_count_logical os;
     cpu_freq ← psutil.cpu_freq os;
     physical ← psutil.cpu_count_physical os;
     load_average ←
       match psutil.getloadavg os with
       | Some call =>
           '(a, b, c) ← call; Ok (PList [PFloat a; PFloat b; PFloat c])
       | None => Ok (PStr "N/A")
       end;
     Ok (PDict
       [("cpu_percent", PFloat cpu_percent);
        ("cpu_count_logical", opt_int cpu_count);
        ("cpu_count_physical", opt_int physical);
        ("cpu_frequency_mhz",
          match cpu_freq with
          | Some current => PFloat (py_round2 current)
          | None => PStr "N/A"
          end);
        ("load_average", load_average)])).

(** [get_memory_info(self)] *)
Definition get_memory_info (os : psutil.api) : pyval :=
  try_or_error "Failed to get memory info: "
    (memory ← psutil.virtual_memory os;
     swap ← psutil.swap_memory os;
     Ok (PDict
       [("memory_total_gb", PFloat (to_gb (psutil.vm_total memory)));
        ("memory_available_gb", PFloat (to_gb (psutil.vm_available memory)));
        ("memory_used_gb", PFloat (to_gb (psutil.vm_used memory)));
        ("memory_percent", PFloat (psutil.vm_percent memory));
        ("swap_total_gb", PFloat (to_gb (psutil.sw_total swap)));
        ("swap_used_gb", PFloat (to_gb (psutil.sw_used swap)));
        ("swap_percent", PFloat (psutil.sw_percent swap))])).

(** The dictionary stored for one partition whose usage was read. *)
Definition disk_entry (partition : psutil.sdiskpart)
    (usage : psutil.sdiskusage) : result pyval :=
  ratio ← py_truediv (psutil.du_used usage) (psutil.du_total usage);
  Ok (PDict
    [("device", PStr (psutil.device partition));
     ("filesystem", PStr (psutil.fstype partition));
     ("total_gb", PFloat (to_gb (psutil.du_total usage)));
     ("used_gb", PFloat (to_gb (psutil.du_used usage)));
     ("free_gb", PFloat (to_gb (psutil.du_free usage)));
     ("percent", PFloat (py_round2 (float_mul ratio 100)))]).

(** The body of the partition loop of [get_disk_info]: the inner [try],
    whose [except PermissionError] skips the partition. *)
Definition disk_step (os : psutil.api) (partition : psutil.sdiskpart)
    (disk_info : list (string * pyval)) : result (list (string * pyval)) :=
  match
    usage ← psutil.disk_usage os (psutil.mountpoint partition);
    entry ← disk_entry partition usage;
    Ok (dict_set (psutil.mountpoint partition) entry disk_info)
  with
  | Ok disk_info' => Ok disk_info'
  | Raise e =>
      match exn_cls e with
      | PermissionError => Ok disk_info     (* continue *)
      | _ => Raise e
      end
  end.

(** [get_disk_info(self)] *)
Definition get_disk_info (os : psutil.api) : pyval :=
  try_or_error "Failed to get disk info: "
    (disk_partitions ← psutil.disk_partitions os;
     disk_info ← for_each (disk_step os) disk_partitions [];
     Ok (PDict disk_info)).

(** The body of the interface loop of [get_network_info]. *)
Definition network_step (item : string * psutil.snetio)
    (network_info : list (string * pyval)) : result (list (string * pyval)) :=
  let '(interface, stats) := item in
  Ok (dict_set interface
        (PDict
          [("bytes_sent", PInt (psutil.bytes_sent stats));
           ("bytes_recv", PInt (psutil.bytes_recv stats));
           ("packets_sent", PInt (psutil.packets_sent stats));
           ("packets_recv", PInt (psutil.packets_recv stats));
           ("errors_in", PInt (psutil.errin stats));
           ("errors_out", PInt (psutil.errout stats))])
        network_info).

(** [get_network_info(self)] *)
Definition get_network_info (os : psutil.api) : pyval :=
  try_or_error "Failed to get network info: "
    (network_stats ← psutil.net_io_counters os;
     network_info ← for_each network_step network_stats [];
     Ok (PDict network_info)).

(** ** Sorting and slicing *)

Section Sorting.
Context {A : Type} (key : A -> Q).

(** Python's sort is stable and compares keys with [<] only.  A stable
    sort has one possible result, so insertion stands for it: [x], which
    precedes every element of [l] in the input, goes before the first
    element whose key is not smaller. *)
Fixpoint insert_by (x : A) (l : list A) : list A :=
  match l with
  | [] => [x]
  | y :: l' =>
      if Qltb (key y) (key x) then y :: insert_by x l' else x :: y :: l'
  end.

Fixpoint sort_by (l : list A) : list A :=
  match l with
  | [] => []
  | x :: l' => insert_by x (sort_by l')
  end.

(** [sorted(l, key=key, reverse=reverse)]: with [reverse=True] the list
    is reversed, sorted, and reversed again, which keeps elements with
    equal keys in their original order. *)
Definition py_sorted (reverse : bool) (l : list A) : list A :=
  if reverse then rev (sort_by (rev l)) else sort_by l.

(** [l[:n]] *)
Definition slice_to (n : Z) (l : list A) : list A :=
  if (0 <=? n)%Z then firstn (Z.to_nat n) l
  else firstn (Z.to_nat (Z.of_nat (length l) + n)) l.
End Sorting.

(** [x or 0] for a percentage that may be [None] *)
Definition or_zero (o : option Q) : Q :=
  match o with
  | Some x => if Qeq_bool x 0 then 0%Q else x
  | None => 0%Q
  end.

(** ** Processes *)

(** The dictionary [proc.info]. *)
Definition info_dict (p : psutil.pinfo) : pyval :=
  PDict [("pid", PInt (psutil.pid p));
         ("name", opt_str (psutil.name p));
         ("cpu_percent", opt_float (psutil.cpu_percent p));
         ("memory_percent", opt_float (psutil.memory_percent p))].

(** The body of the enumeration loop of [get_process_info]: the inner
    [try], whose [except (psutil.NoSuchProcess, psutil.AccessDenied)]
    skips the process. *)
Definition process_step (proc : result psutil.pinfo)
    (processes : list psutil.pinfo) : result (list psutil.pinfo) :=
  match proc with
  | Ok info => Ok (processes ++ [info])
  | Raise e =>
      match exn_cls e with
      | NoSuchProcess | ZombieProcess | AccessDenied => Ok processes
      | _ => Raise e
      end
  end.

Definition top_cpu_of (top_n : Z) (processes : list psutil.pinfo)
  : list psutil.pinfo :=
  slice_to top_n
    (py_sorted (fun x => or_zero (psutil.cpu_percent x)) true processes).

Definition top_memory_of (top_n : Z) (processes : list psutil.pinfo)
  : list psutil.pinfo :=
  slice_to top_n
    (py_sorted (fun x => or_zero (psutil.memory_percent x)) true processes).

(** [get_process_info(self, top_n=5)] *)
Definition get_process_info (os : psutil.api) (top_n : Z) : pyval :=
  try_or_error "Failed to get process info: "
    (procs ← psutil.process_iter os;
     processes ← for_each process_step procs [];
     (* Sort by CPU usage *)
     let top_cpu := top_cpu_of top_n processes in
     (* Sort by memory usage *)
     let top_memory := top_memory_of top_n processes in
     Ok (PDict
       [("total_processes", PInt (Z.of_nat (length processes)));
        ("top_cpu_processes", PList (map info_dict top_cpu));
        ("top_memory_processes", PList (map info_dict top_memory))])).

(** ** Alert evaluation *)

Section Monitor.

(** [str(x)] as f-string interpolation applies it to a value.  The
    shortest-round-trip printing of floats is not modelled; the alert texts
    are stated up to this function. *)
Variable py_str : pyval -> string.

Definition cpu_alert (cpu_percent threshold : pyval) : string :=
  "HIGH CPU USAGE: " +:+ py_str cpu_percent +:+ "% (threshold: "
    +:+ py_str threshold +:+ "%)".

Definition memory_alert (memory_percent threshold : pyval) : string :=
  "HIGH MEMORY USAGE: " +:+ py_str memory_percent +:+ "% (threshold: "
    +:+ py_str threshold +:+ "%)".

Definition disk_alert (mount_point : string) (disk_percent threshold : pyval)
  : string :=
  "HIGH DISK USAGE: " +:+ mount_point +:+ " at " +:+ py_str disk_percent
    +:+ "% (threshold: " +:+ py_str threshold +:+ "%)".

(** The body of the disk loop of [check_alerts], for one item. *)
Definition check_disk_item (self : SystemHealthMonitor)
    (item : string * pyval) (alerts : list string) : result (list string) :=
  let '(mount_point, disk_data) := item in
  has_percent ←
    (if isinstance_dict disk_data then py_contains "percent" disk_data
     else Ok false);
  if has_percent : bool then
    disk_percent ← py_getitem disk_data "percent";
    threshold ← py_getitem (alert_thresholds self) "disk_percent";
    over ← py_gt disk_percent threshold;
    if over : bool then
      Ok (alerts ++ [disk_alert mount_point disk_percent threshold])
    else Ok alerts
  else Ok alerts.

(** The block [# Check CPU] of [check_alerts]. *)
Definition check_cpu (self : SystemHealthMonitor) (health_data : pyval)
    (alerts : list string) : result (list string) :=
  has_cpu ←
    (c ← py_contains "cpu_info" health_data;
     if c : bool then
       cpu_info ← py_getitem health_data "cpu_info";
       py_contains "cpu_percent" cpu_info
     else Ok false);
  if has_cpu : bool then
    cpu_info ← py_getitem health_data "cpu_info";
    cpu_percent ← py_getitem cpu_info "cpu_percent";
    threshold ← py_getitem (alert_thresholds self) "cpu_percent";
    over ← py_gt cpu_percent threshold;
    if over : bool then Ok (alerts ++ [cpu_alert cpu_percent threshold])
    else Ok alerts
  else Ok alerts.

(** The block [# Check Memory] of [check_alerts]. *)
Definition check_memory (self : SystemHealthMonitor) (health_data : pyval)
    (alerts : list string) : result (list string) :=
  has_memory ←
    (c ← py_contains "memory_info" health_data;
     if c : bool then
       memory_info ← py_getitem health_data "memory_info";
       py_contains "memory_percent" memory_info
     else Ok false);
  if has_memory : bool then
    memory_info ← py_getitem health_data "memory_info";
    memory_percent ← py_getitem memory_info "memory_percent";
    threshold ← py_getitem (alert_thresholds self) "memory_percent";
    over ← py_gt memory_percent threshold;
    if over : bool then
      Ok (alerts ++ [memory_alert memory_percent threshold])
    else Ok alerts
  else Ok alerts.

(** The block [# Check Disk] of [check_alerts]. *)
Definition check_disk (self : SystemHealthMonitor) (health_data : pyval)
    (alerts : list string) : result (list string) :=
  has_disk ← py_contains "disk_info" health_data;
  if has_disk : bool then
    disk_info ← py_getitem health_data "disk_info";
    match disk_info with
    | PDict items => for_each (check_disk_item self) items alerts
    | _ => Ok alerts
    end
  else Ok alerts.

(** [check_alerts(self, health_data)] *)
Definition check_alerts (self : SystemHealthMonitor) (health_data : pyval)
  : result (list string) :=
  let alerts := [] in
  alerts ← check_cpu self health_data alerts;
  alerts ← check_memory self health_data alerts;
  alerts ← check_disk self health_data alerts;
  Ok alerts.

(** [collect_all_metrics(self)] *)
Definition collect_all_metrics (self : SystemHealthMonitor)
    (os : psutil.api) : result pyval :=
  let timestamp := psutil.now os in
  let health_data :=
    [("timestamp", PStr timestamp);
     ("system_info", get_system_info os);
     ("cpu_info", get_cpu_info os);
     ("memory_info", get_memory_info os);
     ("disk_info", get_disk_info os);
     ("network_info", get_network_info os);
     ("process_info", get_process_info os 5)] in
  (* Add alerts *)
  alerts ← check_alerts self (PDict health_data);
  Ok (PDict (dict_set "alerts" (PList (map PStr alerts)) health_data)).

End Monitor.

(** ** Presentation, persistence and the entry point *)

(** [type(v).__name__] *)
Definition type_name (v : pyval) : string :=
  match v with
  | PNone => "NoneType"
  | PInt _ => "int"
  | PFloat _ => "float"
  | PStr _ => "str"
  | PList _ => "list"
  | PDict _ => "dict"
  end.

(** [c.get(k, default)] *)
Definition py_get (c : pyval) (k : string) (default : pyval) : result pyval :=
  match c with
  | PDict kvs =>
      Ok (match dict_get k kvs with Some v => v | None => default end)
  | _ =>
      raise (OtherError "AttributeError")
        ("'" +:+ type_name c +:+ "' object has no attribute 'get'")
  end.

(** The one-character strings of a string.  Text outside ASCII is held as
    its UTF-8 bytes, so such a character counts once for each byte. *)
Fixpoint chars (s : string) : list pyval :=
  match s with
  | EmptyString => []
  | String c s' => PStr (String c EmptyString) :: chars s'
  end.

(** What [for x in c] goes through. *)
Definition py_iter (c : pyval) : result (list pyval) :=
  match c with
  | PList xs => Ok xs
  | PStr s => Ok (chars s)
  | PDict kvs => Ok (map (fun kv => PStr (fst kv)) kvs)
  | _ => raise TypeError ("'" +:+ type_name c +:+ "' object is not iterable")
  end.

(** [s * n] *)
Fixpoint str_mul (s : string) (n : nat) : string :=
  match n with
  | O => EmptyString
  | S n' => s +:+ str_mul s n'
  end.

(** ["\n"] *)
Definition nl : string := String (Ascii.ascii_of_nat 10) EmptyString.

(** What the program does to the outside: a line printed (the text given
    to [print], without the newline [print] adds); a file opened for
    writing, which creates it or empties it; the JSON text of a value
    written to a file in full and the file closed; a sleep. *)
Inductive event :=
| Printed (line : string)
| Opened (filename : string)
| Wrote (filename : string) (data : pyval)
| Slept (seconds : Z).

(** A computation that leaves a trace of events and may raise; what was
    done before an exception stays done. *)
Definition Pr (A : Type) : Type := (result A * list event)%type.

#[global] Instance Pr_ret : MRet Pr := fun A a => (Ok a, []).
#[global] Instance Pr_bind : MBind Pr := fun A B f m =>
  match m with
  | (Ok a, out) => let '(r, out') := f a in (r, out ++ out')
  | (Raise e, out) => (Raise e, out)
  end.

(** [print(s)].  Printing is taken to succeed: standard output is open
    and its encoding has the characters of the line. *)
Definition print (s : string) : Pr unit := (Ok tt, [Printed s]).

(** An expression evaluated for its value. *)
Definition eval {A} (r : result A) : Pr A := (r, []).

(** A [for] loop whose body leaves a trace. *)
Fixpoint for_each_pr {A} (body : A -> Pr unit) (xs : list A) : Pr unit :=
  match xs with
  | [] => mret tt
  | x :: rest => _ ← body x; for_each_pr body rest
  end.

(** What saving needs from the outside. *)
Record fs_api :=
  { (** [datetime.now().strftime('%Y%m%d_%H%M%S')] *)
    file_stamp : string;
    (** [open(filename, 'w')]: the file is there and empty, or the
        exception raised *)
    open_w : string -> result unit;
    (** [json.dump(data, f, indent=2)] and the closing of the file at the
        end of the [with] block: done, or the exception raised, which
        leaves the file with a part of the text *)
    json_dump : string -> pyval -> result unit }.

(** The parsed command line.  The thresholds are finite numbers; an
    argument such as [nan], which [float] also takes, is not modelled. *)
Record Args :=
  { save : bool;
    output : option string;
    cpu_threshold : Q;
    memory_threshold : Q;
    disk_threshold : Q;
    continuous : bool;
    interval : Z }.

(** The outside over a run: the operating system and the file system as
    they are at each iteration, the exception the system's sleep call
    raises at the end of it for a length in seconds, if it raises one,
    and whether Ctrl+C comes during that sleep.  An interrupt at another
    moment is not modelled. *)
Record World :=
  { os_at : nat -> psutil.api;
    fs_at : nat -> fs_api;
    sleep_error_at : nat -> Z -> option exn;
    interrupt_at : nat -> bool }.

(** How the loop of [main] ends, within the iterations it is given. *)
Inductive loop_end := Done | Interrupted | OutOfFuel.

(** How [main] ends: it returns, it calls [sys.exit(code)], or it is still
    looping after the iterations it was given. *)
Inductive ending := Finished | Exit (code : Z) | Running.

Section Presentation.

Variable py_str : pyval -> string.

(** One row of the block [# Disk Info Summary] of [print_summary]. *)
Definition print_disk_row (item : string * pyval) : Pr unit :=
  let '(mount, disk_data) := item in
  if isinstance_dict disk_data then
    percent ← eval (py_get disk_data "percent" (PStr "N/A"));
    used_gb ← eval (py_get disk_data "used_gb" (PStr "N/A"));
    total_gb ← eval (py_get disk_data "total_gb" (PStr "N/A"));
    print ("  " +:+ mount +:+ ": " +:+ py_str percent +:+ "% ("
             +:+ py_str used_gb +:+ " GB / " +:+ py_str total_gb +:+ " GB)")
  else mret tt.

(** The block [# System Info] of [print_summary]. *)
Definition print_system (data : pyval) : Pr unit :=
  has ← eval (py_contains "system_info" data);
  if has : bool then
    sys_info ← eval (py_getitem data "system_info");
    hostname ← eval (py_get sys_info "hostname" (PStr "N/A"));
    platform ← eval (py_get sys_info "platform" (PStr "N/A"));
    _ ← print (nl +:+ "System: " +:+ py_str hostname +:+ " ("
                 +:+ py_str platform +:+ ")");
    uptime ← eval (py_get sys_info "uptime_hours" (PStr "N/A"));
    print ("Uptime: " +:+ py_str uptime +:+ " hours")
  else mret tt.

(** The block [# CPU Info] of [print_summary]. *)
Definition print_cpu (data : pyval) : Pr unit :=
  has ← eval (py_contains "cpu_info" data);
  if has : bool then
    cpu_info ← eval (py_getitem data "cpu_info");
    cpu_percent ← eval (py_get cpu_info "cpu_percent" (PStr "N/A"));
    _ ← print (nl +:+ "CPU Usage: " +:+ py_str cpu_percent +:+ "%");
    logical ← eval (py_get cpu_info "cpu_count_logical" (PStr "N/A"));
    physical ← eval (py_get cpu_info "cpu_count_physical" (PStr "N/A"));
    print ("CPU Cores: " +:+ py_str logical +:+ " logical, "
             +:+ py_str physical +:+ " physical")
  else mret tt.

(** The block [# Memory Info] of [print_summary]. *)
Definition print_memory (data : pyval) : Pr unit :=
  has ← eval (py_contains "memory_info" data);
  if has : bool then
    mem_info ← eval (py_getitem data "memory_info");
    memory_percent ← eval (py_get mem_info "memory_percent" (PStr "N/A"));
    _ ← print (nl +:+ "Memory Usage: " +:+ py_str memory_percent +:+ "%");
    used ← eval (py_get mem_info "memory_used_gb" (PStr "N/A"));
    total ← eval (py_get mem_info "memory_total_gb" (PStr "N/A"));
    print ("Memory: " +:+ py_str used +:+ " GB / " +:+ py_str total
             +:+ " GB")
  else mret tt.

(** The block [# Disk Info Summary] of [print_summary]. *)
Definition print_disks (data : pyval) : Pr unit :=
  is_dict ←
    eval (has ← py_contains "disk_info" data;
          if has : bool then
            disk_info ← py_getitem data "disk_info";
            Ok (isinstance_dict disk_info)
          else Ok false);
  if is_dict : bool then
    _ ← print (nl +:+ "Disk Usage:");
    disk_info ← eval (py_getitem data "disk_info");
    match disk_info with
    | PDict items => for_each_pr print_disk_row items
    | _ => mret tt
    end
  else mret tt.

(** The block [# Alerts] of [print_summary]. *)
Definition print_alerts (data : pyval) : Pr unit :=
  found ← eval (py_get data "alerts" PNone);
  if py_truthy found then
    _ ← print (nl +:+ "⚠️  ALERTS:");
    alerts ← eval (py_getitem data "alerts");
    each ← eval (py_iter alerts);
    for_each_pr (fun alert => print ("  • " +:+ py_str alert)) each
  else print (nl +:+ "✅ No alerts - system is healthy!").

(** [print_summary(self, data)] *)
Definition print_summary (data : pyval) : Pr unit :=
  _ ← print (nl +:+ str_mul "=" 50);
  _ ← print "SYSTEM HEALTH SUMMARY";
  _ ← print (str_mul "=" 50);
  timestamp ← eval (py_getitem data "timestamp");
  _ ← print ("Timestamp: " +:+ py_str timestamp);
  _ ← print_system data;
  _ ← print_cpu data;
  _ ← print_memory data;
  _ ← print_disks data;
  _ ← print_alerts data;
  print (str_mul "=" 50).

(** The body of the [try] of [save_to_file]. *)
Definition write_file (fs : fs_api) (filename : string) (data : pyval)
  : Pr unit :=
  match open_w fs filename with
  | Raise e => eval (Raise e)
  | Ok _ =>
      match json_dump fs filename data with
      | Raise e => (Raise e, [Opened filename])
      | Ok _ =>
          (Ok tt, [Opened filename; Wrote filename data;
                   Printed ("Health data saved to: " +:+ filename)])
      end
  end.

(** [save_to_file(self, data, filename=None)] *)
Definition save_to_file (fs : fs_api) (data : pyval)
    (filename : option string) : Pr unit :=
  let filename :=
    match filename with
    | None => "system_health_" +:+ file_stamp fs +:+ ".json"
    | Some name => name
    end in
  match write_file fs filename data with
  | (Ok _, out) => (Ok tt, out)
  | (Raise e, out) =>
      (Ok tt, out ++ [Printed ("Error saving to file: " +:+ exn_msg e)])
  end.

(** [2**63 - 1], the largest time in nanoseconds the interpreter holds. *)
Definition PyTime_MAX : Z := 9223372036854775807.

(** The exception [time.sleep(seconds)] raises for a whole number of
    seconds, if it raises one, as CPython 3.11 has it: the length is first
    turned into nanoseconds, which must fit 64 bits; a negative length is
    refused; then the system is asked to sleep, and [os_error] is what its
    call raises. *)
Definition sleep_refusal (seconds : Z) (os_error : option exn) : option exn :=
  if ((PyTime_MAX <? seconds * 1000000000)
      || (seconds * 1000000000 <? - PyTime_MAX - 1))%Z then
    Some (Exn (OtherError "OverflowError")
            "timestamp too large to convert to C _PyTime_t")
  else if (seconds <? 0)%Z then
    Some (Exn (OtherError "ValueError") "sleep length must be non-negative")
  else os_error.

(** [time.sleep(seconds)]: a length that is refused raises before any
    waiting; otherwise the result tells whether Ctrl+C came during the
    sleep. *)
Definition time_sleep (seconds : Z) (os_error : option exn)
    (interrupted : bool) : Pr bool :=
  match sleep_refusal seconds os_error with
  | Some e => eval (Raise e)
  | None => (Ok interrupted, [Slept seconds])
  end.

(** What [main] does with a monitor once, at iteration [i]: collect, show,
    and save when asked. *)
Definition run_once (monitor : SystemHealthMonitor) (args : Args)
    (w : World) (i : nat) : Pr unit :=
  health_data ← eval (collect_all_metrics py_str monitor (os_at w i));
  _ ← print_summary health_data;
  if save args then save_to_file (fs_at w i) health_data (output args)
  else mret tt.

(** The loop [while True] of [main], for at most [fuel] iterations from
    iteration [i]. *)
Fixpoint monitor_loop (monitor : SystemHealthMonitor) (args : Args)
    (w : World) (fuel i : nat) : Pr loop_end :=
  match fuel with
  | O => mret OutOfFuel
  | S fuel' =>
      _ ← run_once monitor args w i;
      interrupted ←
        time_sleep (interval args) (sleep_error_at w i (interval args))
          (interrupt_at w i);
      if interrupted : bool then mret Interrupted
      else monitor_loop monitor args w fuel' (S i)
  end.

(** The thresholds [main] sets up from the command line. *)
Definition main_thresholds (args : Args) : pyval :=
  PDict [("cpu_percent", PFloat (cpu_threshold args));
         ("memory_percent", PFloat (memory_threshold args));
         ("disk_percent", PFloat (disk_threshold args))].

(** [main()], after the command line is parsed. *)
Definition main (args : Args) (w : World) (fuel : nat)
  : ending * list event :=
  let thresholds := main_thresholds args in
  let monitor := __init__ thresholds in
  let '(r, out) :=
    (if continuous args then
       _ ← print ("Starting continuous monitoring (interval: "
                    +:+ py_str (PInt (interval args)) +:+ " seconds)");
       _ ← print "Press Ctrl+C to stop";
       monitor_loop monitor args w fuel 0
     else
       (* Single run *)
       _ ← run_once monitor args w 0;
       mret Done) : Pr loop_end in
  match r with
  | Ok Done => (Finished, out)
  | Ok OutOfFuel => (Running, out)
  | Ok Interrupted =>
      (Exit 0, out ++ [Printed (nl +:+ nl +:+ "Monitoring stopped by user")])
  | Raise e => (Exit 1, out ++ [Printed ("Error: " +:+ exn_msg e)])
  end.

End Presentation.

(* ===================================================================== *)
(** * Part 3: the store *)
(* ===================================================================== *)

(** Lists, dictionaries and instances are mutable objects that variables
    and containers hold by reference.  This part places them in a store and
    writes [__init__] and [check_alerts] as store-passing programs, so that
    aliasing and mutation can be stated. *)

Definition loc := positive.

(** What a variable or a container slot holds: an immutable value or a
    reference to an object. *)
Inductive val :=
| VNone
| VInt (n : Z)
| VFloat (x : Q)
| VStr (s : string)
| VRef (l : loc).

Inductive obj :=
| OList (xs : list val)
| ODict (kvs : list (string * val))
| OInstance (attrs : list (string * val)).

Abbreviation heap := (gmap loc obj).

(** A computation that reads and writes the store and may raise. *)
Definition St (A : Type) : Type := heap -> result A * heap.

#[global] Instance St_ret : MRet St := fun A a h => (Ok a, h).
#[global] Instance St_bind : MBind St := fun A B f m h =>
  match m h with
  | (Ok a, h') => f a h'
  | (Raise e, h') => (Raise e, h')
  end.

(** A step that only reads the store. *)
Definition read {A} (f : heap -> result A) : St A := fun h => (f h, h).

(** Creating an object: it gets a location not in use. *)
Definition alloc (o : obj) : St loc := fun h =>
  let l := fresh (dom h) in (Ok l, <[l := o]> h).

(** [lst.append(v)] *)
Definition append (lst : loc) (v : val) : St unit := fun h =>
  match h !! lst with
  | Some (OList xs) => (Ok tt, <[lst := OList (xs ++ [v])]> h)
  | _ => (raise (OtherError "AttributeError") "no attribute 'append'", h)
  end.

(** [obj.attr = v] *)
Definition setattr (self : loc) (attr : string) (v : val) : St unit :=
  fun h =>
  match h !! self with
  | Some (OInstance attrs) =>
      (Ok tt, <[self := OInstance (dict_set attr v attrs)]> h)
  | _ => (raise (OtherError "AttributeError") attr, h)
  end.

(** [obj.attr] *)
Definition getattr (h : heap) (self : loc) (attr : string) : result val :=
  match h !! self with
  | Some (OInstance attrs) =>
      match dict_get attr attrs with
      | Some v => Ok v
      | None => raise (OtherError "AttributeError") attr
      end
  | _ => raise (OtherError "AttributeError") attr
  end.

(** The tree a value denotes, read out of the store.  [depth] bounds the
    nesting that is followed, as the interpreter's recursion limit does;
    [None] when it is exceeded, or when the value reaches an instance,
    which the value fragment of Part 1 does not have. *)
Fixpoint reify (depth : nat) (h : heap) (v : val) : option pyval :=
  match v with
  | VNone => Some PNone
  | VInt n => Some (PInt n)
  | VFloat x => Some (PFloat x)
  | VStr s => Some (PStr s)
  | VRef l =>
      match depth with
      | O => None
      | S depth' =>
          match h !! l with
          | Some (OList xs) => PList <$> mapM (reify depth' h) xs
          | Some (ODict kvs) =>
              PDict <$>
                mapM (fun kv => pair (fst kv) <$> reify depth' h (snd kv)) kvs
          | _ => None
          end
      end
  end.

Definition recursion_error {A} : result A :=
  raise RecursionError "maximum recursion depth exceeded".

(** Truthiness of a value in the store. *)
Definition truthy_h (h : heap) (v : val) : bool :=
  match v with
  | VNone => false
  | VInt n => negb (n =? 0)%Z
  | VFloat x => negb (Qeq_bool x 0)
  | VStr s => negb (String.eqb s "")
  | VRef l =>
      match h !! l with
      | Some (OList []) | Some (ODict []) => false
      | _ => true
      end
  end.

(** [k in c] *)
Definition contains_h (k : string) (c : val) (h : heap) : result bool :=
  match c with
  | VRef l =>
      match h !! l with
      | Some (ODict kvs) => Ok (dict_has k kvs)
      | Some (OList xs) =>
          Ok (existsb (fun x => match x with
                                | VStr s => String.eqb s k
                                | _ => false
                                end) xs)
      | _ => raise TypeError "argument is not iterable"
      end
  | VStr s => Ok (bool_decide (is_Some (String.index 0 k s)))
  | _ => raise TypeError "argument is not iterable"
  end.

(** [c[k]] *)
Definition getitem_h (c : val) (k : string) (h : heap) : result val :=
  match c with
  | VRef l =>
      match h !! l with
      | Some (ODict kvs) =>
          match dict_get k kvs with
          | Some v => Ok v
          | None => raise KeyError ("'" +:+ k +:+ "'")
          end
      | Some (OList _) => raise TypeError "indices must be integers"
      | _ => raise TypeError "object is not subscriptable"
      end
  | VStr _ => raise TypeError "indices must be integers"
  | _ => raise TypeError "object is not subscriptable"
  end.

(** [isinstance(v, dict)] *)
Definition isinstance_dict_h (v : val) (h : heap) : bool :=
  match v with
  | VRef l => match h !! l with Some (ODict _) => true | _ => false end
  | _ => false
  end.

(** [d.items()], as the loop sees it on entry. *)
Definition items_h (v : val) (h : heap) : list (string * val) :=
  match v with
  | VRef l => match h !! l with Some (ODict kvs) => kvs | _ => [] end
  | _ => []
  end.

(** [a > b]: both operands are read out of the store and compared. *)
Definition gt_h (depth : nat) (a b : val) (h : heap) : result bool :=
  match reify depth h a, reify depth h b with
  | Some pa, Some pb => py_gt pa pb
  | _, _ => recursion_error
  end.

(** A [for] loop over a fixed list of items, in the store. *)
Fixpoint for_each_st {A} (body : A -> St unit) (xs : list A) : St unit :=
  match xs with
  | [] => mret tt
  | x :: rest => _ ← body x; for_each_st body rest
  end.

Definition default_thresholds_obj : obj :=
  ODict [("cpu_percent", VFloat 80); ("memory_percent", VFloat 85);
         ("disk_percent", VFloat 90)].

(** [__init__(self, alert_thresholds=None)], in the store: a truthy
    argument is stored as it is, by reference; otherwise a new dictionary
    holding the defaults is created. *)
Definition init_st (self : loc) (alert_thresholds : val) : St unit :=
  truthy ← read (fun h => Ok (truthy_h h alert_thresholds));
  chosen ←
    (if truthy : bool then mret alert_thresholds
     else l ← alloc default_thresholds_obj; mret (VRef l));
  setattr self "alert_thresholds" chosen.

(** [SystemHealthMonitor(alert_thresholds)] *)
Definition new_monitor_st (alert_thresholds : val) : St loc :=
  self ← alloc (OInstance []);
  _ ← init_st self alert_thresholds;
  mret self.

Section MonitorStore.

Variable py_str : pyval -> string.

(** The recursion limit of the interpreter. *)
Variable depth : nat.

(** [str(v)] of a value in the store *)
Definition str_h (v : val) (h : heap) : result string :=
  match reify depth h v with
  | Some p => Ok (py_str p)
  | None => recursion_error
  end.

(** [self.alert_thresholds[k]] *)
Definition threshold_h (self : loc) (k : string) (h : heap) : result val :=
  thresholds ← getattr h self "alert_thresholds";
  getitem_h thresholds k h.

(** [alerts.append(f"HIGH ... {value}% (threshold: {threshold}%)")] *)
Definition append_alert (alerts : loc) (self : loc) (prefix : string)
    (value : val) (key : string) : St unit :=
  shown ← read (str_h value);
  threshold ← read (threshold_h self key);
  shown_threshold ← read (str_h threshold);
  append alerts
    (VStr (prefix +:+ shown +:+ "% (threshold: " +:+ shown_threshold
             +:+ "%)")).

(** The blocks [# Check CPU] and [# Check Memory] have one shape; this is
    it, for a category, its field and the text its alert starts with. *)
Definition check_category_st (self : loc) (health_data : val) (alerts : loc)
    (category field prefix : string) : St unit :=
  present ←
    read (fun h =>
      c ← contains_h category health_data h;
      if c : bool then
        info ← getitem_h health_data category h;
        contains_h field info h
      else Ok false);
  if present : bool then
    info ← read (getitem_h health_data category);
    value ← read (getitem_h info field);
    threshold ← read (threshold_h self field);
    over ← read (gt_h depth value threshold);
    if over : bool then append_alert alerts self prefix value field
    else mret tt
  else mret tt.

(** The body of the disk loop of [check_alerts], in the store. *)
Definition check_disk_item_st (self : loc) (alerts : loc)
    (item : string * val) : St unit :=
  let '(mount_point, disk_data) := item in
  has_percent ←
    read (fun h =>
      if isinstance_dict_h disk_data h then contains_h "percent" disk_data h
      else Ok false);
  if has_percent : bool then
    disk_percent ← read (getitem_h disk_data "percent");
    threshold ← read (threshold_h self "disk_percent");
    over ← read (gt_h depth disk_percent threshold);
    if over : bool then
      append_alert alerts self
        ("HIGH DISK USAGE: " +:+ mount_point +:+ " at ")
        disk_percent "disk_percent"
    else mret tt
  else mret tt.

(** The block [# Check CPU], in the store. *)
Definition check_cpu_st (self : loc) (health_data : val) (alerts : loc)
  : St unit :=
  check_category_st self health_data alerts
    "cpu_info" "cpu_percent" "HIGH CPU USAGE: ".

(** The block [# Check Memory], in the store. *)
Definition check_memory_st (self : loc) (health_data : val) (alerts : loc)
  : St unit :=
  check_category_st self health_data alerts
    "memory_info" "memory_percent" "HIGH MEMORY USAGE: ".

(** The block [# Check Disk], in the store. *)
Definition check_disk_st (self : loc) (health_data : val) (alerts : loc)
  : St unit :=
  has_disk ← read (contains_h "disk_info" health_data);
  if has_disk : bool then
    disk_info ← read (getitem_h health_data "disk_info");
    is_dict ← read (fun h => Ok (isinstance_dict_h disk_info h));
    if is_dict : bool then
      items ← read (fun h => Ok (items_h disk_info h));
      for_each_st (check_disk_item_st self alerts) items
    else mret tt
  else mret tt.

(** [check_alerts(self, health_data)], in the store: [alerts = []] creates
    the list, the three blocks append to it, and it is returned. *)
Definition check_alerts_st (self : loc) (health_data : val) : St val :=
  alerts ← alloc (OList []);
  _ ← check_cpu_st self health_data alerts;
  _ ← check_memory_st self health_data alerts;
  _ ← check_disk_st self health_data alerts;
  mret (VRef alerts).

End MonitorStore.

(* ===================================================================== *)
(** * Part 4: the vocabulary of the properties *)
(* ===================================================================== *)

(** ** Numbers and thresholds *)

(** The numbers: [int] and [float]. *)
Definition is_num (v : pyval) : bool :=
  match v with PInt _ | PFloat _ => true | _ => false end.

(** [v > t] on numbers; [false] on anything else. *)
Definition exceeds (v t : pyval) : bool :=
  match num_of v, num_of t with
  | Some a, Some b => Qgtb a b
  | _, _ => false
  end.

(** [v > t] on numbers, as a proposition. *)
Definition strictly_above (v t : pyval) : Prop :=
  exists a b, num_of v = Some a /\ num_of t = Some b /\ (b < a)%Q.

(** [v == t] on numbers, as a proposition. *)
Definition equal_to (v t : pyval) : Prop :=
  exists a b, num_of v = Some a /\ num_of t = Some b /\ (a == b)%Q.

(** The threshold the monitor holds for a key. *)
Definition threshold (self : SystemHealthMonitor) (k : string)
  : option pyval :=
  match alert_thresholds self with
  | PDict th => dict_get k th
  | _ => None
  end.

(** ** Snapshots, as alert evaluation reads them *)

(** The value at [health_data[category][field]] when the category holds a
    dictionary with that field; an error marker has no such field. *)
Definition metric (hd : list (string * pyval)) (category field : string)
  : option pyval :=
  match dict_get category hd with
  | Some (PDict info) => dict_get field info
  | _ => None
  end.

(** The [percent] of one entry of the disk mapping. *)
Definition percent_of (disk_data : pyval) : option pyval :=
  match disk_data with
  | PDict d => dict_get "percent" d
  | _ => None
  end.

(** The items of the disk mapping, in iteration order. *)
Definition disk_items (hd : list (string * pyval)) : list (string * pyval) :=
  match dict_get "disk_info" hd with
  | Some (PDict items) => items
  | _ => []
  end.

(** A percentage, when it is present, is a number. *)
Definition num_or_absent (o : option pyval) : bool :=
  match o with Some v => is_num v | None => true end.

(** A category, when it is present, holds a dictionary (data or an error
    marker) whose percentage, when present, is a number. *)
Definition category_wf (hd : list (string * pyval)) (category field : string)
  : bool :=
  match dict_get category hd with
  | None => true
  | Some (PDict info) => num_or_absent (dict_get field info)
  | Some _ => false
  end.

(** A snapshot, as far as alert evaluation reads it: the cpu and memory
    categories are as above, and every entry of the disk mapping that has a
    [percent] has a number there. *)
Definition snapshot_wf (hd : list (string * pyval)) : bool :=
  category_wf hd "cpu_info" "cpu_percent"
  && category_wf hd "memory_info" "memory_percent"
  && forallb (fun item => num_or_absent (percent_of (snd item)))
       (disk_items hd).

(** An error marker, as the collectors build it. *)
Definition is_error_marker (v : pyval) : Prop :=
  exists msg, v = PDict [("error", PStr msg)].

(** ** Alert evaluation, as the specification words it *)

Section Evaluate.

Variable py_str : pyval -> string.

(** One alert when the value is present and strictly above the threshold. *)
Definition alert_if (mk : pyval -> pyval -> string) (value : option pyval)
    (t : pyval) : list string :=
  match value with
  | Some v => if exceeds v t then [mk v t] else []
  | None => []
  end.

Definition cpu_alerts (hd : list (string * pyval)) (t : pyval) :=
  alert_if (cpu_alert py_str) (metric hd "cpu_info" "cpu_percent") t.

Definition memory_alerts (hd : list (string * pyval)) (t : pyval) :=
  alert_if (memory_alert py_str) (metric hd "memory_info" "memory_percent") t.

Definition disk_alerts (items : list (string * pyval)) (t : pyval) :=
  flat_map (fun item =>
    alert_if (disk_alert py_str (fst item)) (percent_of (snd item)) t) items.

(** The rule set in its fixed order: cpu, memory, disk. *)
Definition evaluate (hd : list (string * pyval)) (tc tm td : pyval)
  : list string :=
  cpu_alerts hd tc ++ memory_alerts hd tm ++ disk_alerts (disk_items hd) td.

End Evaluate.

(** The mount points whose [percent] is strictly above the threshold, each
    with that percent, in the iteration order of the disk mapping. *)
Definition offending_mounts (items : list (string * pyval)) (t : pyval)
  : list (string * pyval) :=
  omap (fun item =>
    match percent_of (snd item) with
    | Some v => if exceeds v t then Some (fst item, v) else None
    | None => None
    end) items.

(** [s.startswith(p)] *)
Fixpoint startswith (s p : string) {struct p} : bool :=
  match p with
  | EmptyString => true
  | String a p' =>
      match s with
      | EmptyString => false
      | String b s' => Ascii.eqb a b && startswith s' p'
      end
  end.

(** The category of an alert is read off the text it starts with. *)
Definition is_cpu_alert (a : string) : bool :=
  startswith a "HIGH CPU USAGE: ".
Definition is_memory_alert (a : string) : bool :=
  startswith a "HIGH MEMORY USAGE: ".
Definition is_disk_alert (a : string) : bool :=
  startswith a "HIGH DISK USAGE: ".

Definition has_alert (is_kind : string -> bool) (alerts : list string) : Prop :=
  exists a, In a alerts /\ is_kind a = true.

(** The text of an alert, after its prefix. *)
Definition alert_text (py_str : pyval -> string) (prefix : string)
    (value t : pyval) : string :=
  prefix +:+ py_str value +:+ "% (threshold: " +:+ py_str t +:+ "%)".

(** The shape the blocks [# Check CPU] and [# Check Memory] share. *)
Definition check_category (mk : pyval -> pyval -> string)
    (self : SystemHealthMonitor) (health_data : pyval)
    (category field : string) (alerts : list string)
  : result (list string) :=
  has ←
    (c ← py_contains category health_data;
     if c : bool then
       info ← py_getitem health_data category;
       py_contains field info
     else Ok false);
  if has : bool then
    info ← py_getitem health_data category;
    value ← py_getitem info field;
    threshold ← py_getitem (alert_thresholds self) field;
    over ← py_gt value threshold;
    if over : bool then Ok (alerts ++ [mk value threshold]) else Ok alerts
  else Ok alerts.

(** ** Snapshots, as the collectors build them *)

(** A dictionary with exactly these keys, in this order. *)
Definition has_keys (keys : list string) (v : pyval) : Prop :=
  exists kvs, v = PDict kvs /\ dict_keys kvs = keys.

(** A dictionary all of whose values have exactly these keys. *)
Definition rows_with_keys (keys : list string) (v : pyval) : Prop :=
  exists kvs, v = PDict kvs /\ Forall (fun kv => has_keys keys (snd kv)) kvs.

Definition system_keys : list string :=
  ["hostname"; "platform"; "architecture"; "boot_time"; "uptime_hours"].
Definition cpu_keys : list string :=
  ["cpu_percent"; "cpu_count_logical"; "cpu_count_physical";
   "cpu_frequency_mhz"; "load_average"].
Definition memory_keys : list string :=
  ["memory_total_gb"; "memory_available_gb"; "memory_used_gb";
   "memory_percent"; "swap_total_gb"; "swap_used_gb"; "swap_percent"].
Definition disk_keys : list string :=
  ["device"; "filesystem"; "total_gb"; "used_gb"; "free_gb"; "percent"].
Definition network_keys : list string :=
  ["bytes_sent"; "bytes_recv"; "packets_sent"; "packets_recv";
   "errors_in"; "errors_out"].
Definition process_keys : list string :=
  ["total_processes"; "top_cpu_processes"; "top_memory_processes"].

(** What holds of every row of the disk mapping. *)
Definition disk_row_ok (kv : string * pyval) : Prop :=
  has_keys disk_keys (snd kv)
  /\ num_or_absent (percent_of (snd kv)) = true.

(** ** Disk partitions *)

(** The usage of a partition can be read and has a total to divide by. *)
Definition readable (os : psutil.api) (p : psutil.sdiskpart)
  : option psutil.sdiskusage :=
  match psutil.disk_usage os (psutil.mountpoint p) with
  | Ok u => if (psutil.du_total u =? 0)%Z then None else Some u
  | Raise _ => None
  end.

(** The usage lookup of a partition fails with [PermissionError]. *)
Definition denied (os : psutil.api) (p : psutil.sdiskpart) : bool :=
  match psutil.disk_usage os (psutil.mountpoint p) with
  | Raise e => match exn_cls e with PermissionError => true | _ => false end
  | Ok _ => false
  end.

(** The usage lookup of a partition fails with another exception. *)
Definition fails_otherwise (os : psutil.api) (p : psutil.sdiskpart) : bool :=
  match psutil.disk_usage os (psutil.mountpoint p) with
  | Raise e => match exn_cls e with PermissionError => false | _ => true end
  | Ok _ => false
  end.

(** The entry of a partition whose usage is [u]; the total is not zero. *)
Definition entry_of (p : psutil.sdiskpart) (u : psutil.sdiskusage) : pyval :=
  PDict
    [("device", PStr (psutil.device p));
     ("filesystem", PStr (psutil.fstype p));
     ("total_gb", PFloat (to_gb (psutil.du_total u)));
     ("used_gb", PFloat (to_gb (psutil.du_used u)));
     ("free_gb", PFloat (to_gb (psutil.du_free u)));
     ("percent",
       PFloat (py_round2
         (float_mul
            (nearest_float
               (inject_Z (psutil.du_used u) / inject_Z (psutil.du_total u)))
            100)))].

(** The rows of the partitions whose usage can be read, in enumeration
    order. *)
Definition disk_rows (os : psutil.api) (parts : list psutil.sdiskpart)
  : list (string * pyval) :=
  omap (fun p =>
    match readable os p with
    | Some u => Some (psutil.mountpoint p, entry_of p u)
    | None => None
    end) parts.

(** Storing rows one after the other. *)
Definition set_all {V} (rows d : list (string * V)) : list (string * V) :=
  fold_left (fun d row => dict_set (fst row) (snd row) d) rows d.

(** ** Processes *)

(** The exceptions the enumeration loop skips: the process vanished or
    may not be inspected. *)
Definition vanished_or_denied (e : exn) : bool :=
  match exn_cls e with
  | NoSuchProcess | ZombieProcess | AccessDenied => true
  | _ => false
  end.

(** Every process of the enumeration is read or skipped. *)
Definition enumerable (procs : list (result psutil.pinfo)) : Prop :=
  Forall (fun r => match r with
                   | Ok _ => True
                   | Raise e => vanished_or_denied e = true
                   end) procs.

(** The entries that were read, in enumeration order. *)
Definition read_infos (procs : list (result psutil.pinfo))
  : list psutil.pinfo :=
  omap (fun r => match r with Ok info => Some info | Raise _ => None end)
       procs.

Definition cpu_key (p : psutil.pinfo) : Q := or_zero (psutil.cpu_percent p).
Definition memory_key (p : psutil.pinfo) : Q :=
  or_zero (psutil.memory_percent p).

(** Descending by key. *)
Definition descending (key : psutil.pinfo -> Q) (a b : psutil.pinfo) : Prop :=
  (key b <= key a)%Q.

(** Descending by key, ties by process ID ascending. *)
Definition by_key_then_pid (key : psutil.pinfo -> Q) (a b : psutil.pinfo)
  : Prop :=
  (key b < key a)%Q
  \/ ((key a == key b)%Q /\ (psutil.pid a < psutil.pid b)%Z).

Definition ascending_pid (a b : psutil.pinfo) : Prop :=
  (psutil.pid a < psutil.pid b)%Z.

(** The enumeration is as [psutil.process_iter] gives it: the processes
    come in ascending order of process ID, each ID once. *)
Definition in_pid_order (procs : list (result psutil.pinfo)) : Prop :=
  StronglySorted ascending_pid (read_infos procs).

(** The processes of [l] whose key is [k], in the order of [l]. *)
Definition with_key (key : psutil.pinfo -> Q) (k : Q) (l : list psutil.pinfo)
  : list psutil.pinfo :=
  List.filter (fun p => Qeq_bool (key p) k) l.

(** [out] ranks [l]: the same processes, descending by key, those with
    equal keys in the order they have in [l]. *)
Definition ranks (key : psutil.pinfo -> Q) (l out : list psutil.pinfo)
  : Prop :=
  Permutation out l
  /\ StronglySorted (descending key) out
  /\ (forall k, with_key key k out = with_key key k l).

(** The order a stable ascending sort leaves: ascending by key, and
    between equal keys the one that [before] puts later comes first. *)
Definition asc_then_after {A} (key : A -> Q) (before : A -> A -> Prop)
    (a b : A) : Prop :=
  (key a < key b)%Q \/ ((key a == key b)%Q /\ before b a).

(** ** The store *)

(** A dictionary object and the dictionary it denotes. *)
Definition rows_reify (d : nat) (h : heap) (kvs : list (string * val))
    (pkvs : list (string * pyval)) : Prop :=
  Forall2 (fun kv pkv => fst kv = fst pkv
                         /\ reify d h (snd kv) = Some (snd pkv)) kvs pkvs.

(** A computation only appends to the list at [target]: it leaves every
    other object as it is and creates none. *)
Definition appends_to {A} (target : loc) (m : St A) : Prop :=
  forall h xs r h',
    h !! target = Some (OList xs) -> m h = (r, h') ->
    exists ys, h' = <[target := OList (xs ++ ys)]> h.

(** The store [h0] with the list [xs] at [la]. *)
Definition with_list (h0 : heap) (la : loc) (xs : list val) : heap :=
  <[la := OList xs]> h0.

(** ** Outcomes of the calls a collector makes *)

Definition succeeds {A} (r : result A) : bool :=
  match r with Ok _ => true | Raise _ => false end.

(** Every call of [get_cpu_info] returns. *)
Definition cpu_calls_succeed (os : psutil.api) : bool :=
  succeeds (psutil.sample_cpu_percent os)
  && succeeds (psutil.cpu_count_logical os)
  && succeeds (psutil.cpu_freq os)
  && succeeds (psutil.cpu_count_physical os)
  && match psutil.getloadavg os with
     | Some call => succeeds call
     | None => true
     end.

(** Every call of [get_memory_info] returns. *)
Definition memory_calls_succeed (os : psutil.api) : bool :=
  succeeds (psutil.virtual_memory os) && succeeds (psutil.swap_memory os).

(** The cpu sample, when the category comes out as data. *)
Definition cpu_sample (os : psutil.api) : option pyval :=
  match psutil.sample_cpu_percent os with
  | Ok x => if cpu_calls_succeed os then Some (PFloat x) else None
  | Raise _ => None
  end.

(** The memory percentage, when the category comes out as data. *)
Definition memory_sample (os : psutil.api) : option pyval :=
  match psutil.virtual_memory os with
  | Ok m =>
      if memory_calls_succeed os then Some (PFloat (psutil.vm_percent m))
      else None
  | Raise _ => None
  end.

(** The row of one network interface. *)
Definition net_row (stats : psutil.snetio) : pyval :=
  PDict
    [("bytes_sent", PInt (psutil.bytes_sent stats));
     ("bytes_recv", PInt (psutil.bytes_recv stats));
     ("packets_sent", PInt (psutil.packets_sent stats));
     ("packets_recv", PInt (psutil.packets_recv stats));
     ("errors_in", PInt (psutil.errin stats));
     ("errors_out", PInt (psutil.errout stats))].

(** The exception a partition ends the disk loop with: its usage lookup
    raises something else than [PermissionError], or its total is zero. *)
Definition disk_failure (os : psutil.api) (p : psutil.sdiskpart)
  : option exn :=
  match psutil.disk_usage os (psutil.mountpoint p) with
  | Ok u =>
      if (psutil.du_total u =? 0)%Z
      then Some (Exn ZeroDivisionError "division by zero")
      else None
  | Raise e =>
      match exn_cls e with
      | PermissionError => None
      | _ => Some e
      end
  end.

(** How many elements [l[:n]] keeps of a list of length [len]. *)
Definition slice_length (n : Z) (len : nat) : nat :=
  if (0 <=? n)%Z then Nat.min (Z.to_nat n) len
  else Z.to_nat (Z.of_nat len + n).

(** The rows of the interfaces, in iteration order. *)
Definition network_rows (stats : list (string * psutil.snetio))
  : list (string * pyval) :=
  map (fun item => (fst item, net_row (snd item))) stats.

(** ** Collected snapshots *)

(** The measurements of one collection, before the alerts are added. *)
Definition measurements (os : psutil.api) : list (string * pyval) :=
  [("timestamp", PStr (psutil.now os));
   ("system_info", get_system_info os);
   ("cpu_info", get_cpu_info os);
   ("memory_info", get_memory_info os);
   ("disk_info", get_disk_info os);
   ("network_info", get_network_info os);
   ("process_info", get_process_info os 5)].

(** The snapshot of one collection with these alerts. *)
Definition snapshot_of (os : psutil.api) (alerts : list string) : pyval :=
  PDict (measurements os ++ [("alerts", PList (map PStr alerts))]).

(** The threshold [t'] is at least the threshold [t]. *)
Definition at_least (t' t : pyval) : Prop :=
  exists a b, num_of t = Some a /\ num_of t' = Some b /\ (a <= b)%Q.

(** ** Traces *)

(** The lines printed, the files written and the sleeps of a trace, each
    in order. *)
Definition printed (out : list event) : list string :=
  omap (fun e => match e with Printed s => Some s | _ => None end) out.

Definition writes (out : list event) : list (string * pyval) :=
  omap (fun e => match e with Wrote f d => Some (f, d) | _ => None end) out.

Definition sleeps (out : list event) : list Z :=
  omap (fun e => match e with Slept n => Some n | _ => None end) out.

(** What a file holds once it was opened for writing: the JSON text of a
    value, or a text that is not complete (nothing, or a part). *)
Inductive content :=
| Whole (data : pyval)
| Incomplete.

(** What an event does to the file [f]. *)
Definition file_step (f : string) (c : option content) (e : event)
  : option content :=
  match e with
  | Opened g => if String.eqb g f then Some Incomplete else c
  | Wrote g d => if String.eqb g f then Some (Whole d) else c
  | _ => c
  end.

(** What the file [f] holds after a trace, from what it held before;
    [None] for a file that was never opened. *)
Definition file_from (c : option content) (out : list event) (f : string)
  : option content :=
  fold_left (file_step f) out c.

Definition file_after (out : list event) (f : string) : option content :=
  file_from None out f.

(** ["=" * 50] *)
Definition rule : string := str_mul "=" 50.

(** The lines that open a summary whose timestamp is [ts]. *)
Definition summary_header (py_str : pyval -> string) (ts : pyval)
  : list event :=
  [Printed (nl +:+ rule); Printed "SYSTEM HEALTH SUMMARY"; Printed rule;
   Printed ("Timestamp: " +:+ py_str ts)].

(** The lines a summary shows for a list of alerts. *)
Definition alert_lines (py_str : pyval -> string) (alerts : list string)
  : list event :=
  match alerts with
  | [] => [Printed (nl +:+ "✅ No alerts - system is healthy!")]
  | _ =>
      Printed (nl +:+ "⚠️  ALERTS:")
        :: map (fun a => Printed ("  • " +:+ py_str (PStr a))) alerts
  end.

(** The two lines of a category none of whose fields is there. *)
Definition cpu_unknown (py_str : pyval -> string) : list event :=
  [Printed (nl +:+ "CPU Usage: " +:+ py_str (PStr "N/A") +:+ "%");
   Printed ("CPU Cores: " +:+ py_str (PStr "N/A") +:+ " logical, "
              +:+ py_str (PStr "N/A") +:+ " physical")].

Definition memory_unknown (py_str : pyval -> string) : list event :=
  [Printed (nl +:+ "Memory Usage: " +:+ py_str (PStr "N/A") +:+ "%");
   Printed ("Memory: " +:+ py_str (PStr "N/A") +:+ " GB / "
              +:+ py_str (PStr "N/A") +:+ " GB")].

Definition system_unknown (py_str : pyval -> string) : list event :=
  [Printed (nl +:+ "System: " +:+ py_str (PStr "N/A") +:+ " ("
              +:+ py_str (PStr "N/A") +:+ ")");
   Printed ("Uptime: " +:+ py_str (PStr "N/A") +:+ " hours")].

(** An event that is a line printed. *)
Definition is_printed (e : event) : Prop :=
  match e with Printed _ => True | _ => False end.

(** A computation that does nothing to the outside but print. *)
Definition only_prints {A} (m : Pr A) : Prop := Forall is_printed (snd m).

(** ** Runs of [main] *)

(** The monitor [main] builds from the command line. *)
Definition main_monitor (args : Args) : SystemHealthMonitor :=
  __init__ (main_thresholds args).

(** The two lines that open continuous monitoring. *)
Definition start_lines (py_str : pyval -> string) (args : Args)
  : list event :=
  [Printed ("Starting continuous monitoring (interval: "
              +:+ py_str (PInt (interval args)) +:+ " seconds)");
   Printed "Press Ctrl+C to stop"].

(** What iteration [i] of the loop does before it sleeps. *)
Definition iteration_work (py_str : pyval -> string) (args : Args)
    (w : World) (i : nat) : list event :=
  snd (run_once py_str (main_monitor args) args w i).

(** Iteration [i] of the loop with its sleep. *)
Definition iteration_trace (py_str : pyval -> string) (args : Args)
    (w : World) (i : nat) : list event :=
  iteration_work py_str args w i ++ [Slept (interval args)].

(** The first [n] iterations of the loop. *)
Definition iterations (py_str : pyval -> string) (args : Args) (w : World)
    (n : nat) : list event :=
  flat_map (iteration_trace py_str args w) (seq 0 n).

(** The name [save_to_file] writes to. *)
Definition target_file (fs : fs_api) (filename : option string) : string :=
  match filename with
  | Some name => name
  | None => "system_health_" +:+ file_stamp fs +:+ ".json"
  end.

(** What saving [data] under [name] does. *)
Definition save_events (fs : fs_api) (name : string) (data : pyval)
  : list event :=
  match open_w fs name with
  | Raise e => [Printed ("Error saving to file: " +:+ exn_msg e)]
  | Ok _ =>
      match json_dump fs name data with
      | Ok _ =>
          [Opened name; Wrote name data;
           Printed ("Health data saved to: " +:+ name)]
      | Raise e =>
          [Opened name; Printed ("Error saving to file: " +:+ exn_msg e)]
      end
  end.

(** What holds of a file that a run has opened. *)
Definition file_of_run (py_str : pyval -> string) (args : Args) (w : World)
    (f : string) (c : content) : Prop :=
  save args = true
  /\ exists i d,
       f = target_file (fs_at w i) (output args)
       /\ collect_all_metrics py_str (main_monitor args) (os_at w i) = Ok d
       /\ open_w (fs_at w i) f = Ok tt
       /\ match c with
          | Whole d' => d' = d /\ json_dump (fs_at w i) f d = Ok tt
          | Incomplete => exists e, json_dump (fs_at w i) f d = Raise e
          end.

(** The longest sleep, in whole seconds, whose length in nanoseconds fits
    the interpreter's clock. *)
Definition longest_sleep : Z := 9223372036.

(** The exception the sleep that ends iteration [i] raises, if it raises
    one. *)
Definition sleep_refused (args : Args) (w : World) (i : nat) : option exn :=
  sleep_refusal (interval args) (sleep_error_at w i (interval args)).

(** ** The store, as a caller may change it *)

(** [d[k] = v], as whoever holds the dictionary may do at any time. *)
Definition setitem (d : loc) (k : string) (v : val) : St unit := fun h =>
  match h !! d with
  | Some (ODict kvs) => (Ok tt, <[d := ODict (dict_set k v kvs)]> h)
  | _ => (raise TypeError "object does not support item assignment", h)
  end.

(** ** Machines and snapshots to run the model on *)

(** A stand-in for [str], for the places where a concrete function is
    needed to run the model. *)
Definition str_stub (v : pyval) : string :=
  match v with
  | PNone => "None"
  | PInt _ => "<int>"
  | PFloat _ => "<float>"
  | PStr s => s
  | PList _ => "[...]"
  | PDict _ => "{...}"
  end.

(** The snapshot of the scenario of the specification: cpu at 92.3,
    memory at 60.0, "/" at 95.5 and "/data" at 50.0. *)
Definition scenario : list (string * pyval) :=
  [("cpu_info", PDict [("cpu_percent", PFloat 92.3)]);
   ("memory_info", PDict [("memory_percent", PFloat 60.0)]);
   ("disk_info", PDict [("/", PDict [("percent", PFloat 95.5)]);
                        ("/data", PDict [("percent", PFloat 50.0)])])].

Definition sample_processes : list (result psutil.pinfo) :=
  [Ok {| psutil.pid := 1; psutil.name := Some "init";
         psutil.cpu_percent := Some 0.5%Q; psutil.memory_percent := Some 1.2%Q |};
   Raise (Exn AccessDenied "pid=2");
   Ok {| psutil.pid := 7; psutil.name := Some "python3";
         psutil.cpu_percent := Some 12.0%Q; psutil.memory_percent := None |};
   Raise (Exn NoSuchProcess "pid=9");
   Ok {| psutil.pid := 12; psutil.name := None;
         psutil.cpu_percent := None; psutil.memory_percent := Some 3.4%Q |}].

(** A machine whose calls all succeed, but for the disks and the processes
    given. *)
Definition sample_machine (parts : list psutil.sdiskpart)
    (usage : string -> result psutil.sdiskusage)
    (procs : list (result psutil.pinfo)) : psutil.api :=
  {| psutil.boot_time := Ok 1700000000%Q;
     psutil.uname := Ok {| psutil.sysname := "Linux"; psutil.nodename := "host";
                           psutil.release := "6.1.0";
                           psutil.version := "#1 SMP";
                           psutil.machine := "x86_64" |};
     psutil.format_timestamp := fun _ => Ok "2023-11-14 22:13:20";
     psutil.time_time := 1700003600;
     psutil.now := "2023-11-14 23:13:20";
     psutil.sample_cpu_percent := Ok 92.3%Q;
     psutil.cpu_count_logical := Ok (Some 8%Z);
     psutil.cpu_count_physical := Ok (Some 4%Z);
     psutil.cpu_freq := Ok (Some 2400%Q);
     psutil.getloadavg := Some (Ok (0.5, 0.4, 0.3)%Q);
     psutil.virtual_memory :=
       Ok {| psutil.vm_total := 17179869184; psutil.vm_available := 6871947674;
             psutil.vm_used := 10307921510; psutil.vm_percent := 60.0 |};
     psutil.swap_memory :=
       Ok {| psutil.sw_total := 0; psutil.sw_used := 0;
             psutil.sw_percent := 0 |};
     psutil.disk_partitions := Ok parts;
     psutil.disk_usage := usage;
     psutil.net_io_counters :=
       Ok [("lo", {| psutil.bytes_sent := 10; psutil.bytes_recv := 10;
                     psutil.packets_sent := 1; psutil.packets_recv := 1;
                     psutil.errin := 0; psutil.errout := 0 |})];
     psutil.process_iter := Ok procs |}.

Definition root_part : psutil.sdiskpart :=
  {| psutil.device := "/dev/sda1"; psutil.mountpoint := "/";
     psutil.fstype := "ext4" |}.
Definition data_part : psutil.sdiskpart :=
  {| psutil.device := "/dev/sdb1"; psutil.mountpoint := "/data";
     psutil.fstype := "ext4" |}.
Definition cdrom_part : psutil.sdiskpart :=
  {| psutil.device := "/dev/sr0"; psutil.mountpoint := "/mnt/cdrom";
     psutil.fstype := "iso9660" |}.

(** "/" and "/data" can be read; "/mnt/cdrom" fails as told. *)
Definition sample_usage (cdrom : exn) (mount : string)
  : result psutil.sdiskusage :=
  if String.eqb mount "/" then
    Ok {| psutil.du_total := 107374182400; psutil.du_used := 102542344192;
          psutil.du_free := 4831838208 |}
  else if String.eqb mount "/data" then
    Ok {| psutil.du_total := 214748364800; psutil.du_used := 107374182400;
          psutil.du_free := 107374182400 |}
  else Raise cdrom.

(** A machine on which the drive may not be read. *)
Definition machine_denied : psutil.api :=
  sample_machine [root_part; cdrom_part; data_part]
    (sample_usage (Exn PermissionError "[Errno 13] Permission denied"))
    sample_processes.

(** A machine on which the drive holds no medium. *)
Definition machine_no_medium : psutil.api :=
  sample_machine [root_part; cdrom_part; data_part]
    (sample_usage (Exn (OtherError "OSError") "[Errno 123] No medium found"))
    sample_processes.

(** Two processes of equal cpu percent, the one with the larger process
    ID using more memory. *)
Definition early_process : psutil.pinfo :=
  {| psutil.pid := 3; psutil.name := Some "early";
     psutil.cpu_percent := Some 1.5%Q; psutil.memory_percent := Some 0.2%Q |}.
Definition late_process : psutil.pinfo :=
  {| psutil.pid := 9; psutil.name := Some "late";
     psutil.cpu_percent := Some 1.5%Q; psutil.memory_percent := Some 0.3%Q |}.

Definition machine_tied : psutil.api :=
  sample_machine [root_part]
    (sample_usage (Exn PermissionError "[Errno 13] Permission denied"))
    [Ok early_process; Ok late_process].

(** The scenario in a store: the health data at 1, the monitor at 7 and
    its thresholds at 8. *)
Definition scenario_heap : heap :=
  list_to_map
    [(1%positive, ODict [("cpu_info", VRef 2%positive); ("memory_info", VRef 3%positive);
                         ("disk_info", VRef 4%positive)]);
     (2%positive, ODict [("cpu_percent", VFloat 92.3)]);
     (3%positive, ODict [("memory_percent", VFloat 60.0)]);
     (4%positive, ODict [("/", VRef 5%positive); ("/data", VRef 6%positive)]);
     (5%positive, ODict [("percent", VFloat 95.5)]);
     (6%positive, ODict [("percent", VFloat 50.0)]);
     (7%positive, OInstance [("alert_thresholds", VRef 8%positive)]);
     (8%positive, default_thresholds_obj)].

(** The machine [os] with another outcome of [psutil.cpu_freq()]. *)
Definition with_cpu_freq (os : psutil.api) (r : result (option Q))
  : psutil.api :=
  {| psutil.boot_time := psutil.boot_time os;
     psutil.uname := psutil.uname os;
     psutil.format_timestamp := psutil.format_timestamp os;
     psutil.time_time := psutil.time_time os;
     psutil.now := psutil.now os;
     psutil.sample_cpu_percent := psutil.sample_cpu_percent os;
     psutil.cpu_count_logical := psutil.cpu_count_logical os;
     psutil.cpu_count_physical := psutil.cpu_count_physical os;
     psutil.cpu_freq := r;
     psutil.getloadavg := psutil.getloadavg os;
     psutil.virtual_memory := psutil.virtual_memory os;
     psutil.swap_memory := psutil.swap_memory os;
     psutil.disk_partitions := psutil.disk_partitions os;
     psutil.disk_usage := psutil.disk_usage os;
     psutil.net_io_counters := psutil.net_io_counters os;
     psutil.process_iter := psutil.process_iter os |}.

(** A machine whose cpu is at 92.3 and whose frequency cannot be read. *)
Definition machine_no_freq : psutil.api :=
  with_cpu_freq machine_denied
    (Raise (Exn (OtherError "NotImplementedError")
              "can't find current frequency file")).

(** A pseudo file system with no blocks, enumerated between "/" and
    "/data". *)
Definition proc_part : psutil.sdiskpart :=
  {| psutil.device := "proc"; psutil.mountpoint := "/proc";
     psutil.fstype := "proc" |}.

Definition usage_with_proc (mount : string) : result psutil.sdiskusage :=
  if String.eqb mount "/proc" then
    Ok {| psutil.du_total := 0; psutil.du_used := 0; psutil.du_free := 0 |}
  else sample_usage (Exn PermissionError "[Errno 13] Permission denied") mount.

Definition machine_proc : psutil.api :=
  sample_machine [root_part; proc_part; data_part] usage_with_proc
    sample_processes.

(** "/data" mounted a second time, from another device. *)
Definition data_again : psutil.sdiskpart :=
  {| psutil.device := "/dev/sdc1"; psutil.mountpoint := "/data";
     psutil.fstype := "xfs" |}.

Definition machine_remounted : psutil.api :=
  sample_machine [root_part; data_part; cdrom_part; data_again]
    (sample_usage (Exn PermissionError "[Errno 13] Permission denied"))
    sample_processes.

(** A process whose [info] cannot be read for another reason. *)
Definition machine_broken_process : psutil.api :=
  sample_machine [root_part]
    (sample_usage (Exn PermissionError "[Errno 13] Permission denied"))
    [Ok early_process; Raise (Exn AccessDenied "pid=4");
     Raise (Exn (OtherError "OSError") "[Errno 5] Input/output error");
     Ok late_process].

(** A file system that takes every write, one on which no file can be
    opened for writing, and one that is full: a file is opened and
    emptied, and writing to it fails. *)
Definition fs_writable : fs_api :=
  {| file_stamp := "20231114_231320";
     open_w := fun _ => Ok tt;
     json_dump := fun _ _ => Ok tt |}.

Definition fs_read_only : fs_api :=
  {| file_stamp := "20231114_231320";
     open_w := fun name =>
       Raise (Exn (OtherError "OSError")
                ("[Errno 30] Read-only file system: '" +:+ name +:+ "'"));
     json_dump := fun _ _ => Ok tt |}.

Definition fs_full : fs_api :=
  {| file_stamp := "20231114_231320";
     open_w := fun _ => Ok tt;
     json_dump := fun _ _ =>
       Raise (Exn (OtherError "OSError")
                "[Errno 28] No space left on device") |}.

(** The command line [--save --output health.json], with the default
    thresholds, run once or continuously every [interval] seconds. *)
Definition sample_args (continuous : bool) (interval : Z) : Args :=
  {| save := true; output := Some "health.json";
     cpu_threshold := 80; memory_threshold := 85; disk_threshold := 90;
     continuous := continuous; interval := interval |}.

(** The machine of [machine_denied] at every iteration, a system that
    sleeps whenever it is asked to, and Ctrl+C during the sleep of
    iteration [stop]. *)
Definition sample_world (fs : fs_api) (stop : nat) : World :=
  {| os_at := fun _ => machine_denied;
     fs_at := fun _ => fs;
     sleep_error_at := fun _ _ => None;
     interrupt_at := fun i => Nat.eqb i stop |}.

(** The same, with a disk that fills up after the first iteration. *)
Definition world_filling_up (stop : nat) : World :=
  {| os_at := fun _ => machine_denied;
     fs_at := fun i => if Nat.eqb i 0 then fs_writable else fs_full;
     sleep_error_at := fun _ _ => None;
     interrupt_at := fun i => Nat.eqb i stop |}.

(** The same as [sample_world], on a system whose sleep call refuses the
    length at iteration [fails]. *)
Definition world_sleep_fails (fs : fs_api) (fails : nat) : World :=
  {| os_at := fun _ => machine_denied;
     fs_at := fun _ => fs;
     sleep_error_at := fun i _ =>
       if Nat.eqb i fails
       then Some (Exn (OtherError "OSError") "[Errno 22] Invalid argument")
       else None;
     interrupt_at := fun _ => false |}.

(* ===================================================================== *)
(** * Part 5: proofs *)
(* ===================================================================== *)

(** ** The operators, run *)

Example py_contains_key :
  py_contains "b" (PDict [("a", PInt 1); ("b", PNone)]) = Ok true.
Proof. reflexivity. Qed.

Example py_contains_substring :
  py_contains "cpu" (PStr "the cpu_info field") = Ok true.
Proof. reflexivity. Qed.

Example py_contains_number :
  py_contains "cpu" (PFloat 1.5) = raise TypeError "argument is not iterable".
Proof. reflexivity. Qed.

Example py_getitem_missing :
  py_getitem (PDict [("a", PInt 1)]) "b" = raise KeyError "'b'".
Proof. reflexivity. Qed.

Example py_gt_int_float : py_gt (PInt 81) (PFloat 80.5) = Ok true.
Proof. reflexivity. Qed.

Example py_gt_equal : py_gt (PFloat 80.0) (PInt 80) = Ok false.
Proof. reflexivity. Qed.

Example py_gt_lists :
  py_gt (PList [PInt 1; PFloat 2.5]) (PList [PFloat 1.0; PInt 2]) = Ok true.
Proof. reflexivity. Qed.

Example py_gt_mixed :
  py_gt (PStr "N/A") (PFloat 80)
  = raise TypeError "'>' not supported between these instances".
Proof. reflexivity. Qed.

(** [round(2.125, 2)] is [2.12]: 2.125 is a float, and the tie goes to
    the even hundredth. *)
Example py_round2_tie : py_round2 (2125 # 1000) = nearest_float (212 # 100).
Proof. by vm_compute. Qed.

(** [round(2.665, 2)] is [2.67]: the float nearest to 2.665 is above it. *)
Example py_round2_above :
  py_round2 (nearest_float (2665 # 1000)) = nearest_float (267 # 100).
Proof. by vm_compute. Qed.

(** [109 / 800 * 100] is not 13.625 but the float next above it, which
    Python shows as [13.625000000000002]; so its [round(_, 2)] is
    [13.63]. *)
Example float_mul_inexact :
  py_truediv 109 800 = Ok (nearest_float (13625 # 100000))
  /\ float_mul (nearest_float (13625 # 100000)) 100
     = (7670193115365377 # 562949953421312)%Q
  /\ py_round2 (float_mul (nearest_float (13625 # 100000)) 100)
     = nearest_float (1363 # 100).
Proof. by vm_compute. Qed.

Example slice_to_top : slice_to 2 [1; 2; 3]%Z = [1; 2]%Z.
Proof. reflexivity. Qed.

Example slice_to_negative : slice_to (-1) [1; 2; 3]%Z = [1; 2]%Z.
Proof. reflexivity. Qed.

Example py_sorted_reverse_stable :
  py_sorted (fun x : string * Q => snd x) true
    [("a", 1%Q); ("b", 2%Q); ("c", 1%Q)]
  = [("b", 2%Q); ("a", 1%Q); ("c", 1%Q)].
Proof. reflexivity. Qed.

Example dict_set_existing :
  dict_set "a" 3%Z [("a", 1%Z); ("b", 2%Z)] = [("a", 3%Z); ("b", 2%Z)].
Proof. reflexivity. Qed.

(** ** Comparisons *)

Lemma Qltb_lt (a b : Q) : Qltb a b = true <-> (a < b)%Q.
Proof.
  unfold Qltb. rewrite negb_true_iff, <- not_true_iff_false, Qle_bool_iff.
  split; [apply Qnot_le_lt | apply Qlt_not_le].
Qed.

Lemma Qgtb_lt (a b : Q) : Qgtb a b = true <-> (b < a)%Q.
Proof. apply Qltb_lt. Qed.

Lemma py_gt_num (v t : pyval) :
  is_num v = true -> is_num t = true -> py_gt v t = Ok (exceeds v t).
Proof.
  destruct v, t; simpl; try discriminate; intros _ _; try reflexivity.
  unfold exceeds, Qgtb, Qltb, Qle_bool; simpl.
  f_equal. rewrite !Z.mul_1_r.
  destruct (Z.ltb_spec n0 n), (Z.leb_spec n n0); simpl; try reflexivity; lia.
Qed.

Lemma exceeds_lt (v t : pyval) :
  exceeds v t = true <->
  exists a b, num_of v = Some a /\ num_of t = Some b /\ (b < a)%Q.
Proof.
  unfold exceeds. split.
  - destruct (num_of v) as [a|], (num_of t) as [b|]; try discriminate.
    intros H. exists a, b. by rewrite <- Qgtb_lt.
  - intros (a & b & -> & -> & H). by apply Qgtb_lt.
Qed.

Lemma equal_not_above v t : equal_to v t -> ~ strictly_above v t.
Proof.
  intros (a & b & Ha & Hb & E) (a' & b' & Ha' & Hb' & L).
  rewrite Ha in Ha'. rewrite Hb in Hb'. simplify_eq.
  rewrite E in L. by apply Qlt_irrefl in L.
Qed.

(** ** Reading an alert list *)

Section AlertTexts.

Variable py_str : pyval -> string.

Lemma cpu_alert_kind v t :
  is_cpu_alert (cpu_alert py_str v t) = true
  /\ is_memory_alert (cpu_alert py_str v t) = false
  /\ is_disk_alert (cpu_alert py_str v t) = false.
Proof. repeat split; reflexivity. Qed.

Lemma memory_alert_kind v t :
  is_cpu_alert (memory_alert py_str v t) = false
  /\ is_memory_alert (memory_alert py_str v t) = true
  /\ is_disk_alert (memory_alert py_str v t) = false.
Proof. repeat split; reflexivity. Qed.

Lemma disk_alert_kind m v t :
  is_cpu_alert (disk_alert py_str m v t) = false
  /\ is_memory_alert (disk_alert py_str m v t) = false
  /\ is_disk_alert (disk_alert py_str m v t) = true.
Proof. repeat split; reflexivity. Qed.

Lemma alert_if_In mk value t a :
  In a (alert_if mk value t) <->
  exists v, value = Some v /\ strictly_above v t /\ a = mk v t.
Proof.
  unfold alert_if. split.
  - destruct value as [v|]; [|intros []].
    destruct (exceeds v t) eqn:E; [|intros []].
    intros [<-|[]]. exists v. split; [done|]. split; [by apply exceeds_lt|done].
  - intros (v & -> & Hv & ->). apply exceeds_lt in Hv. rewrite Hv. by left.
Qed.

Lemma disk_alerts_In items t a :
  In a (disk_alerts py_str items t) <->
  exists m d v, In (m, d) items /\ percent_of d = Some v
                /\ strictly_above v t /\ a = disk_alert py_str m v t.
Proof.
  unfold disk_alerts. rewrite in_flat_map. split.
  - intros ([m d] & Hin & Ha). apply alert_if_In in Ha as (v & ? & ? & ?).
    by exists m, d, v.
  - intros (m & d & v & Hin & Hp & Hv & ->). exists (m, d). split; [done|].
    apply alert_if_In. by exists v.
Qed.

(** Which alerts of [evaluate] belong to which category. *)
Lemma evaluate_cpu hd tc tm td a :
  In a (evaluate py_str hd tc tm td) /\ is_cpu_alert a = true <->
  In a (cpu_alerts py_str hd tc).
Proof.
  unfold evaluate. rewrite !in_app_iff. split.
  - intros [[H|[H|H]] K]; [done| |].
    + apply alert_if_In in H as (v & _ & _ & ->).
      by rewrite (proj1 (memory_alert_kind v tm)) in K.
    + apply disk_alerts_In in H as (m & d & v & _ & _ & _ & ->).
      by rewrite (proj1 (disk_alert_kind m v td)) in K.
  - intros H. split; [by left|].
    apply alert_if_In in H as (v & _ & _ & ->).
    exact (proj1 (cpu_alert_kind v tc)).
Qed.

Lemma evaluate_memory hd tc tm td a :
  In a (evaluate py_str hd tc tm td) /\ is_memory_alert a = true <->
  In a (memory_alerts py_str hd tm).
Proof.
  unfold evaluate. rewrite !in_app_iff. split.
  - intros [[H|[H|H]] K]; [|done|].
    + apply alert_if_In in H as (v & _ & _ & ->).
      by rewrite (proj1 (proj2 (cpu_alert_kind v tc))) in K.
    + apply disk_alerts_In in H as (m & d & v & _ & _ & _ & ->).
      by rewrite (proj1 (proj2 (disk_alert_kind m v td))) in K.
  - intros H. split; [by right; left|].
    apply alert_if_In in H as (v & _ & _ & ->).
    exact (proj1 (proj2 (memory_alert_kind v tm))).
Qed.

Lemma evaluate_disk hd tc tm td a :
  In a (evaluate py_str hd tc tm td) /\ is_disk_alert a = true <->
  In a (disk_alerts py_str (disk_items hd) td).
Proof.
  unfold evaluate. rewrite !in_app_iff. split.
  - intros [[H|[H|H]] K]; [| |done].
    + apply alert_if_In in H as (v & _ & _ & ->).
      by rewrite (proj2 (proj2 (cpu_alert_kind v tc))) in K.
    + apply alert_if_In in H as (v & _ & _ & ->).
      by rewrite (proj2 (proj2 (memory_alert_kind v tm))) in K.
  - intros H. split; [by right; right|].
    apply disk_alerts_In in H as (m & d & v & _ & _ & _ & ->).
    exact (proj2 (proj2 (disk_alert_kind m v td))).
Qed.

End AlertTexts.

(** ** [check_alerts] computes [evaluate] *)

Lemma threshold_getitem self k v :
  threshold self k = Some v -> py_getitem (alert_thresholds self) k = Ok v.
Proof.
  unfold threshold, py_getitem. destruct (alert_thresholds self); try discriminate.
  by intros ->.
Qed.

Section CheckAlerts.

Variable py_str : pyval -> string.
Variable self : SystemHealthMonitor.
Variables tc tm td : pyval.
Hypothesis cpu_threshold : threshold self "cpu_percent" = Some tc.
Hypothesis memory_threshold : threshold self "memory_percent" = Some tm.
Hypothesis disk_threshold : threshold self "disk_percent" = Some td.
Hypothesis cpu_threshold_num : is_num tc = true.
Hypothesis memory_threshold_num : is_num tm = true.
Hypothesis disk_threshold_num : is_num td = true.

Lemma check_disk_item_spec item alerts :
  num_or_absent (percent_of (snd item)) = true ->
  check_disk_item py_str self item alerts =
  Ok (alerts ++ alert_if (disk_alert py_str (fst item)) (percent_of (snd item)) td).
Proof.
  destruct item as [m d]. unfold check_disk_item. simpl.
  destruct d as [| | | | |dd]; simpl; try (by rewrite app_nil_r).
  unfold dict_has. destruct (dict_get "percent" dd) as [v|] eqn:E; simpl.
  - intros Hv.
    rewrite (threshold_getitem _ _ _ disk_threshold). simpl.
    rewrite (py_gt_num _ _ Hv disk_threshold_num). simpl.
    by destruct (exceeds v td); simpl; rewrite ?app_nil_r.
  - intros _. by rewrite app_nil_r.
Qed.

Lemma check_disk_loop_spec items alerts :
  forallb (fun item => num_or_absent (percent_of (snd item))) items = true ->
  for_each (check_disk_item py_str self) items alerts =
  Ok (alerts ++ disk_alerts py_str items td).
Proof.
  revert alerts. induction items as [|item items IH]; intros alerts; simpl.
  - intros _. by rewrite app_nil_r.
  - rewrite andb_true_iff. intros [Hi Hr].
    rewrite (check_disk_item_spec _ _ Hi). simpl.
    rewrite (IH _ Hr). by rewrite <- app_assoc.
Qed.

Lemma check_category_spec (mk : pyval -> pyval -> string) hd category field
    t alerts :
  category_wf hd category field = true ->
  threshold self field = Some t ->
  is_num t = true ->
  check_category mk self (PDict hd) category field alerts =
  Ok (alerts ++ alert_if mk (metric hd category field) t).
Proof.
  unfold category_wf, metric, check_category. intros Hwf Ht Hnum. simpl.
  unfold dict_has.
  destruct (dict_get category hd) as [[| | | | |info]|]; simpl;
    try discriminate; try (by rewrite app_nil_r).
  unfold dict_has.
  destruct (dict_get field info) as [v|]; simpl; try (by rewrite app_nil_r).
  rewrite (threshold_getitem _ _ _ Ht). simpl.
  simpl in Hwf. rewrite (py_gt_num _ _ Hwf Hnum). simpl.
  by destruct (exceeds v t); simpl; rewrite ?app_nil_r.
Qed.

Lemma check_disk_spec hd alerts :
  forallb (fun item => num_or_absent (percent_of (snd item))) (disk_items hd)
    = true ->
  check_disk py_str self (PDict hd) alerts =
  Ok (alerts ++ disk_alerts py_str (disk_items hd) td).
Proof.
  unfold check_disk, disk_items. simpl. unfold dict_has.
  destruct (dict_get "disk_info" hd) as [[| | | | |items]|]; simpl;
    try (by rewrite app_nil_r).
  apply check_disk_loop_spec.
Qed.

Lemma check_alerts_spec hd :
  snapshot_wf hd = true ->
  check_alerts py_str self (PDict hd) = Ok (evaluate py_str hd tc tm td).
Proof.
  unfold snapshot_wf. rewrite !andb_true_iff. intros [[Hc Hm] Hd].
  unfold check_alerts.
  change (check_cpu py_str self (PDict hd) [])
    with (check_category (cpu_alert py_str) self (PDict hd)
            "cpu_info" "cpu_percent" []).
  rewrite (check_category_spec (cpu_alert py_str) _ _ _ tc [] Hc
             cpu_threshold cpu_threshold_num).
  simpl.
  change (check_memory py_str self (PDict hd))
    with (check_category (memory_alert py_str) self (PDict hd)
            "memory_info" "memory_percent").
  rewrite (check_category_spec (memory_alert py_str) _ _ _ tm _ Hm
             memory_threshold memory_threshold_num).
  simpl. rewrite (check_disk_spec _ _ Hd). simpl.
  unfold evaluate, cpu_alerts, memory_alerts. by rewrite <- app_assoc.
Qed.

Lemma disk_alerts_offending items :
  disk_alerts py_str items td =
  map (fun mv => disk_alert py_str (fst mv) (snd mv) td)
      (offending_mounts items td).
Proof.
  induction items as [|[m d] items IH]; [done|].
  unfold disk_alerts, offending_mounts in *. simpl. rewrite IH.
  destruct (percent_of d) as [v|]; [|done]. simpl.
  by destruct (exceeds v td).
Qed.

Lemma offending_mounts_In items t m v :
  In (m, v) (offending_mounts items t) <->
  exists d, In (m, d) items /\ percent_of d = Some v /\ strictly_above v t.
Proof.
  unfold offending_mounts. rewrite <- list_elem_of_In, list_elem_of_omap.
  split.
  - intros ([m' d] & Hin & H). simpl in H.
    destruct (percent_of d) as [v'|] eqn:P; [|done].
    destruct (exceeds v' t) eqn:E; [|done]. simplify_eq.
    exists d. rewrite <- list_elem_of_In.
    split; [done|]. split; [done|]. by apply exceeds_lt.
  - intros (d & Hin & P & A). exists (m, d). rewrite list_elem_of_In.
    split; [done|]. simpl. rewrite P. apply exceeds_lt in A. by rewrite A.
Qed.

Lemma offending_mounts_sublist items t :
  sublist (map fst (offending_mounts items t)) (map fst items).
Proof.
  induction items as [|[m d] items IH]; [done|].
  unfold offending_mounts in *. simpl.
  destruct (percent_of d) as [v|]; [|by apply sublist_cons].
  destruct (exceeds v t); simpl; [by apply sublist_skip|by apply sublist_cons].
Qed.

(** C1. For every snapshot and every threshold set, [check_alerts] returns
    without failing, and its list holds an alert of the cpu category iff
    the cpu field has a [cpu_percent] strictly greater than the cpu
    threshold, likewise for memory, and an alert for a mount point iff the
    [percent] of that mount point is strictly greater than the disk
    threshold.  A value equal to its threshold gives no alert, and neither
    does a category whose field is an error marker. *)
Theorem check_alerts_strict_threshold hd :
  snapshot_wf hd = true ->
  exists alerts,
    check_alerts py_str self (PDict hd) = Ok alerts
    /\ (has_alert is_cpu_alert alerts <->
        exists v, metric hd "cpu_info" "cpu_percent" = Some v
                  /\ strictly_above v tc)
    /\ (has_alert is_memory_alert alerts <->
        exists v, metric hd "memory_info" "memory_percent" = Some v
                  /\ strictly_above v tm)
    /\ (forall a, In a alerts /\ is_disk_alert a = true <->
        exists m d v, In (m, d) (disk_items hd) /\ percent_of d = Some v
                      /\ strictly_above v td
                      /\ a = disk_alert py_str m v td)
    /\ (forall v, metric hd "cpu_info" "cpu_percent" = Some v ->
                  equal_to v tc -> ~ has_alert is_cpu_alert alerts)
    /\ (forall v, metric hd "memory_info" "memory_percent" = Some v ->
                  equal_to v tm -> ~ has_alert is_memory_alert alerts)
    /\ ((forall m d v, In (m, d) (disk_items hd) -> percent_of d = Some v ->
                       equal_to v td) ->
        ~ has_alert is_disk_alert alerts)
    /\ (forall c, dict_get "cpu_info" hd = Some c -> is_error_marker c ->
                  ~ has_alert is_cpu_alert alerts)
    /\ (forall c, dict_get "memory_info" hd = Some c -> is_error_marker c ->
                  ~ has_alert is_memory_alert alerts)
    /\ (forall c, dict_get "disk_info" hd = Some c -> is_error_marker c ->
                  ~ has_alert is_disk_alert alerts).
Proof.
  intros Hwf. exists (evaluate py_str hd tc tm td).
  split; [by apply check_alerts_spec|].
  assert (Hcpu : has_alert is_cpu_alert (evaluate py_str hd tc tm td) <->
                 exists v, metric hd "cpu_info" "cpu_percent" = Some v
                           /\ strictly_above v tc).
  { unfold has_alert. split.
    - intros (a & Ha). apply evaluate_cpu, alert_if_In in Ha as (v & ? & ? & _).
      eauto.
    - intros (v & Hv & Ha). exists (cpu_alert py_str v tc).
      apply evaluate_cpu, alert_if_In. eauto. }
  assert (Hmem : has_alert is_memory_alert (evaluate py_str hd tc tm td) <->
                 exists v, metric hd "memory_info" "memory_percent" = Some v
                           /\ strictly_above v tm).
  { unfold has_alert. split.
    - intros (a & Ha).
      apply evaluate_memory, alert_if_In in Ha as (v & ? & ? & _). eauto.
    - intros (v & Hv & Ha). exists (memory_alert py_str v tm).
      apply evaluate_memory, alert_if_In. eauto. }
  assert (Hdisk : forall a,
            In a (evaluate py_str hd tc tm td) /\ is_disk_alert a = true <->
            exists m d v, In (m, d) (disk_items hd) /\ percent_of d = Some v
                          /\ strictly_above v td
                          /\ a = disk_alert py_str m v td).
  { intros a. by rewrite evaluate_disk, disk_alerts_In. }
  split; [exact Hcpu|]. split; [exact Hmem|]. split; [exact Hdisk|].
  split.
  { intros v Hv E H. apply Hcpu in H as (v' & Hv' & A).
    rewrite Hv in Hv'. simplify_eq. by apply (equal_not_above _ _ E). }
  split.
  { intros v Hv E H. apply Hmem in H as (v' & Hv' & A).
    rewrite Hv in Hv'. simplify_eq. by apply (equal_not_above _ _ E). }
  split.
  { intros E (a & H). apply Hdisk in H as (m & d & v & Hin & Hp & A & _).
    by apply (equal_not_above _ _ (E _ _ _ Hin Hp)). }
  split.
  { intros c Hc [msg ->] H. apply Hcpu in H as (v & Hv & _).
    unfold metric in Hv. rewrite Hc in Hv. discriminate. }
  split.
  { intros c Hc [msg ->] H. apply Hmem in H as (v & Hv & _).
    unfold metric in Hv. rewrite Hc in Hv. discriminate. }
  intros c Hc [msg ->] (a & H).
  apply Hdisk in H as (m & d & v & Hin & Hp & _).
  unfold disk_items in Hin. rewrite Hc in Hin.
  destruct Hin as [Hin|[]]. by simplify_eq.
Qed.

(** C3. The alerts come in the fixed order of the categories: the cpu
    alert if any, then the memory alert if any, then the disk alerts, one
    for each offending mount point, in the iteration order of the disk
    mapping. *)
Theorem check_alerts_order hd :
  snapshot_wf hd = true ->
  exists cpu mem offenders,
    check_alerts py_str self (PDict hd) =
      Ok (cpu ++ mem ++
          map (fun mv => disk_alert py_str (fst mv) (snd mv) td) offenders)
    /\ (cpu = [] \/ exists v, cpu = [cpu_alert py_str v tc])
    /\ (mem = [] \/ exists v, mem = [memory_alert py_str v tm])
    /\ offenders = offending_mounts (disk_items hd) td
    /\ sublist (map fst offenders) (map fst (disk_items hd))
    /\ (forall m v, In (m, v) offenders <->
          exists d, In (m, d) (disk_items hd) /\ percent_of d = Some v
                    /\ strictly_above v td).
Proof.
  intros Hwf.
  exists (cpu_alerts py_str hd tc), (memory_alerts py_str hd tm),
    (offending_mounts (disk_items hd) td).
  split.
  { rewrite (check_alerts_spec _ Hwf). unfold evaluate.
    by rewrite disk_alerts_offending. }
  split.
  { unfold cpu_alerts, alert_if.
    destruct (metric hd "cpu_info" "cpu_percent") as [v|]; [|by left].
    destruct (exceeds v tc); [right; by exists v|by left]. }
  split.
  { unfold memory_alerts, alert_if.
    destruct (metric hd "memory_info" "memory_percent") as [v|]; [|by left].
    destruct (exceeds v tm); [right; by exists v|by left]. }
  split; [done|]. split; [apply offending_mounts_sublist|].
  intros m v. apply offending_mounts_In.
Qed.

End CheckAlerts.

(** Error markers are skipped before any threshold is looked up: when the
    three categories failed, there is no alert and no failure, whatever the
    monitor holds as thresholds. *)
Lemma check_alerts_error_markers py_str self hd mc mm md :
  dict_get "cpu_info" hd = Some (PDict [("error", PStr mc)]) ->
  dict_get "memory_info" hd = Some (PDict [("error", PStr mm)]) ->
  dict_get "disk_info" hd = Some (PDict [("error", PStr md)]) ->
  check_alerts py_str self (PDict hd) = Ok [].
Proof.
  intros Hc Hm Hd.
  unfold check_alerts, check_cpu, check_memory, check_disk. simpl.
  unfold dict_has. by rewrite Hc, Hm, Hd.
Qed.

(** Witness of C1: the scenario, under the default thresholds. *)
Lemma check_alerts_strict_threshold_witness :
  snapshot_wf scenario = true
  /\ exists alerts,
       check_alerts str_stub (__init__ PNone) (PDict scenario) = Ok alerts
       /\ has_alert is_cpu_alert alerts
       /\ ~ has_alert is_memory_alert alerts.
Proof.
  split; [reflexivity|].
  destruct (check_alerts_strict_threshold str_stub (__init__ PNone)
              (PFloat 80) (PFloat 85) (PFloat 90)
              eq_refl eq_refl eq_refl eq_refl eq_refl eq_refl
              scenario eq_refl)
    as (alerts & Hrun & Hcpu & Hmem & _).
  exists alerts. split; [exact Hrun|]. split.
  - apply Hcpu. exists (PFloat 92.3). split; [reflexivity|].
    exists 92.3%Q, 80%Q. repeat split; reflexivity.
  - intros H. apply Hmem in H as (v & Hv & a & b & Ha & Hb & L).
    injection Hv as <-. injection Ha as <-. injection Hb as <-.
    discriminate L.
Defined.

(** Witness of C3: the scenario, under the default thresholds. *)
Lemma check_alerts_order_witness :
  snapshot_wf scenario = true
  /\ exists cpu mem offenders,
       check_alerts str_stub (__init__ PNone) (PDict scenario) =
         Ok (cpu ++ mem ++
             map (fun mv => disk_alert str_stub (fst mv) (snd mv) (PFloat 90))
                 offenders)
       /\ offenders = [("/", PFloat 95.5)].
Proof.
  split; [reflexivity|].
  destruct (check_alerts_order str_stub (__init__ PNone)
              (PFloat 80) (PFloat 85) (PFloat 90)
              eq_refl eq_refl eq_refl eq_refl eq_refl eq_refl
              scenario eq_refl)
    as (cpu & mem & offenders & Hrun & _ & _ & Hoff & _).
  exists cpu, mem, offenders. split; [exact Hrun|]. rewrite Hoff. reflexivity.
Defined.

(** C8. With thresholds cpu=80, memory=85, disk=90 and the snapshot of the
    scenario, [check_alerts] returns exactly two alerts: the cpu alert for
    92.3 against 80, then the disk alert for "/" at 95.5 against 90; there
    is no memory alert. *)
Theorem check_alerts_scenario (py_str : pyval -> string) :
  check_alerts py_str
    (__init__ (PDict [("cpu_percent", PFloat 80); ("memory_percent", PFloat 85);
                      ("disk_percent", PFloat 90)]))
    (PDict scenario)
  = Ok [cpu_alert py_str (PFloat 92.3) (PFloat 80);
        disk_alert py_str "/" (PFloat 95.5) (PFloat 90)].
Proof. reflexivity. Qed.

(** ** Dictionaries *)

Lemma dict_get_set_eq {V} k (v : V) d : dict_get k (dict_set k v d) = Some v.
Proof.
  induction d as [|[k' v'] d IH]; simpl.
  - by rewrite String.eqb_refl.
  - destruct (String.eqb k k') eqn:E; simpl; rewrite E; [done|apply IH].
Qed.

Lemma dict_get_set_ne {V} k k' (v : V) d :
  k <> k' -> dict_get k' (dict_set k v d) = dict_get k' d.
Proof.
  intros Hne. induction d as [|[k0 v0] d IH]; simpl.
  - apply String.eqb_neq in Hne. rewrite String.eqb_sym in Hne. by rewrite Hne.
  - destruct (String.eqb k k0) eqn:E; simpl.
    + apply String.eqb_eq in E as <-.
      assert (String.eqb k' k = false) as ->; [|done].
      apply String.eqb_neq. congruence.
    + by rewrite IH.
Qed.

Lemma dict_set_new {V} k (v : V) d :
  ~ In k (dict_keys d) -> dict_set k v d = d ++ [(k, v)].
Proof.
  induction d as [|[k' v'] d IH]; simpl; [done|]. intros H.
  destruct (String.eqb k k') eqn:E.
  - apply String.eqb_eq in E as <-. destruct H. by left.
  - rewrite IH; [done|]. intros K. apply H. by right.
Qed.

Lemma get_set_all_notin {V} k (rows d : list (string * V)) :
  ~ In k (dict_keys rows) -> dict_get k (set_all rows d) = dict_get k d.
Proof.
  revert d. induction rows as [|[k' v'] rows IH]; intros d H; simpl; [done|].
  rewrite IH.
  - apply dict_get_set_ne. intros ->. apply H. by left.
  - intros K. apply H. by right.
Qed.

Lemma get_set_all_in {V} k (rows d : list (string * V)) :
  In k (dict_keys rows) ->
  exists v, In (k, v) rows /\ dict_get k (set_all rows d) = Some v.
Proof.
  revert d. induction rows as [|[k' v'] rows IH]; intros d H; [destruct H|].
  simpl. destruct (in_dec String.string_dec k (dict_keys rows)) as [K|K].
  - destruct (IH (dict_set k' v' d) K) as (v & Hin & Hget).
    exists v. split; [by right|done].
  - destruct H as [H|H]; [|done]. simpl in H. subst k'.
    exists v'. split; [by left|].
    rewrite (get_set_all_notin _ _ _ K). apply dict_get_set_eq.
Qed.

Lemma set_all_nodup {V} (rows d : list (string * V)) :
  List.NoDup (dict_keys (d ++ rows)) -> set_all rows d = d ++ rows.
Proof.
  revert d. induction rows as [|[k v] rows IH]; intros d H; simpl.
  - by rewrite app_nil_r.
  - assert (Hk : ~ In k (dict_keys d)).
    { unfold dict_keys in H. rewrite map_app in H. simpl in H.
      apply NoDup_remove_2 in H.
      intros K. apply H. apply in_or_app. by left. }
    rewrite (dict_set_new _ _ _ Hk), IH; rewrite <- app_assoc; done.
Qed.

(** ** [get_disk_info] *)

Section DiskInfo.

Variable os : psutil.api.

Lemma disk_step_readable p u d :
  readable os p = Some u ->
  disk_step os p d = Ok (dict_set (psutil.mountpoint p) (entry_of p u) d).
Proof.
  unfold readable, disk_step, disk_entry, py_truediv, entry_of.
  destruct (psutil.disk_usage os (psutil.mountpoint p)) as [u'|e]; [|done].
  simpl. destruct (psutil.du_total u' =? 0)%Z; [done|]. by intros [= ->].
Qed.

Lemma disk_step_denied p d : denied os p = true -> disk_step os p d = Ok d.
Proof.
  unfold denied, disk_step.
  destruct (psutil.disk_usage os (psutil.mountpoint p)) as [u'|e]; [done|].
  simpl. by destruct (exn_cls e).
Qed.

Lemma disk_step_fails p d :
  fails_otherwise os p = true -> exists e, disk_step os p d = Raise e.
Proof.
  unfold fails_otherwise, disk_step.
  destruct (psutil.disk_usage os (psutil.mountpoint p)) as [u'|e]; [done|].
  simpl. destruct (exn_cls e); try done; by exists e.
Qed.

Lemma disk_loop_rows parts d :
  (forall p, In p parts -> is_Some (readable os p) \/ denied os p = true) ->
  for_each (disk_step os) parts d = Ok (set_all (disk_rows os parts) d).
Proof.
  revert d. induction parts as [|p parts IH]; intros d H; [done|].
  simpl. destruct (H p (or_introl eq_refl)) as [[u Hu]|Hd].
  - rewrite (disk_step_readable _ _ _ Hu). simpl. unfold disk_rows. simpl.
    rewrite Hu. simpl. apply IH. intros q Hq. apply H. by right.
  - rewrite (disk_step_denied _ _ Hd). simpl. unfold disk_rows. simpl.
    assert (readable os p = None) as ->.
    { unfold readable, denied in *.
      by destruct (psutil.disk_usage os (psutil.mountpoint p)). }
    apply IH. intros q Hq. apply H. by right.
Qed.

Lemma disk_loop_fails parts d :
  (exists p, In p parts /\ fails_otherwise os p = true) ->
  exists e, for_each (disk_step os) parts d = Raise e.
Proof.
  revert d. induction parts as [|p parts IH]; intros d (q & Hin & Hq).
  - destruct Hin.
  - simpl. destruct (disk_step os p d) as [d'|e] eqn:E; simpl.
    + destruct Hin as [->|Hin].
      * destruct (disk_step_fails q d Hq) as [e He]. congruence.
      * apply IH. eauto.
    + by exists e.
Qed.

Lemma disk_rows_In parts m e :
  In (m, e) (disk_rows os parts) <->
  exists p u, In p parts /\ readable os p = Some u
              /\ m = psutil.mountpoint p /\ e = entry_of p u.
Proof.
  unfold disk_rows. rewrite <- list_elem_of_In, list_elem_of_omap. split.
  - intros (p & Hin & H). destruct (readable os p) as [u|] eqn:R; [|done].
    simplify_eq. exists p, u. by rewrite <- list_elem_of_In.
  - intros (p & u & Hin & R & -> & ->). exists p.
    rewrite list_elem_of_In. by rewrite R.
Qed.

Lemma disk_rows_keys parts m :
  In m (dict_keys (disk_rows os parts)) <->
  exists p, In p parts /\ psutil.mountpoint p = m /\ is_Some (readable os p).
Proof.
  unfold dict_keys. rewrite in_map_iff. split.
  - intros ([m' e] & <- & Hin).
    apply disk_rows_In in Hin as (p & u & Hin & R & -> & _).
    exists p. by rewrite R.
  - intros (p & Hin & <- & [u R]).
    exists (psutil.mountpoint p, entry_of p u). split; [done|].
    apply disk_rows_In. by exists p, u.
Qed.

Lemma disk_rows_nodup parts :
  List.NoDup (map psutil.mountpoint parts) ->
  List.NoDup (dict_keys (disk_rows os parts)).
Proof.
  induction parts as [|p parts IH]; simpl; [constructor|].
  intros H. apply List.NoDup_cons_iff in H as [Hp H].
  unfold disk_rows. simpl. destruct (readable os p) as [u|]; [|by apply IH].
  simpl. constructor; [|by apply IH].
  intros K. apply disk_rows_keys in K as (q & Hq & E & _).
  apply Hp. rewrite <- E. by apply in_map.
Qed.

End DiskInfo.

(** C4, as the code has it.  When the enumeration of the partitions
    succeeds and every usage lookup either succeeds (with a total that is
    not zero) or fails with [PermissionError], [get_disk_info] returns a
    mapping, not an error marker: the partitions that were denied are
    dropped, and every mount point that could be read has its entry (of the
    partition itself when mount points are distinct).  A usage lookup that
    fails with an exception of another class makes the whole category an
    error marker, as a failed enumeration does. *)
Theorem get_disk_info_skips_denied (os : psutil.api) :
  (forall e, psutil.disk_partitions os = Raise e ->
     get_disk_info os = error_marker "Failed to get disk info: " e)
  /\ (forall parts,
        psutil.disk_partitions os = Ok parts ->
        (exists p, In p parts /\ fails_otherwise os p = true) ->
        is_error_marker (get_disk_info os))
  /\ (forall parts,
        psutil.disk_partitions os = Ok parts ->
        (forall p, In p parts ->
           is_Some (readable os p) \/ denied os p = true) ->
        exists d,
          get_disk_info os = PDict d
          /\ (forall p, In p parts -> denied os p = true ->
                dict_get (psutil.mountpoint p) d = None)
          /\ (forall p u, In p parts -> readable os p = Some u ->
                exists p', In p' parts
                  /\ psutil.mountpoint p' = psutil.mountpoint p
                  /\ dict_get (psutil.mountpoint p) d = Some (entry_of p' u))
          /\ (forall m, dict_has m d = true ->
                exists p, In p parts /\ psutil.mountpoint p = m
                          /\ is_Some (readable os p))
          /\ (List.NoDup (map psutil.mountpoint parts) ->
                d = disk_rows os parts)).
Proof.
  split; [|split].
  - intros e He. unfold get_disk_info. by rewrite He.
  - intros parts Hp Hf. unfold get_disk_info. rewrite Hp. simpl.
    destruct (disk_loop_fails os parts [] Hf) as [e ->]. simpl.
    by eexists.
  - intros parts Hp Hall. exists (set_all (disk_rows os parts) []).
    split.
    { unfold get_disk_info. rewrite Hp. simpl.
      by rewrite (disk_loop_rows os parts [] Hall). }
    split.
    { intros p Hin Hd. rewrite get_set_all_notin; [done|].
      intros K. apply disk_rows_keys in K as (q & _ & E & [u R]).
      unfold readable, denied in *. rewrite E in R.
      by destruct (psutil.disk_usage os (psutil.mountpoint p)). }
    split.
    { intros p u Hin R.
      destruct (get_set_all_in (psutil.mountpoint p) (disk_rows os parts) [])
        as (e & He & Hget).
      { apply disk_rows_keys. exists p. by rewrite R. }
      apply disk_rows_In in He as (p' & u' & Hin' & R' & E & ->).
      exists p'. split; [done|]. split; [done|]. rewrite Hget.
      unfold readable in R, R'. rewrite <- E in R'.
      destruct (psutil.disk_usage os (psutil.mountpoint p)) as [u0|]; [|done].
      destruct (psutil.du_total u0 =? 0)%Z; [done|]. congruence. }
    split.
    { intros m Hm. apply disk_rows_keys.
      destruct (in_dec String.string_dec m (dict_keys (disk_rows os parts)))
        as [K|K]; [done|].
      unfold dict_has in Hm. by rewrite (get_set_all_notin _ _ [] K) in Hm. }
    intros Hnd. apply (set_all_nodup _ []). simpl. by apply disk_rows_nodup.
Qed.

(** Witness of C4: the drive is denied, "/" and "/data" are reported. *)
Lemma get_disk_info_skips_denied_witness :
  exists d,
    get_disk_info machine_denied = PDict d
    /\ dict_keys d = ["/"; "/data"]
    /\ dict_get "/mnt/cdrom" d = None.
Proof.
  destruct (get_disk_info_skips_denied machine_denied) as (_ & _ & H).
  destruct (H [root_part; cdrom_part; data_part] eq_refl)
    as (d & Hd & Hdenied & _ & _ & Hrows).
  { intros p [<-|[<-|[<-|[]]]]; [left|right|left]; vm_compute; eauto. }
  exists d. split; [exact Hd|]. split.
  - rewrite Hrows; [reflexivity|].
    repeat constructor; simpl; intuition discriminate.
  - apply (Hdenied cdrom_part); [simpl; tauto|reflexivity].
Defined.

(** The claim C4 fails where a usage lookup fails otherwise than with
    [PermissionError]: the enumeration succeeded and "/" can be read, yet
    the whole category is an error marker. *)
Lemma get_disk_info_no_medium :
  psutil.disk_partitions machine_no_medium
    = Ok [root_part; cdrom_part; data_part]
  /\ is_Some (readable machine_no_medium root_part)
  /\ get_disk_info machine_no_medium
     = PDict [("error",
               PStr "Failed to get disk info: [Errno 123] No medium found")]
  /\ (forall d, get_disk_info machine_no_medium = PDict d ->
                dict_get "/" d = None /\ dict_get "/data" d = None).
Proof.
  split; [reflexivity|]. split; [vm_compute; eauto|]. split; [reflexivity|].
  intros d [= <-]. split; reflexivity.
Qed.

(** ** Sorting *)

Section SortingFacts.

Context {A : Type} (key : A -> Q).

(** A second criterion [before], consulted between equal keys. *)
Variable before : A -> A -> Prop.

Local Abbreviation asc_then_after := (asc_then_after key before).

Lemma asc_then_after_le a b : asc_then_after a b -> (key a <= key b)%Q.
Proof.
  intros [H|[H _]]; [by apply Qlt_le_weak|]. rewrite H. apply Qle_refl.
Qed.

Lemma insert_by_perm x l : Permutation (insert_by key x l) (x :: l).
Proof.
  induction l as [|y l IH]; simpl; [done|].
  destruct (Qltb (key y) (key x)); [|done].
  rewrite IH. apply perm_swap.
Qed.

Lemma sort_by_perm l : Permutation (sort_by key l) l.
Proof.
  induction l as [|x l IH]; simpl; [done|].
  rewrite insert_by_perm. by constructor.
Qed.

Lemma insert_by_sorted x l :
  Forall (fun y => before y x) l ->
  StronglySorted asc_then_after l ->
  StronglySorted asc_then_after (insert_by key x l).
Proof.
  induction l as [|y l IH]; simpl; intros Hb Hs.
  - repeat constructor.
  - apply Forall_cons_1 in Hb as [Hy Hb].
    apply StronglySorted_inv in Hs as [Hs Hy'].
    destruct (Qltb (key y) (key x)) eqn:E.
    + apply Qltb_lt in E. constructor; [by apply IH|].
      rewrite Forall_forall in *. intros w Hw.
      apply list_elem_of_In, (Permutation_in _ (insert_by_perm x l)) in Hw.
      destruct Hw as [<-|Hw]; [by left|]. apply Hy'. by apply list_elem_of_In.
    + assert (Hxy : (key x <= key y)%Q).
      { apply Qnot_lt_le. intros K. apply Qltb_lt in K. congruence. }
      assert (Hall : forall w, (key x <= key w)%Q -> before w x ->
                               asc_then_after x w).
      { intros w Hle Hw. apply Qle_lt_or_eq in Hle as [Hlt|Heq];
          [by left|by right]. }
      constructor; [by constructor|]. constructor; [by apply Hall|].
      rewrite Forall_forall in *. intros w Hw. apply Hall; [|by apply Hb].
      apply Qle_trans with (key y); [done|].
      apply asc_then_after_le. by apply Hy'.
Qed.

Lemma sort_by_sorted l :
  StronglySorted (flip before) l ->
  StronglySorted asc_then_after (sort_by key l).
Proof.
  induction l as [|x l IH]; simpl; intros Hs; [constructor|].
  apply StronglySorted_inv in Hs as [Hs Hx].
  apply insert_by_sorted; [|by apply IH].
  rewrite Forall_forall in *. intros y Hy. apply Hx.
  apply list_elem_of_In. apply list_elem_of_In in Hy.
  by apply (Permutation_in _ (sort_by_perm l)).
Qed.

(** Stability: insertion does not reorder the elements of one key. *)
Lemma insert_by_with_key k x l :
  List.filter (fun p => Qeq_bool (key p) k) (insert_by key x l) =
  List.filter (fun p => Qeq_bool (key p) k) (x :: l).
Proof.
  induction l as [|y l IH]; [done|]. simpl in *.
  destruct (Qltb (key y) (key x)) eqn:E; [|done]. simpl. rewrite IH.
  destruct (Qeq_bool (key y) k) eqn:Ey, (Qeq_bool (key x) k) eqn:Ex; try done.
  apply Qeq_bool_iff in Ey, Ex. apply Qltb_lt in E.
  rewrite Ey, Ex in E. by apply Qlt_irrefl in E.
Qed.

Lemma sort_by_with_key k l :
  List.filter (fun p => Qeq_bool (key p) k) (sort_by key l) =
  List.filter (fun p => Qeq_bool (key p) k) l.
Proof.
  induction l as [|x l IH]; [done|]. simpl sort_by.
  rewrite insert_by_with_key. simpl. by rewrite IH.
Qed.

Lemma StronglySorted_rev (R : A -> A -> Prop) l :
  StronglySorted R l -> StronglySorted (flip R) (rev l).
Proof.
  induction 1 as [|x l Hs IH Hx]; simpl; [constructor|].
  apply StronglySorted_app_2; [|done|repeat constructor].
  intros a b Ha Hb. apply list_elem_of_In in Ha, Hb.
  destruct Hb as [<-|[]]. apply in_rev in Ha.
  rewrite Forall_forall in Hx. apply Hx. by apply list_elem_of_In.
Qed.

Lemma py_sorted_reverse_perm l : Permutation (py_sorted key true l) l.
Proof.
  unfold py_sorted. rewrite <- Permutation_rev, sort_by_perm.
  symmetry. apply Permutation_rev.
Qed.

Lemma py_sorted_reverse_with_key k l :
  List.filter (fun p => Qeq_bool (key p) k) (py_sorted key true l) =
  List.filter (fun p => Qeq_bool (key p) k) l.
Proof.
  unfold py_sorted.
  by rewrite List.filter_rev, sort_by_with_key, List.filter_rev, rev_involutive.
Qed.

Lemma py_sorted_reverse_sorted l :
  StronglySorted before l ->
  StronglySorted (flip asc_then_after) (py_sorted key true l).
Proof.
  intros Hs. unfold py_sorted. apply StronglySorted_rev, sort_by_sorted.
  by apply StronglySorted_rev.
Qed.

End SortingFacts.

Lemma StronglySorted_impl {A} (R S : A -> A -> Prop) l :
  (forall a b, R a b -> S a b) -> StronglySorted R l -> StronglySorted S l.
Proof.
  intros HRS. induction 1 as [|x l Hs IH Hx]; constructor; [done|].
  eapply Forall_impl; [exact Hx|]. apply HRS.
Qed.

Lemma StronglySorted_trivial {A} (l : list A) :
  StronglySorted (fun _ _ => True) l.
Proof. induction l; constructor; [done|]. by apply Forall_forall. Qed.

Lemma StronglySorted_take {A} (R : A -> A -> Prop) n l :
  StronglySorted R l -> StronglySorted R (take n l).
Proof.
  intros H. rewrite <- (take_drop n l) in H.
  by apply StronglySorted_app_1_l in H.
Qed.

Lemma slice_to_nonneg {A} (n : Z) (l : list A) :
  (0 <= n)%Z -> slice_to n l = take (Z.to_nat n) l.
Proof. unfold slice_to. intros H. by apply Z.leb_le in H as ->. Qed.

Lemma slice_to_take {A} (n : Z) (l : list A) :
  exists m, slice_to n l = take m l.
Proof. unfold slice_to. destruct (0 <=? n)%Z; eauto. Qed.

Lemma slice_to_In {A} (n : Z) (l : list A) x : In x (slice_to n l) -> In x l.
Proof.
  destruct (slice_to_take n l) as [m ->]. rewrite <- !list_elem_of_In.
  apply subseteq_take.
Qed.

(** ** [get_process_info] *)

Lemma process_loop_reads procs acc :
  enumerable procs ->
  for_each process_step procs acc = Ok (acc ++ read_infos procs).
Proof.
  revert acc. induction procs as [|r procs IH]; intros acc H; simpl.
  - by rewrite app_nil_r.
  - apply Forall_cons_1 in H as [Hr H]. destruct r as [info|e]; simpl.
    + rewrite (IH _ H). unfold read_infos. simpl. by rewrite <- app_assoc.
    + unfold vanished_or_denied in Hr. unfold read_infos. simpl.
      destruct (exn_cls e); try discriminate; by apply IH.
Qed.

Lemma read_infos_In procs p : In p (read_infos procs) <-> In (Ok p) procs.
Proof.
  unfold read_infos. rewrite <- !list_elem_of_In, list_elem_of_omap. split.
  - intros ([q|e] & Hin & H); [|done]. by simplify_eq.
  - intros H. by exists (Ok p).
Qed.

Lemma py_sorted_ranks key l : ranks key l (py_sorted key true l).
Proof.
  split; [apply py_sorted_reverse_perm|]. split.
  - eapply StronglySorted_impl;
      [|apply (py_sorted_reverse_sorted key (fun _ _ => True)),
          StronglySorted_trivial].
    intros a b H. by apply asc_then_after_le in H.
  - intros k. apply py_sorted_reverse_with_key.
Qed.

Lemma py_sorted_by_pid key l :
  StronglySorted ascending_pid l ->
  StronglySorted (by_key_then_pid key) (py_sorted key true l).
Proof.
  intros H. eapply StronglySorted_impl;
    [|apply (py_sorted_reverse_sorted key ascending_pid), H].
  intros a b [K|[K1 K2]]; [by left|right]. split; [by symmetry|done].
Qed.

Lemma get_process_info_unfold os top_n procs :
  psutil.process_iter os = Ok procs ->
  enumerable procs ->
  get_process_info os top_n =
  PDict
    [("total_processes", PInt (Z.of_nat (length (read_infos procs))));
     ("top_cpu_processes",
       PList (map info_dict (top_cpu_of top_n (read_infos procs))));
     ("top_memory_processes",
       PList (map info_dict (top_memory_of top_n (read_infos procs))))].
Proof.
  intros Hp He. unfold get_process_info. rewrite Hp. simpl.
  by rewrite (process_loop_reads _ [] He).
Qed.


(** C7. When the enumeration meets processes that vanished or may not be
    inspected, [total_processes] is the number of entries that were read,
    and every entry of the two top lists is one that was read. *)
Theorem get_process_info_counts_read os top_n procs :
  psutil.process_iter os = Ok procs ->
  enumerable procs ->
  exists top_cpu top_memory,
    get_process_info os top_n =
      PDict
        [("total_processes", PInt (Z.of_nat (length (read_infos procs))));
         ("top_cpu_processes", PList (map info_dict top_cpu));
         ("top_memory_processes", PList (map info_dict top_memory))]
    /\ (forall p, In p top_cpu -> In (Ok p) procs)
    /\ (forall p, In p top_memory -> In (Ok p) procs).
Proof.
  intros Hp He.
  exists (top_cpu_of top_n (read_infos procs)),
    (top_memory_of top_n (read_infos procs)).
  split; [by apply get_process_info_unfold|].
  split; intros p Hin; apply read_infos_In; apply slice_to_In in Hin;
    eapply Permutation_in; try exact Hin; apply py_sorted_reverse_perm.
Qed.

Lemma sample_processes_enumerable : enumerable sample_processes.
Proof. repeat constructor. Qed.


(** Witness of C7: two of the five processes are skipped. *)
Lemma get_process_info_counts_read_witness :
  enumerable sample_processes
  /\ exists top_cpu top_memory,
       get_process_info machine_denied 5 =
         PDict
           [("total_processes", PInt 3);
            ("top_cpu_processes", PList (map info_dict top_cpu));
            ("top_memory_processes", PList (map info_dict top_memory))]
       /\ (forall p, In p top_cpu -> In (Ok p) sample_processes).
Proof.
  split; [exact sample_processes_enumerable|].
  destruct (get_process_info_counts_read machine_denied 5 sample_processes
              eq_refl sample_processes_enumerable)
    as (top_cpu & top_memory & Hrun & Hc & _).
  exists top_cpu, top_memory. split; [exact Hrun|exact Hc].
Defined.

(** ** The collectors return data or an error marker *)

Lemma error_marker_is what e : is_error_marker (error_marker what e).
Proof. by eexists. Qed.

Lemma get_system_info_shape os :
  is_error_marker (get_system_info os)
  \/ has_keys system_keys (get_system_info os).
Proof.
  unfold get_system_info.
  destruct (psutil.boot_time os) as [t|e]; simpl;
    [|left; apply error_marker_is].
  destruct (psutil.format_timestamp os t) as [b|e]; simpl;
    [|left; apply error_marker_is].
  destruct (psutil.uname os) as [u|e]; simpl;
    left; apply error_marker_is.
Qed.

Lemma get_cpu_info_shape os :
  exists kvs,
    get_cpu_info os = PDict kvs
    /\ num_or_absent (dict_get "cpu_percent" kvs) = true
    /\ (is_error_marker (PDict kvs) \/ dict_keys kvs = cpu_keys).
Proof.
  unfold get_cpu_info.
  destruct (psutil.sample_cpu_percent os) as [x|e]; simpl;
    [|by eexists; repeat split; left; eexists].
  destruct (psutil.cpu_count_logical os) as [n|e]; simpl;
    [|by eexists; repeat split; left; eexists].
  destruct (psutil.cpu_freq os) as [f|e]; simpl;
    [|by eexists; repeat split; left; eexists].
  destruct (psutil.cpu_count_physical os) as [m|e]; simpl;
    [|by eexists; repeat split; left; eexists].
  destruct (psutil.getloadavg os) as [[[[a b] c]|e]|]; simpl;
    by eexists; repeat split; (by right) || (left; by eexists).
Qed.

Lemma get_memory_info_shape os :
  exists kvs,
    get_memory_info os = PDict kvs
    /\ num_or_absent (dict_get "memory_percent" kvs) = true
    /\ (is_error_marker (PDict kvs) \/ dict_keys kvs = memory_keys).
Proof.
  unfold get_memory_info.
  destruct (psutil.virtual_memory os) as [x|e]; simpl;
    [|by eexists; repeat split; left; eexists].
  destruct (psutil.swap_memory os) as [n|e]; simpl;
    [|by eexists; repeat split; left; eexists].
  by eexists; repeat split; right.
Qed.

Lemma Forall_dict_set {V} (P : string * V -> Prop) k v d :
  (forall k', P (k', v)) -> Forall P d -> Forall P (dict_set k v d).
Proof.
  intros Hv. induction 1 as [|[k0 v0] d H0 Hd IH]; simpl.
  - by repeat constructor.
  - destruct (String.eqb k k0); constructor; done.
Qed.

Lemma disk_step_rows os p d d' :
  Forall disk_row_ok d -> disk_step os p d = Ok d' -> Forall disk_row_ok d'.
Proof.
  unfold disk_step, disk_entry, py_truediv. intros Hd.
  destruct (psutil.disk_usage os (psutil.mountpoint p)) as [u|e]; simpl.
  - destruct (psutil.du_total u =? 0)%Z; simpl; [discriminate|].
    intros [= <-]. apply Forall_dict_set; [|done].
    intros k'. split; [by eexists|done].
  - destruct (exn_cls e); try discriminate. by intros [= <-].
Qed.

Lemma disk_loop_rows_ok os parts d d' :
  Forall disk_row_ok d ->
  for_each (disk_step os) parts d = Ok d' -> Forall disk_row_ok d'.
Proof.
  revert d. induction parts as [|p parts IH]; intros d Hd; simpl.
  - by intros [= <-].
  - destruct (disk_step os p d) as [d1|e] eqn:E; simpl; [|discriminate].
    apply IH. by apply (disk_step_rows os p d).
Qed.

Lemma get_disk_info_shape os :
  exists d,
    get_disk_info os = PDict d
    /\ forallb (fun item => num_or_absent (percent_of (snd item))) d = true
    /\ (is_error_marker (PDict d) \/ rows_with_keys disk_keys (PDict d)).
Proof.
  unfold get_disk_info.
  destruct (psutil.disk_partitions os) as [parts|e]; simpl;
    [|by eexists; repeat split; left; eexists].
  destruct (for_each (disk_step os) parts []) as [d|e] eqn:E; simpl;
    [|by eexists; repeat split; left; eexists].
  apply disk_loop_rows_ok in E; [|constructor].
  exists d. split; [done|]. split.
  - apply forallb_forall. intros kv Hin. rewrite Forall_forall in E.
    apply list_elem_of_In in Hin. by apply E.
  - right. exists d. split; [done|].
    eapply Forall_impl; [exact E|]. by intros kv [H _].
Qed.

Lemma network_loop_rows stats d :
  Forall (fun kv => has_keys network_keys (snd kv)) d ->
  exists d', for_each network_step stats d = Ok d'
             /\ Forall (fun kv => has_keys network_keys (snd kv)) d'.
Proof.
  revert d. induction stats as [|[i st] stats IH]; intros d Hd; simpl;
    [eauto|].
  apply IH. apply Forall_dict_set; [|done]. intros k'. by eexists.
Qed.

Lemma get_network_info_shape os :
  is_error_marker (get_network_info os)
  \/ rows_with_keys network_keys (get_network_info os).
Proof.
  unfold get_network_info.
  destruct (psutil.net_io_counters os) as [stats|e]; simpl;
    [|left; apply error_marker_is].
  destruct (network_loop_rows stats []) as (d' & -> & Hd'); [constructor|].
  simpl. right. by exists d'.
Qed.

Lemma get_process_info_shape os top_n :
  is_error_marker (get_process_info os top_n)
  \/ has_keys process_keys (get_process_info os top_n).
Proof.
  unfold get_process_info.
  destruct (psutil.process_iter os) as [procs|e]; simpl;
    [|left; apply error_marker_is].
  destruct (for_each process_step procs []) as [ps|e]; simpl;
    [|left; apply error_marker_is].
  right. by eexists.
Qed.

(** ** [collect_all_metrics] *)

Section Collect.

Variable py_str : pyval -> string.
Variable self : SystemHealthMonitor.
Variables tc tm td : pyval.
Hypothesis cpu_threshold : threshold self "cpu_percent" = Some tc.
Hypothesis memory_threshold : threshold self "memory_percent" = Some tm.
Hypothesis disk_threshold : threshold self "disk_percent" = Some td.
Hypothesis cpu_threshold_num : is_num tc = true.
Hypothesis memory_threshold_num : is_num tm = true.
Hypothesis disk_threshold_num : is_num td = true.

(** C2, as the code has it.  On a monitor whose threshold mapping has a
    number for each of [cpu_percent], [memory_percent] and [disk_percent],
    [collect_all_metrics] returns, whatever the calls to the operating
    system do, a snapshot with [timestamp], the six category fields and
    [alerts], in this order; each category field is an error marker or the
    data of its category. *)
Theorem collect_all_metrics_total (os : psutil.api) :
  exists alerts,
    collect_all_metrics py_str self os =
      Ok (PDict
        [("timestamp", PStr (psutil.now os));
         ("system_info", get_system_info os);
         ("cpu_info", get_cpu_info os);
         ("memory_info", get_memory_info os);
         ("disk_info", get_disk_info os);
         ("network_info", get_network_info os);
         ("process_info", get_process_info os 5);
         ("alerts", PList (map PStr alerts))])
    /\ (is_error_marker (get_system_info os)
        \/ has_keys system_keys (get_system_info os))
    /\ (is_error_marker (get_cpu_info os)
        \/ has_keys cpu_keys (get_cpu_info os))
    /\ (is_error_marker (get_memory_info os)
        \/ has_keys memory_keys (get_memory_info os))
    /\ (is_error_marker (get_disk_info os)
        \/ rows_with_keys disk_keys (get_disk_info os))
    /\ (is_error_marker (get_network_info os)
        \/ rows_with_keys network_keys (get_network_info os))
    /\ (is_error_marker (get_process_info os 5)
        \/ has_keys process_keys (get_process_info os 5)).
Proof.
  pose proof (get_system_info_shape os) as Hsys.
  pose proof (get_network_info_shape os) as Hnet.
  pose proof (get_process_info_shape os 5) as Hproc.
  destruct (get_cpu_info_shape os) as (ci & Eci & Wci & Sci).
  destruct (get_memory_info_shape os) as (mi & Emi & Wmi & Smi).
  destruct (get_disk_info_shape os) as (di & Edi & Wdi & Sdi).
  unfold collect_all_metrics. rewrite Eci, Emi, Edi in *.
  remember (get_system_info os) as si. remember (get_network_info os) as ni.
  remember (get_process_info os 5) as pi. clear Heqsi Heqni Heqpi.
  set (hd := [("timestamp", PStr (psutil.now os)); ("system_info", si);
              ("cpu_info", PDict ci); ("memory_info", PDict mi);
              ("disk_info", PDict di); ("network_info", ni);
              ("process_info", pi)]).
  assert (Hwf : snapshot_wf hd = true).
  { unfold snapshot_wf, category_wf, disk_items. simpl.
    by rewrite Wci, Wmi, Wdi. }
  rewrite (check_alerts_spec py_str self tc tm td cpu_threshold
             memory_threshold disk_threshold cpu_threshold_num
             memory_threshold_num disk_threshold_num hd Hwf).
  exists (evaluate py_str hd tc tm td). split; [reflexivity|].
  repeat split; try done.
  - destruct Sci; [by left|right; by exists ci].
  - destruct Smi; [by left|right; by exists mi].
Qed.

End Collect.

(** Witness of C2: a collection under the default thresholds. *)
Lemma collect_all_metrics_total_witness :
  exists alerts,
    collect_all_metrics str_stub (__init__ PNone) machine_denied =
      Ok (PDict
        [("timestamp", PStr (psutil.now machine_denied));
         ("system_info", get_system_info machine_denied);
         ("cpu_info", get_cpu_info machine_denied);
         ("memory_info", get_memory_info machine_denied);
         ("disk_info", get_disk_info machine_denied);
         ("network_info", get_network_info machine_denied);
         ("process_info", get_process_info machine_denied 5);
         ("alerts", PList (map PStr alerts))]).
Proof.
  destruct (collect_all_metrics_total str_stub (__init__ PNone)
              (PFloat 80) (PFloat 85) (PFloat 90)
              eq_refl eq_refl eq_refl eq_refl eq_refl eq_refl machine_denied)
    as (alerts & Hrun & _).
  exists alerts. exact Hrun.
Defined.

(** The claim C2 fails on a monitor built from a mapping that leaves a
    category out: the collection raises [KeyError] and builds no
    snapshot. *)
Lemma collect_all_metrics_partial_thresholds :
  collect_all_metrics str_stub
    (__init__ (PDict [("cpu_percent", PFloat 50)])) machine_denied
  = Raise (Exn KeyError "'memory_percent'").
Proof. reflexivity. Qed.

(** ** [__init__] *)

(** C9. An empty threshold mapping gives exactly the default thresholds,
    as passing no mapping does, and the two monitors evaluate alerts
    alike. *)
Theorem init_empty_mapping :
  __init__ (PDict []) = __init__ PNone
  /\ alert_thresholds (__init__ (PDict []))
     = PDict [("cpu_percent", PFloat 80); ("memory_percent", PFloat 85);
              ("disk_percent", PFloat 90)]
  /\ (forall py_str health_data,
        check_alerts py_str (__init__ (PDict [])) health_data
        = check_alerts py_str (__init__ PNone) health_data).
Proof. split; [|split]; [reflexivity|reflexivity|]. intros. reflexivity. Qed.

(** The claim C6 fails on a mapping that leaves categories out: it is
    stored as it is, the memory threshold has no default, and evaluating
    the memory category raises [KeyError]. *)
Lemma init_partial_mapping :
  alert_thresholds (__init__ (PDict [("cpu_percent", PFloat 50)]))
    = PDict [("cpu_percent", PFloat 50)]
  /\ threshold (__init__ (PDict [("cpu_percent", PFloat 50)]))
       "memory_percent" = None
  /\ py_getitem
       (alert_thresholds (__init__ (PDict [("cpu_percent", PFloat 50)])))
       "memory_percent"
     <> Ok (PFloat 85)
  /\ check_alerts str_stub (__init__ (PDict [("cpu_percent", PFloat 50)]))
       (PDict scenario)
     = Raise (Exn KeyError "'memory_percent'").
Proof. split; [|split; [|split]]; try reflexivity. discriminate. Qed.

(** ** The store: reading values out *)

Lemma reify_depth d d' h v p :
  (d <= d')%nat -> reify d h v = Some p -> reify d' h v = Some p.
Proof.
  revert d' v p. induction d as [|d IH]; intros d' v p Hle.
  - destruct v, d'; simpl; try done.
  - destruct d' as [|d']; [lia|]. destruct v; simpl; try done.
    destruct (h !! l) as [[xs|kvs|attrs]|]; try done.
    + destruct (mapM (reify d h) xs) as [ps|] eqn:E; [|done].
      intros [= <-]. apply mapM_Some in E.
      assert (mapM (reify d' h) xs = Some ps) as ->; [|done].
      apply mapM_Some. eapply Forall2_impl; [exact E|].
      intros x y. apply IH. lia.
    + destruct (mapM _ kvs) as [ps|] eqn:E; [|done].
      intros [= <-]. apply mapM_Some in E.
      assert (mapM (fun kv => pair (fst kv) <$> reify d' h (snd kv)) kvs
              = Some ps) as ->; [|done].
      apply mapM_Some. eapply Forall2_impl; [exact E|].
      intros [k x] y. simpl.
      destruct (reify d h x) as [q|] eqn:R; [|done].
      by rewrite (IH d' x q ltac:(lia) R).
Qed.

Lemma reify_mono d h h' v p :
  h ⊆ h' -> reify d h v = Some p -> reify d h' v = Some p.
Proof.
  intros Hsub. revert v p. induction d as [|d IH]; intros v p.
  - by destruct v.
  - destruct v; simpl; try done.
    destruct (h !! l) as [o|] eqn:L; [|done].
    rewrite (lookup_weaken _ _ _ _ L Hsub).
    destruct o as [xs|kvs|attrs]; try done.
    + destruct (mapM (reify d h) xs) as [ps|] eqn:E; [|done].
      intros [= <-]. apply mapM_Some in E.
      assert (mapM (reify d h') xs = Some ps) as ->; [|done].
      apply mapM_Some. eapply Forall2_impl; [exact E|]. apply IH.
    + destruct (mapM _ kvs) as [ps|] eqn:E; [|done].
      intros [= <-]. apply mapM_Some in E.
      assert (mapM (fun kv => pair (fst kv) <$> reify d h' (snd kv)) kvs
              = Some ps) as ->; [|done].
      apply mapM_Some. eapply Forall2_impl; [exact E|].
      intros [k x] y. simpl.
      destruct (reify d h x) as [q|] eqn:R; [|done].
      by rewrite (IH x q R).
Qed.

Lemma reify_dict_inv d h v pkvs :
  reify d h v = Some (PDict pkvs) ->
  exists l d' kvs, v = VRef l /\ d = S d' /\ h !! l = Some (ODict kvs)
                   /\ rows_reify d' h kvs pkvs.
Proof.
  destruct v, d as [|d']; simpl; try done.
  destruct (h !! l) as [[xs|kvs|attrs]|] eqn:L; try done.
  - by destruct (mapM (reify d' h) xs).
  - destruct (mapM _ kvs) as [ps|] eqn:E; [|done]. intros [= <-].
    exists l, d', kvs. repeat split; try done.
    apply mapM_Some in E. eapply Forall2_impl; [exact E|].
    intros [k x] [k' y]. simpl. destruct (reify d' h x); [|done].
    simpl. by intros [= -> ->].
Qed.

Lemma reify_list_inv d h v ps :
  reify d h v = Some (PList ps) ->
  exists l d' xs, v = VRef l /\ d = S d' /\ h !! l = Some (OList xs)
                  /\ Forall2 (fun x p => reify d' h x = Some p) xs ps.
Proof.
  destruct v, d as [|d']; simpl; try done.
  destruct (h !! l) as [[xs|kvs|attrs]|] eqn:L; try done.
  - destruct (mapM (reify d' h) xs) as [ps'|] eqn:E; [|done]. intros [= <-].
    exists l, d', xs. repeat split; try done. by apply mapM_Some.
  - by destruct (mapM _ kvs).
Qed.

Lemma rows_reify_get d h kvs pkvs k :
  rows_reify d h kvs pkvs ->
  match dict_get k kvs, dict_get k pkvs with
  | Some v, Some p => reify d h v = Some p
  | None, None => True
  | _, _ => False
  end.
Proof.
  induction 1 as [|[k1 v] [k2 p] kvs pkvs [Hk Hv] _ IH]; simpl; [done|].
  simpl in Hk, Hv. subst k2. by destruct (String.eqb k k1).
Qed.

(** ** The store: the operators agree with those on values *)

Lemma reify_inv_immediate d h v p :
  reify d h v = Some p ->
  match p with
  | PNone => v = VNone
  | PInt n => v = VInt n
  | PFloat x => v = VFloat x
  | PStr s => v = VStr s
  | _ => True
  end.
Proof.
  destruct v, d; simpl; try (by intros [= <-]); try done.
  destruct (h !! l) as [[xs|kvs|attrs]|]; try done.
  - destruct (mapM (reify d h) xs); [|done]. by intros [= <-].
  - destruct (mapM _ kvs); [|done]. by intros [= <-].
Qed.

Lemma contains_h_reify d h v p k :
  reify d h v = Some p -> contains_h k v h = py_contains k p.
Proof.
  destruct p as [| | | |ps|pkvs].
  1-4: by intros H; apply reify_inv_immediate in H as ->.
  - intros H. apply reify_list_inv in H as (l & d' & xs & -> & -> & L & F).
    simpl. rewrite L. f_equal. clear L.
    induction F as [|x q xs ps Hx _ IH]; simpl; [done|]. rewrite IH. f_equal.
    apply reify_inv_immediate in Hx as Hi.
    destruct q; subst; try done.
    + apply reify_list_inv in Hx as (? & ? & ? & -> & _). done.
    + apply reify_dict_inv in Hx as (? & ? & ? & -> & _). done.
  - intros H. apply reify_dict_inv in H as (l & d' & kvs & -> & -> & L & F).
    simpl. rewrite L. f_equal. unfold dict_has.
    pose proof (rows_reify_get _ _ _ _ k F) as G.
    by destruct (dict_get k kvs), (dict_get k pkvs).
Qed.

Lemma getitem_h_reify d h v p k :
  reify d h v = Some p ->
  match py_getitem p k with
  | Ok p' => exists v', getitem_h v k h = Ok v' /\ reify d h v' = Some p'
  | Raise e => getitem_h v k h = Raise e
  end.
Proof.
  destruct p as [| | | |ps|pkvs].
  1-4: by intros H; apply reify_inv_immediate in H as ->.
  - intros H. apply reify_list_inv in H as (l & d' & xs & -> & -> & L & F).
    simpl. by rewrite L.
  - intros H. apply reify_dict_inv in H as (l & d' & kvs & -> & -> & L & F).
    simpl. rewrite L.
    pose proof (rows_reify_get _ _ _ _ k F) as G.
    destruct (dict_get k kvs) as [v'|], (dict_get k pkvs) as [p'|];
      try done.
    exists v'. split; [done|]. by apply (reify_depth d' (S d')); [lia|].
Qed.

Lemma isinstance_dict_h_reify d h v p :
  reify d h v = Some p -> isinstance_dict_h v h = isinstance_dict p.
Proof.
  destruct v, d; simpl; try (by intros [= <-]); try done.
  destruct (h !! l) as [[xs|kvs|attrs]|]; try done.
  - destruct (mapM (reify d h) xs); [|done]. by intros [= <-].
  - destruct (mapM _ kvs); [|done]. by intros [= <-].
Qed.

Lemma items_h_reify d h v pkvs :
  reify d h v = Some (PDict pkvs) -> rows_reify d h (items_h v h) pkvs.
Proof.
  intros H. apply reify_dict_inv in H as (l & d' & kvs & -> & -> & L & F).
  simpl. rewrite L. eapply Forall2_impl; [exact F|].
  intros kv pkv [Hk Hv]. split; [done|].
  by apply (reify_depth d' (S d')); [lia|].
Qed.

(** ** The store: what [check_alerts] writes *)

Lemma appends_to_ret {A} target (a : A) : appends_to target (mret a).
Proof.
  intros h xs r h' Hl [= <- <-]. exists []. rewrite app_nil_r.
  by rewrite insert_id.
Qed.

Lemma appends_to_read {A} target (f : heap -> result A) :
  appends_to target (read f).
Proof.
  intros h xs r h' Hl [= <- <-]. exists []. rewrite app_nil_r.
  by rewrite insert_id.
Qed.

Lemma appends_to_bind {A B} target (m : St A) (f : A -> St B) :
  appends_to target m -> (forall a, appends_to target (f a)) ->
  appends_to target (m ≫= f).
Proof.
  intros Hm Hf h xs r h' Hl. unfold mbind, St_bind.
  destruct (m h) as [[a|e] h1] eqn:E.
  - destruct (Hm _ _ _ _ Hl E) as [ys ->]. intros Hrun.
    destruct (Hf a _ (xs ++ ys) _ _ (lookup_insert_eq _ _ _) Hrun) as [zs ->].
    exists (ys ++ zs). by rewrite insert_insert_eq, app_assoc.
  - intros [= <- <-]. by apply (Hm _ _ _ _ Hl E).
Qed.

Lemma appends_to_append target v : appends_to target (append target v).
Proof.
  intros h xs r h' Hl. unfold append. rewrite Hl. intros [= <- <-]. by exists [v].
Qed.

Lemma appends_to_if {A} target (b : bool) (m1 m2 : St A) :
  appends_to target m1 -> appends_to target m2 ->
  appends_to target (if b then m1 else m2).
Proof. by destruct b. Qed.

Lemma appends_to_for_each {A} target (body : A -> St unit) xs :
  (forall x, appends_to target (body x)) ->
  appends_to target (for_each_st body xs).
Proof.
  intros Hb. induction xs as [|x xs IH]; simpl.
  - apply appends_to_ret.
  - apply appends_to_bind; [apply Hb|]. by intros _.
Qed.

Section StoreFrame.

Variable py_str : pyval -> string.
Variable depth : nat.

Lemma appends_to_append_alert alerts self prefix value key :
  appends_to alerts (append_alert py_str depth alerts self prefix value key).
Proof.
  unfold append_alert.
  repeat (apply appends_to_bind; [apply appends_to_read|intros ?]).
  apply appends_to_append.
Qed.

Lemma appends_to_check_category self hd alerts category field prefix :
  appends_to alerts
    (check_category_st py_str depth self hd alerts category field prefix).
Proof.
  unfold check_category_st.
  apply appends_to_bind; [apply appends_to_read|intros present].
  apply appends_to_if; [|apply appends_to_ret].
  repeat (apply appends_to_bind; [apply appends_to_read|intros ?]).
  apply appends_to_if; [apply appends_to_append_alert|apply appends_to_ret].
Qed.

Lemma appends_to_check_disk_item self alerts item :
  appends_to alerts (check_disk_item_st py_str depth self alerts item).
Proof.
  destruct item as [m d]. unfold check_disk_item_st.
  apply appends_to_bind; [apply appends_to_read|intros present].
  apply appends_to_if; [|apply appends_to_ret].
  repeat (apply appends_to_bind; [apply appends_to_read|intros ?]).
  apply appends_to_if; [apply appends_to_append_alert|apply appends_to_ret].
Qed.

Lemma appends_to_check_disk self hd alerts :
  appends_to alerts (check_disk_st py_str depth self hd alerts).
Proof.
  unfold check_disk_st.
  apply appends_to_bind; [apply appends_to_read|intros has_disk].
  apply appends_to_if; [|apply appends_to_ret].
  apply appends_to_bind; [apply appends_to_read|intros disk_info].
  apply appends_to_bind; [apply appends_to_read|intros is_dict].
  apply appends_to_if; [|apply appends_to_ret].
  apply appends_to_bind; [apply appends_to_read|intros items].
  apply appends_to_for_each. intros item. apply appends_to_check_disk_item.
Qed.

(** The store after [check_alerts] is the store before it with one more
    object, the list of alerts, at a location that was not in use. *)
Lemma check_alerts_st_frame self hd h r h' :
  check_alerts_st py_str depth self hd h = (r, h') ->
  exists la ys,
    h !! la = None
    /\ h' = <[la := OList ys]> h
    /\ (forall v, r = Ok v -> v = VRef la).
Proof.
  set (la := fresh (dom h)).
  assert (Hfresh : h !! la = None).
  { apply not_elem_of_dom, is_fresh. }
  assert (Hblocks : appends_to la
    (_ ← check_cpu_st py_str depth self hd la;
     _ ← check_memory_st py_str depth self hd la;
     check_disk_st py_str depth self hd la)).
  { apply appends_to_bind; [apply appends_to_check_category|intros _].
    apply appends_to_bind; [apply appends_to_check_category|intros _].
    apply appends_to_check_disk. }
  unfold check_alerts_st, mbind, St_bind, alloc. fold la.
  unfold appends_to, mbind, St_bind in Hblocks.
  specialize (Hblocks (<[la := OList []]> h) []).
  destruct (check_cpu_st py_str depth self hd la (<[la:=OList []]> h))
    as [[[]|e1] h1] eqn:E1.
  - destruct (check_memory_st py_str depth self hd la h1)
      as [[[]|e2] h2] eqn:E2.
    + destruct (check_disk_st py_str depth self hd la h2)
        as [[[]|e3] h3] eqn:E3.
      * destruct (Hblocks _ _ (lookup_insert_eq _ _ _) eq_refl) as [ys ->].
        intros [= <- <-]. exists la, ys. rewrite insert_insert_eq.
        split; [done|]. split; [done|]. by intros v [= <-].
      * destruct (Hblocks _ _ (lookup_insert_eq _ _ _) eq_refl) as [ys ->].
        intros [= <- <-]. exists la, ys. rewrite insert_insert_eq.
        split; [done|]. split; [done|]. by intros v [=].
    + destruct (Hblocks _ _ (lookup_insert_eq _ _ _) eq_refl) as [ys ->].
      intros [= <- <-]. exists la, ys. rewrite insert_insert_eq.
      split; [done|]. split; [done|]. by intros v [=].
  - destruct (Hblocks _ _ (lookup_insert_eq _ _ _) eq_refl) as [ys ->].
    intros [= <- <-]. exists la, ys. rewrite insert_insert_eq.
    split; [done|]. split; [done|]. by intros v [=].
Qed.

End StoreFrame.

(** C10. [check_alerts] only reads its input: every object that is in the
    store before the call, and so every field of the health data, is there
    unchanged after it, the health data denotes the same value, and the
    list returned is a new object. *)
Theorem check_alerts_st_read_only (py_str : pyval -> string) (depth : nat)
    (self : loc) (hd : val) (h : heap) (r : result val) (h' : heap) :
  check_alerts_st py_str depth self hd h = (r, h') ->
  (forall l o, h !! l = Some o -> h' !! l = Some o)
  /\ (forall d p, reify d h hd = Some p -> reify d h' hd = Some p)
  /\ (forall v, r = Ok v ->
        exists la ys, v = VRef la /\ h !! la = None
                      /\ h' !! la = Some (OList ys)).
Proof.
  intros Hrun.
  destruct (check_alerts_st_frame _ _ _ _ _ _ _ Hrun) as (la & ys & Hf & -> & Hr).
  assert (Hsub : h ⊆ <[la := OList ys]> h) by by apply insert_subseteq.
  split; [|split].
  - intros l o Hl. by apply (lookup_weaken _ _ _ _ Hl).
  - intros d p. by apply reify_mono.
  - intros v Hv. exists la, ys. rewrite (Hr _ Hv).
    split; [done|]. split; [done|]. apply lookup_insert_eq.
Qed.

(** ** The store: [__init__] *)

Lemma new_monitor_st_run arg h :
  exists self h1,
    new_monitor_st arg h = (Ok self, h1)
    /\ h !! self = None
    /\ h ⊆ h1
    /\ (truthy_h h arg = true ->
          h1 = <[self := OInstance [("alert_thresholds", arg)]]> h)
    /\ (truthy_h h arg = false ->
          exists l, l <> self /\ h !! l = None
            /\ h1 = <[self := OInstance [("alert_thresholds", VRef l)]]>
                      (<[l := default_thresholds_obj]> h)).
Proof.
  set (self := fresh (dom h)).
  assert (Hself : h !! self = None) by apply not_elem_of_dom, is_fresh.
  set (h0 := <[self := OInstance []]> h).
  assert (Htruthy : truthy_h h0 arg = truthy_h h arg).
  { destruct arg; try done. simpl. unfold h0.
    destruct (decide (l = self)) as [->|Hne].
    - by rewrite lookup_insert_eq, Hself.
    - by rewrite lookup_insert_ne. }
  unfold new_monitor_st, init_st, mbind, St_bind, alloc, read, setattr.
  fold self. fold h0. rewrite Htruthy.
  destruct (truthy_h h arg) eqn:T.
  - simpl. unfold h0 at 1. rewrite lookup_insert_eq.
    eexists self, _. split; [reflexivity|]. split; [done|]. split.
    + unfold h0. rewrite insert_insert_eq. by apply insert_subseteq.
    + split; [|done]. intros _. unfold h0. by rewrite insert_insert_eq.
  - simpl. set (l := fresh (dom h0)).
    assert (Hl : h0 !! l = None) by apply not_elem_of_dom, is_fresh.
    assert (Hne : l <> self).
    { intros E. rewrite E in Hl. unfold h0 in Hl.
      by rewrite lookup_insert_eq in Hl. }
    assert (Hl' : h !! l = None).
    { unfold h0 in Hl. by rewrite lookup_insert_ne in Hl. }
    rewrite lookup_insert_ne by done. unfold h0 at 1.
    rewrite lookup_insert_eq. simpl.
    assert (Hh1 :
      <[self := OInstance [("alert_thresholds", VRef l)]]>
        (<[l := default_thresholds_obj]> h0)
      = <[self := OInstance [("alert_thresholds", VRef l)]]>
          (<[l := default_thresholds_obj]> h)).
    { unfold h0. rewrite (insert_insert_ne h l self) by done.
      by rewrite insert_insert_eq. }
    eexists self, _. split; [reflexivity|]. split; [done|]. split.
    + rewrite Hh1. etrans; [by apply (insert_subseteq h l)|].
      apply insert_subseteq. by rewrite lookup_insert_ne.
    + split; [done|]. intros _. exists l. by rewrite Hh1.
Qed.

(** In the store too an empty mapping is passed over like [None]: the
    monitor gets a new dictionary of defaults and does not hold the empty
    one. *)
Lemma new_monitor_st_empty h l :
  h !! l = Some (ODict []) ->
  new_monitor_st (VRef l) h = new_monitor_st VNone h.
Proof.
  intros Hl. unfold new_monitor_st, init_st, mbind, St_bind, alloc, read.
  simpl. rewrite lookup_insert_ne.
  - by rewrite Hl.
  - intros E. pose proof (is_fresh (dom h)) as F.
    apply not_elem_of_dom in F. rewrite E in F. congruence.
Qed.

(** C6, as the code has it.  The defaults are taken all three at once, and
    only when the mapping passed is [None] or empty; any other mapping is
    kept as it is, by reference, with no default for a category it leaves
    out.  Alert evaluation leaves the mapping and the attribute that holds
    it unchanged. *)
Theorem init_thresholds_as_given :
  (forall a, py_truthy a = false ->
     alert_thresholds (__init__ a) = default_thresholds)
  /\ (forall a, py_truthy a = true -> alert_thresholds (__init__ a) = a)
  /\ (forall arg h,
        exists self h1,
          new_monitor_st arg h = (Ok self, h1)
          /\ h !! self = None
          /\ h ⊆ h1
          /\ (truthy_h h arg = true ->
                getattr h1 self "alert_thresholds" = Ok arg)
          /\ (truthy_h h arg = false ->
                exists l, getattr h1 self "alert_thresholds" = Ok (VRef l)
                          /\ h !! l = None
                          /\ h1 !! l = Some default_thresholds_obj)
          /\ (forall py_str depth hd r h2,
                check_alerts_st py_str depth self hd h1 = (r, h2) ->
                h1 ⊆ h2
                /\ getattr h2 self "alert_thresholds"
                   = getattr h1 self "alert_thresholds")).
Proof.
  split; [|split].
  - intros a Ha. unfold __init__, py_or. by rewrite Ha.
  - intros a Ha. unfold __init__, py_or. by rewrite Ha.
  - intros arg h.
    destruct (new_monitor_st_run arg h)
      as (self & h1 & Hrun & Hself & Hsub & Ht & Hf).
    exists self, h1. split; [done|]. split; [done|]. split; [done|].
    split; [|split].
    + intros T. rewrite (Ht T). unfold getattr.
      by rewrite lookup_insert_eq.
    + intros T. destruct (Hf T) as (l & Hne & Hl & ->). exists l.
      unfold getattr. rewrite lookup_insert_eq. simpl.
      split; [done|]. split; [done|].
      rewrite lookup_insert_ne by done. apply lookup_insert_eq.
    + intros py_str depth hd r h2 Hc.
      destruct (check_alerts_st_frame _ _ _ _ _ _ _ Hc)
        as (la & ys & Hla & -> & _).
      split; [by apply insert_subseteq|].
      unfold getattr. destruct (decide (la = self)) as [->|Hne].
      * rewrite lookup_insert_eq, Hla. done.
      * by rewrite lookup_insert_ne.
Qed.

(** ** The store: [check_alerts] computes what it computes on values *)

Lemma string_app_assoc (a b c : string) : (a +:+ b) +:+ c = a +:+ b +:+ c.
Proof.
  induction a as [|x a IH]; [reflexivity|].
  change (String x ((a +:+ b) +:+ c) = String x (a +:+ b +:+ c)).
  by rewrite IH.
Qed.

Lemma disk_alert_text py_str m v t :
  alert_text py_str ("HIGH DISK USAGE: " +:+ m +:+ " at ") v t
  = disk_alert py_str m v t.
Proof.
  unfold alert_text, disk_alert.
  by rewrite (string_app_assoc "HIGH DISK USAGE: "), (string_app_assoc m).
Qed.

Lemma check_category_acc mk self p category field acc :
  check_category mk self p category field acc =
  (new ← check_category mk self p category field []; Ok (acc ++ new)).
Proof.
  unfold check_category.
  destruct (c ← py_contains category p;
            if c : bool then
              info ← py_getitem p category; py_contains field info
            else Ok false) as [[|]|e]; simpl; try done;
    [|by rewrite app_nil_r].
  destruct (py_getitem p category) as [info|e]; simpl; [|done].
  destruct (py_getitem info field) as [v|e]; simpl; [|done].
  destruct (py_getitem (alert_thresholds self) field) as [t|e]; simpl; [|done].
  destruct (py_gt v t) as [[|]|e]; simpl; try done. by rewrite app_nil_r.
Qed.

Section StoreSim.

Variable py_str : pyval -> string.
Variable depth : nat.
Variable h0 : heap.
Variables la self : loc.
Variable th : val.
Variable pth : pyval.
Hypothesis la_fresh : h0 !! la = None.
Hypothesis self_thresholds : getattr h0 self "alert_thresholds" = Ok th.
Hypothesis thresholds_reify : reify depth h0 th = Some pth.

Local Abbreviation cur := (with_list h0 la).

Lemma cur_sub xs : h0 ⊆ cur xs.
Proof. by apply insert_subseteq. Qed.

Lemma cur_lookup xs : cur xs !! la = Some (OList xs).
Proof. apply lookup_insert_eq. Qed.

Lemma cur_reify xs d v p : reify d h0 v = Some p -> reify d (cur xs) v = Some p.
Proof. apply reify_mono, cur_sub. Qed.

Lemma cur_getattr xs : getattr (cur xs) self "alert_thresholds" = Ok th.
Proof.
  revert self_thresholds. unfold getattr.
  destruct (h0 !! self) as [o|] eqn:L; [|done].
  by rewrite (lookup_weaken _ _ _ _ L (cur_sub xs)).
Qed.

Lemma reified_lookup d v p :
  reify d h0 v = Some p ->
  match v with VRef l => is_Some (h0 !! l) | _ => True end.
Proof.
  destruct v, d; simpl; try done. by destruct (h0 !! l).
Qed.

Lemma cur_getitem xs d v p k :
  reify d h0 v = Some p -> getitem_h v k (cur xs) = getitem_h v k h0.
Proof.
  intros H. apply reified_lookup in H. destruct v; try done.
  destruct H as [o L]. simpl.
  by rewrite (lookup_weaken _ _ _ _ L (cur_sub xs)), L.
Qed.

Lemma cur_items xs d v p :
  reify d h0 v = Some p -> items_h v (cur xs) = items_h v h0.
Proof.
  intros H. apply reified_lookup in H. destruct v; try done.
  destruct H as [o L]. simpl.
  by rewrite (lookup_weaken _ _ _ _ L (cur_sub xs)), L.
Qed.

Lemma contains_sim xs v p k :
  reify depth h0 v = Some p -> contains_h k v (cur xs) = py_contains k p.
Proof. intros H. by apply (contains_h_reify depth), cur_reify. Qed.

Lemma getitem_sim xs v p k :
  reify depth h0 v = Some p ->
  match py_getitem p k with
  | Ok p' => exists v', getitem_h v k (cur xs) = Ok v'
                        /\ reify depth h0 v' = Some p'
  | Raise e => getitem_h v k (cur xs) = Raise e
  end.
Proof.
  intros H. rewrite (cur_getitem _ _ _ _ _ H).
  by apply getitem_h_reify.
Qed.

Lemma threshold_sim xs k :
  match py_getitem pth k with
  | Ok pt => exists t, threshold_h self k (cur xs) = Ok t
                       /\ reify depth h0 t = Some pt
  | Raise e => threshold_h self k (cur xs) = Raise e
  end.
Proof.
  unfold threshold_h. rewrite cur_getattr. simpl.
  by apply getitem_sim.
Qed.

Lemma gt_sim xs a pa b pb :
  reify depth h0 a = Some pa -> reify depth h0 b = Some pb ->
  gt_h depth a b (cur xs) = py_gt pa pb.
Proof.
  intros Ha Hb. unfold gt_h.
  by rewrite (cur_reify _ _ _ _ Ha), (cur_reify _ _ _ _ Hb).
Qed.

Lemma str_sim xs v p :
  reify depth h0 v = Some p -> str_h py_str depth v (cur xs) = Ok (py_str p).
Proof. intros H. unfold str_h. by rewrite (cur_reify _ _ _ _ H). Qed.

Lemma append_alert_sim xs prefix v pv key pt :
  reify depth h0 v = Some pv ->
  py_getitem pth key = Ok pt ->
  append_alert py_str depth la self prefix v key (cur xs)
  = (Ok tt, cur (xs ++ [VStr (alert_text py_str prefix pv pt)])).
Proof.
  intros Hv Hk. pose proof (threshold_sim xs key) as Ht. rewrite Hk in Ht.
  destruct Ht as (t & Ht & Hrt).
  unfold append_alert, mbind, St_bind, read.
  rewrite (str_sim _ _ _ Hv), Ht, (str_sim _ _ _ Hrt).
  unfold append. rewrite cur_lookup. unfold with_list.
  by rewrite insert_insert_eq.
Qed.

Lemma check_category_st_sim hd p category field prefix xs :
  reify depth h0 hd = Some p ->
  check_category_st py_str depth self hd la category field prefix (cur xs) =
  match check_category (alert_text py_str prefix)
          {| alert_thresholds := pth |} p category field [] with
  | Ok new => (Ok tt, cur (xs ++ (VStr <$> new)))
  | Raise e => (Raise e, cur xs)
  end.
Proof.
  intros Hhd. unfold check_category_st, check_category, mbind, St_bind, read.
  rewrite (contains_sim xs _ _ category Hhd).
  pose proof (getitem_sim xs _ _ category Hhd) as Hinfo.
  assert (Hnil : cur (xs ++ (VStr <$> [])) = cur xs).
  { simpl. by rewrite app_nil_r. }
  destruct (py_contains category p) as [[|]|e]; simpl;
    [|by rewrite app_nil_r|done].
  destruct (py_getitem p category) as [pinfo|e]; simpl.
  - destruct Hinfo as (info & Einfo & Hri). rewrite Einfo. simpl.
    rewrite (contains_sim xs _ _ field Hri).
    pose proof (getitem_sim xs _ _ field Hri) as Hval.
    destruct (py_contains field pinfo) as [[|]|e]; simpl;
      [|by rewrite app_nil_r|done].
    rewrite Einfo.
    destruct (py_getitem pinfo field) as [pv|e]; simpl.
    + destruct Hval as (v & -> & Hrv). simpl.
      pose proof (threshold_sim xs field) as Ht.
      destruct (py_getitem pth field) as [pt|e] eqn:Ek; simpl.
      * destruct Ht as (t & -> & Hrt). simpl.
        rewrite (gt_sim xs _ _ _ _ Hrv Hrt).
        destruct (py_gt pv pt) as [[|]|e]; simpl;
          [|by rewrite app_nil_r|done].
        by rewrite (append_alert_sim xs prefix v pv field pt Hrv Ek).
      * by rewrite Ht.
    + by rewrite Hval.
  - by rewrite Hinfo.
Qed.

Lemma check_disk_item_st_sim item pitem xs :
  fst item = fst pitem ->
  reify depth h0 (snd item) = Some (snd pitem) ->
  check_disk_item_st py_str depth self la item (cur xs) =
  match check_disk_item py_str {| alert_thresholds := pth |} pitem [] with
  | Ok new => (Ok tt, cur (xs ++ (VStr <$> new)))
  | Raise e => (Raise e, cur xs)
  end.
Proof.
  destruct item as [m d], pitem as [m' pd]. simpl. intros <- Hd.
  unfold check_disk_item_st, check_disk_item, mbind, St_bind, read.
  rewrite (isinstance_dict_h_reify depth _ _ _ (cur_reify xs _ _ _ Hd)).
  destruct (isinstance_dict pd); simpl; [|by rewrite app_nil_r].
  rewrite (contains_sim xs _ _ "percent" Hd).
  pose proof (getitem_sim xs _ _ "percent" Hd) as Hval.
  destruct (py_contains "percent" pd) as [[|]|e]; simpl;
    [|by rewrite app_nil_r|done].
  destruct (py_getitem pd "percent") as [pv|e]; simpl.
  - destruct Hval as (v & -> & Hrv). simpl.
    pose proof (threshold_sim xs "disk_percent") as Ht.
    destruct (py_getitem pth "disk_percent") as [pt|e] eqn:Ek; simpl.
    + destruct Ht as (t & -> & Hrt). simpl.
      rewrite (gt_sim xs _ _ _ _ Hrv Hrt).
      destruct (py_gt pv pt) as [[|]|e]; simpl;
        [|by rewrite app_nil_r|done].
      rewrite (append_alert_sim xs _ v pv "disk_percent" pt Hrv Ek).
      by rewrite disk_alert_text.
    + by rewrite Ht.
  - by rewrite Hval.
Qed.

Lemma check_disk_item_acc item acc :
  check_disk_item py_str {| alert_thresholds := pth |} item acc =
  (new ← check_disk_item py_str {| alert_thresholds := pth |} item [];
   Ok (acc ++ new)).
Proof.
  destruct item as [m d]. unfold check_disk_item.
  destruct (if isinstance_dict d then py_contains "percent" d else Ok false)
    as [[|]|e]; simpl; try done; [|by rewrite app_nil_r].
  destruct (py_getitem d "percent") as [v|e]; simpl; [|done].
  destruct (py_getitem pth "disk_percent") as [t|e]; simpl; [|done].
  destruct (py_gt v t) as [[|]|e]; simpl; try done. by rewrite app_nil_r.
Qed.

Lemma check_disk_loop_acc items acc :
  for_each (check_disk_item py_str {| alert_thresholds := pth |}) items acc =
  (new ← for_each (check_disk_item py_str {| alert_thresholds := pth |})
           items [];
   Ok (acc ++ new)).
Proof.
  revert acc. induction items as [|item items IH]; intros acc; simpl.
  - by rewrite app_nil_r.
  - rewrite (check_disk_item_acc item acc).
    destruct (check_disk_item py_str {| alert_thresholds := pth |} item [])
      as [new|e]; simpl; [|done].
    rewrite (IH (acc ++ new)), (IH new).
    destruct (for_each _ items []) as [new'|e]; simpl; [|done].
    by rewrite app_assoc.
Qed.

Lemma check_disk_loop_st_sim items pitems xs :
  rows_reify depth h0 items pitems ->
  match for_each (check_disk_item py_str {| alert_thresholds := pth |})
          pitems [] with
  | Ok new =>
      for_each_st (check_disk_item_st py_str depth self la) items (cur xs)
      = (Ok tt, cur (xs ++ (VStr <$> new)))
  | Raise e =>
      exists ys,
        for_each_st (check_disk_item_st py_str depth self la) items (cur xs)
        = (Raise e, cur (xs ++ ys))
  end.
Proof.
  intros F. revert xs.
  induction F as [|item pitem items pitems [Hk Hv] _ IH]; intros xs; simpl.
  - by rewrite app_nil_r.
  - unfold mbind, St_bind, result_bind.
    rewrite (check_disk_item_st_sim item pitem xs Hk Hv).
    destruct (check_disk_item py_str {| alert_thresholds := pth |} pitem [])
      as [new|e]; simpl.
    + rewrite (check_disk_loop_acc pitems new).
      specialize (IH (xs ++ (VStr <$> new))).
      destruct (for_each _ pitems []) as [new'|e]; simpl.
      * rewrite IH. by rewrite fmap_app, app_assoc.
      * destruct IH as [ys ->]. exists ((VStr <$> new) ++ ys).
        by rewrite app_assoc.
    + exists []. by rewrite app_nil_r.
Qed.

Lemma check_disk_acc p acc :
  check_disk py_str {| alert_thresholds := pth |} p acc =
  (new ← check_disk py_str {| alert_thresholds := pth |} p [];
   Ok (acc ++ new)).
Proof.
  unfold check_disk.
  destruct (py_contains "disk_info" p) as [[|]|e]; simpl; try done;
    [|by rewrite app_nil_r].
  destruct (py_getitem p "disk_info") as [[| | | | |items]|e]; simpl;
    try done; try (by rewrite app_nil_r).
  apply check_disk_loop_acc.
Qed.

Lemma check_disk_st_sim hd p xs :
  reify depth h0 hd = Some p ->
  match check_disk py_str {| alert_thresholds := pth |} p [] with
  | Ok new =>
      check_disk_st py_str depth self hd la (cur xs)
      = (Ok tt, cur (xs ++ (VStr <$> new)))
  | Raise e =>
      exists ys,
        check_disk_st py_str depth self hd la (cur xs)
        = (Raise e, cur (xs ++ ys))
  end.
Proof.
  intros Hhd. unfold check_disk_st, check_disk, mbind, St_bind, read.
  rewrite (contains_sim xs _ _ "disk_info" Hhd).
  pose proof (getitem_sim xs _ _ "disk_info" Hhd) as Hinfo.
  destruct (py_contains "disk_info" p) as [[|]|e]; simpl;
    [|by rewrite app_nil_r|exists []; by rewrite app_nil_r].
  destruct (py_getitem p "disk_info") as [pdi|e]; simpl.
  - destruct Hinfo as (di & -> & Hri). simpl.
    rewrite (isinstance_dict_h_reify depth _ _ _ (cur_reify xs _ _ _ Hri)).
    destruct pdi as [| | | | |pitems]; simpl; try (by rewrite app_nil_r).
    rewrite (cur_items xs _ _ _ Hri).
    apply check_disk_loop_st_sim. by apply items_h_reify.
  - rewrite Hinfo. exists []. by rewrite app_nil_r.
Qed.

End StoreSim.

(** On a store in which the health data and the thresholds denote values,
    [check_alerts] in the store returns a new list that holds the alerts
    [check_alerts] computes on these values, or raises the same
    exception. *)
Theorem check_alerts_st_refines (py_str : pyval -> string) (depth : nat)
    (h : heap) (self : loc) (th hd : val) (pth p : pyval) :
  getattr h self "alert_thresholds" = Ok th ->
  reify depth h th = Some pth ->
  reify depth h hd = Some p ->
  match check_alerts py_str {| alert_thresholds := pth |} p with
  | Ok alerts =>
      exists la,
        h !! la = None
        /\ check_alerts_st py_str depth self hd h
           = (Ok (VRef la), <[la := OList (VStr <$> alerts)]> h)
  | Raise e => exists h', check_alerts_st py_str depth self hd h = (Raise e, h')
  end.
Proof.
  intros Hattr Hth Hhd. set (la := fresh (dom h)).
  assert (Hla : h !! la = None) by apply not_elem_of_dom, is_fresh.
  unfold check_alerts_st, check_alerts, check_cpu_st, check_memory_st.
  unfold mbind, St_bind, alloc. cbv beta zeta. fold la.
  fold (with_list h la []).
  rewrite (check_category_st_sim py_str depth h la self th pth Hla Hattr Hth
             hd p "cpu_info" "cpu_percent" "HIGH CPU USAGE: " [] Hhd).
  change (check_cpu py_str {| alert_thresholds := pth |} p [])
    with (check_category (alert_text py_str "HIGH CPU USAGE: ")
            {| alert_thresholds := pth |} p "cpu_info" "cpu_percent" []).
  destruct (check_category (alert_text py_str "HIGH CPU USAGE: ") _ p
              "cpu_info" "cpu_percent" []) as [a1|e]; simpl; [|by eexists].
  rewrite (check_category_st_sim py_str depth h la self th pth Hla Hattr Hth
             hd p "memory_info" "memory_percent" "HIGH MEMORY USAGE: "
             _ Hhd).
  change (check_memory py_str {| alert_thresholds := pth |} p a1)
    with (check_category (alert_text py_str "HIGH MEMORY USAGE: ")
            {| alert_thresholds := pth |} p "memory_info" "memory_percent"
            a1).
  rewrite check_category_acc.
  destruct (check_category (alert_text py_str "HIGH MEMORY USAGE: ") _ p
              "memory_info" "memory_percent" []) as [a2|e]; simpl;
    [|by eexists].
  pose proof (check_disk_st_sim py_str depth h la self th pth Hla Hattr Hth
                hd p (VStr <$> a1 ++ a2)) as Hd.
  rewrite (check_disk_acc py_str pth p (a1 ++ a2)).
  rewrite fmap_app in Hd.
  destruct (check_disk py_str {| alert_thresholds := pth |} p [])
    as [a3|e]; simpl.
  - rewrite (Hd Hhd). simpl. exists la. split; [done|].
    unfold with_list, mret, St_ret. by rewrite !fmap_app.
  - destruct (Hd Hhd) as [ys ->]. by eexists.
Qed.

Lemma truthy_h_reify d h v p :
  reify d h v = Some p -> truthy_h h v = py_truthy p.
Proof.
  destruct v, d; simpl; try (by intros [= <-]); try done.
  destruct (h !! l) as [[xs|kvs|attrs]|]; try done.
  - destruct xs; simpl; [by intros [= <-]|].
    destruct (reify d h v); simpl; [|done].
    destruct (mapM (reify d h) xs); simpl; [|done]. by intros [= <-].
  - destruct kvs as [|[k v] kvs]; simpl; [by intros [= <-]|].
    destruct (reify d h v); simpl; [|done].
    destruct (mapM _ kvs); simpl; [|done]. by intros [= <-].
Qed.

(** [__init__] in the store builds the monitor [__init__] builds on
    values. *)
Lemma new_monitor_st_refines d h arg p :
  reify (S d) h arg = Some p ->
  exists self h1 th,
    new_monitor_st arg h = (Ok self, h1)
    /\ getattr h1 self "alert_thresholds" = Ok th
    /\ reify (S d) h1 th = Some (alert_thresholds (__init__ p)).
Proof.
  intros Hr.
  destruct (new_monitor_st_run arg h)
    as (self & h1 & Hrun & Hself & Hsub & Ht & Hf).
  pose proof (truthy_h_reify _ _ _ _ Hr) as T.
  unfold __init__, py_or. cbn [alert_thresholds]. rewrite <- T.
  destruct (truthy_h h arg).
  - exists self, h1, arg. split; [done|]. split.
    + rewrite (Ht eq_refl). unfold getattr. by rewrite lookup_insert_eq.
    + by apply (reify_mono _ h).
  - destruct (Hf eq_refl) as (l & Hne & Hl & ->).
    eexists self, _, (VRef l). split; [done|]. split.
    + unfold getattr. by rewrite lookup_insert_eq.
    + simpl. rewrite lookup_insert_ne by congruence.
      rewrite lookup_insert_eq. by destruct d.
Qed.

(** The scenario, run in the store. *)
Example check_alerts_st_scenario :
  check_alerts_st str_stub 10 7%positive (VRef 1%positive) scenario_heap
  = (Ok (VRef 9%positive),
     <[9%positive :=
         OList [VStr (cpu_alert str_stub (PFloat 92.3) (PFloat 80));
                VStr (disk_alert str_stub "/" (PFloat 95.5) (PFloat 90))]]>
       scenario_heap).
Proof. vm_compute. reflexivity. Qed.

(** Witness of C10: the scenario, run in the store. *)
Lemma check_alerts_st_read_only_witness :
  exists r h',
    check_alerts_st str_stub 10 7%positive (VRef 1%positive) scenario_heap
      = (r, h')
    /\ (forall l o, scenario_heap !! l = Some o -> h' !! l = Some o)
    /\ (forall v, r = Ok v ->
          exists la ys, v = VRef la /\ scenario_heap !! la = None
                        /\ h' !! la = Some (OList ys)).
Proof.
  exists
    (fst (check_alerts_st str_stub 10 7%positive (VRef 1%positive)
            scenario_heap)),
    (snd (check_alerts_st str_stub 10 7%positive (VRef 1%positive)
            scenario_heap)).
  split; [apply surjective_pairing|].
  destruct (check_alerts_st_read_only str_stub 10 7%positive
              (VRef 1%positive) scenario_heap _ _
              (surjective_pairing _)) as (H1 & _ & H3).
  split; [exact H1|exact H3].
Defined.

(** Witness of C6: a monitor built on the mapping at 8 holds that very
    mapping. *)
Lemma init_thresholds_as_given_witness :
  exists self h1,
    new_monitor_st (VRef 8%positive) scenario_heap = (Ok self, h1)
    /\ getattr h1 self "alert_thresholds" = Ok (VRef 8%positive).
Proof.
  destruct init_thresholds_as_given as (_ & _ & H).
  destruct (H (VRef 8%positive) scenario_heap)
    as (self & h1 & Hrun & _ & _ & Ht & _).
  exists self, h1. split; [exact Hrun|]. apply Ht. reflexivity.
Defined.

(* ===================================================================== *)
(** * Part 6: further properties of the code *)
(* ===================================================================== *)

(** ** The collectors: all or nothing *)

Lemma error_marker_facts what e k :
  k <> "error" ->
  is_error_marker (error_marker what e)
  /\ (forall keys, In k keys -> ~ has_keys keys (error_marker what e))
  /\ (forall v, py_getitem (error_marker what e) k <> Ok v).
Proof.
  intros Hk. split; [apply error_marker_is|]. split.
  - intros keys Hin (kvs & [= <-] & <-). simpl in Hin.
    destruct Hin as [H|[]]. by apply Hk.
  - intros v. simpl. destruct (String.eqb_spec k "error"); [contradiction|].
    discriminate.
Qed.

Lemma get_cpu_info_cases os :
  match cpu_sample os with
  | Some v =>
      cpu_calls_succeed os = true
      /\ exists kvs, get_cpu_info os = PDict kvs
                     /\ dict_keys kvs = cpu_keys
                     /\ dict_get "cpu_percent" kvs = Some v
  | None =>
      cpu_calls_succeed os = false
      /\ exists e, get_cpu_info os = error_marker "Failed to get CPU info: " e
  end.
Proof.
  unfold cpu_sample, cpu_calls_succeed, get_cpu_info.
  destruct (psutil.sample_cpu_percent os) as [x|e]; simpl;
    [|by eauto].
  destruct (psutil.cpu_count_logical os) as [n|e]; simpl;
    [|by eauto].
  destruct (psutil.cpu_freq os) as [f|e]; simpl;
    [|by eauto].
  destruct (psutil.cpu_count_physical os) as [m|e]; simpl;
    [|by eauto].
  destruct (psutil.getloadavg os) as [[[[a b] c]|e]|]; simpl;
    (by split; [|eexists]) || by eauto.
Qed.

Lemma get_memory_info_cases os :
  match memory_sample os with
  | Some v =>
      memory_calls_succeed os = true
      /\ exists kvs, get_memory_info os = PDict kvs
                     /\ dict_keys kvs = memory_keys
                     /\ dict_get "memory_percent" kvs = Some v
  | None =>
      memory_calls_succeed os = false
      /\ exists e,
           get_memory_info os = error_marker "Failed to get memory info: " e
  end.
Proof.
  unfold memory_sample, memory_calls_succeed, get_memory_info.
  destruct (psutil.virtual_memory os) as [x|e]; simpl;
    [|by eauto].
  destruct (psutil.swap_memory os) as [n|e]; simpl;
    [|by eauto].
  by split; [|eexists].
Qed.

(** What the two cases say of a category, for its percentage key [k]. *)
Lemma all_or_nothing_of (info : pyval) (sample : option pyval)
    (calls : bool) (keys : list string) (what k : string) :
  k <> "error" -> In k keys -> ~ In "error" keys ->
  match sample with
  | Some v =>
      calls = true
      /\ exists kvs, info = PDict kvs /\ dict_keys kvs = keys
                     /\ dict_get k kvs = Some v
  | None => calls = false /\ exists e, info = error_marker what e
  end ->
  (forall v, py_getitem info k = Ok v <-> sample = Some v)
  /\ (is_error_marker info <-> calls = false)
  /\ (has_keys keys info <-> calls = true).
Proof.
  intros Hk Hin Hne H. destruct sample as [v|].
  - destruct H as (-> & kvs & -> & Hkeys & Hget). repeat split.
    + simpl. rewrite Hget. by intros [= ->].
    + intros [= ->]. simpl. by rewrite Hget.
    + intros [msg [= ->]]. simpl in Hkeys. subst keys. destruct Hne. by left.
    + discriminate.
    + by exists kvs.
  - destruct H as (-> & e & ->).
    destruct (error_marker_facts what e k Hk) as (Hm & Hnk & Hng).
    repeat split; try done.
    + intros H. by apply Hng in H.
    + intros H. by apply (Hnk keys Hin) in H.
Qed.

(** X1.  [get_cpu_info] and [get_memory_info] never raise, and give all of
    a category or nothing of it: when every call returns, the category
    has its full set of keys and its percentage is the sample as psutil
    gave it, not rounded; when one call raises, also one made after the
    sample was taken, the category is an error marker and has no
    percentage.  A psutil without [getloadavg] is no failure. *)
Theorem collectors_all_or_nothing (os : psutil.api) :
  ((forall v, py_getitem (get_cpu_info os) "cpu_percent" = Ok v <->
              cpu_sample os = Some v)
   /\ (is_error_marker (get_cpu_info os) <-> cpu_calls_succeed os = false)
   /\ (has_keys cpu_keys (get_cpu_info os) <-> cpu_calls_succeed os = true))
  /\ ((forall v, py_getitem (get_memory_info os) "memory_percent" = Ok v <->
                 memory_sample os = Some v)
      /\ (is_error_marker (get_memory_info os) <->
          memory_calls_succeed os = false)
      /\ (has_keys memory_keys (get_memory_info os) <->
          memory_calls_succeed os = true)).
Proof.
  split.
  - apply (all_or_nothing_of _ _ _ _ "Failed to get CPU info: ");
      [done|by left| |apply get_cpu_info_cases].
    simpl. intros H. repeat destruct H as [H|H]; done.
  - apply (all_or_nothing_of _ _ _ _ "Failed to get memory info: ");
      [done|simpl; tauto| |apply get_memory_info_cases].
    simpl. intros H. repeat destruct H as [H|H]; done.
Qed.

(** ** Network interfaces *)

Lemma network_loop_set_all stats d :
  for_each network_step stats d = Ok (set_all (network_rows stats) d).
Proof.
  revert d. induction stats as [|[i st] stats IH]; intros d; simpl; [done|].
  apply IH.
Qed.

Lemma set_all_keys {V} (rows d : list (string * V)) k :
  In k (dict_keys (set_all rows d)) <->
  In k (dict_keys d) \/ In k (dict_keys rows).
Proof.
  revert d. induction rows as [|[k0 v0] rows IH]; intros d.
  - simpl. tauto.
  - change (set_all ((k0, v0) :: rows) d)
      with (set_all rows (dict_set k0 v0 d)).
    rewrite IH. clear IH. simpl.
    assert (Hset : In k (dict_keys (dict_set k0 v0 d)) <->
                   k0 = k \/ In k (dict_keys d)).
    { induction d as [|[k1 v1] d IHd]; simpl; [tauto|].
      destruct (String.eqb_spec k0 k1) as [->|Hne]; simpl; [tauto|].
      rewrite IHd. tauto. }
    rewrite Hset. tauto.
Qed.

Lemma dict_has_In {V} (d : list (string * V)) k :
  dict_has k d = true <-> In k (dict_keys d).
Proof.
  unfold dict_has. induction d as [|[k0 v0] d IH]; simpl.
  - split; [discriminate|tauto].
  - destruct (String.eqb_spec k k0) as [->|Hne]; [tauto|].
    rewrite IH. split; [tauto|]. intros [H|H]; [by destruct Hne|done].
Qed.

(** X2.  [get_network_info] is an error marker exactly when the one call
    it makes raises.  Otherwise it holds the interfaces psutil listed and
    no other key, each with a row of its six counters, and no row is lost
    or reordered when the interface names are distinct. *)
Theorem get_network_info_rows (os : psutil.api) :
  (forall e, psutil.net_io_counters os = Raise e ->
     get_network_info os = error_marker "Failed to get network info: " e)
  /\ (forall stats, psutil.net_io_counters os = Ok stats ->
        exists d,
          get_network_info os = PDict d
          /\ ~ is_error_marker (PDict d)
          /\ (forall i, dict_has i d = true <-> In i (map fst stats))
          /\ (forall i row, dict_get i d = Some row ->
                exists st, In (i, st) stats /\ row = net_row st)
          /\ (List.NoDup (map fst stats) -> d = network_rows stats)).
Proof.
  unfold get_network_info. split.
  - by intros e ->.
  - intros stats ->. simpl. rewrite network_loop_set_all. simpl.
    eexists. split; [reflexivity|].
    assert (Hrows : forall i row,
      dict_get i (set_all (network_rows stats) []) = Some row ->
      exists st, In (i, st) stats /\ row = net_row st).
    { intros i row Hget.
      destruct (in_dec String.string_dec i (dict_keys (network_rows stats)))
        as [Hin|Hout].
      - destruct (get_set_all_in i (network_rows stats) [] Hin)
          as (v & Hv & Hg).
        rewrite Hg in Hget. injection Hget as <-.
        unfold network_rows in Hv. apply in_map_iff in Hv.
        destruct Hv as ([i' st] & [= <- <-] & Hst). by exists st.
      - rewrite (get_set_all_notin i _ [] Hout) in Hget. discriminate. }
    split; [|split; [|split]].
    + intros [msg [= Hd]].
      specialize (Hrows "error" (PStr msg)). rewrite Hd in Hrows.
      destruct Hrows as (st & _ & Hrow); [done|discriminate].
    + intros i. rewrite dict_has_In, set_all_keys. simpl.
      unfold dict_keys, network_rows. rewrite map_map. simpl. tauto.
    + exact Hrows.
    + intros Hnd. rewrite set_all_nodup; [done|]. simpl.
      unfold dict_keys, network_rows. by rewrite map_map.
Qed.

(** ** Disk partitions: what ends the loop, and what the keys are *)

Lemma disk_failure_none os p :
  disk_failure os p = None <-> is_Some (readable os p) \/ denied os p = true.
Proof.
  unfold disk_failure, readable, denied.
  destruct (psutil.disk_usage os (psutil.mountpoint p)) as [u|e].
  - destruct (psutil.du_total u =? 0)%Z; split;
      try discriminate; try (by left; eexists); try done.
    intros [[x H]|H]; discriminate.
  - destruct (exn_cls e); split; try discriminate; try (by right); try done;
      intros [[x H]|H]; discriminate.
Qed.

Lemma disk_step_failure os p d e :
  disk_failure os p = Some e -> disk_step os p d = Raise e.
Proof.
  unfold disk_failure, disk_step, disk_entry, py_truediv.
  destruct (psutil.disk_usage os (psutil.mountpoint p)) as [u|e']; simpl.
  - destruct (psutil.du_total u =? 0)%Z; [|discriminate]. by intros [= <-].
  - destruct (exn_cls e') eqn:E; try discriminate; by intros [= <-].
Qed.

Lemma for_each_app {A S} (body : A -> S -> result S) xs ys s :
  for_each body (xs ++ ys) s = (s' ← for_each body xs s; for_each body ys s').
Proof.
  revert s. induction xs as [|x xs IH]; intros s; simpl; [done|].
  destruct (body x s); simpl; [apply IH|done].
Qed.

Lemma disk_loop_first_failure os before p after d e :
  (forall q, In q before -> disk_failure os q = None) ->
  disk_failure os p = Some e ->
  for_each (disk_step os) (before ++ p :: after) d = Raise e.
Proof.
  intros Hb Hp. rewrite for_each_app.
  rewrite (disk_loop_rows os before d).
  - simpl. by rewrite (disk_step_failure os p _ e Hp).
  - intros q Hq. apply disk_failure_none. by apply Hb.
Qed.

Lemma first_failure_split {A} (f : A -> option exn) (l : list A) :
  (exists x, In x l /\ is_Some (f x)) ->
  exists before x after e,
    l = before ++ x :: after
    /\ (forall y, In y before -> f y = None) /\ f x = Some e.
Proof.
  induction l as [|a l IH]; intros (x & Hin & Hx); [destruct Hin|].
  destruct (f a) as [e|] eqn:E.
  - exists [], a, l, e. split; [done|]. split; [intros y []|done].
  - destruct IH as (before & x' & after & e & -> & Hb & Hx').
    { exists x. split; [|done]. destruct Hin as [<-|Hin]; [|done].
      rewrite E in Hx. by destruct Hx. }
    exists (a :: before), x', after, e. split; [done|]. split; [|done].
    intros y [<-|Hy]; [done|by apply Hb].
Qed.

(** X3.  What ends the disk loop: the first partition, in enumeration
    order, whose usage lookup raises something else than
    [PermissionError] or whose total is zero makes the whole category an
    error marker carrying that exception's text, [division by zero] for
    the zero total; the rows of the partitions read before it are lost.
    With no such partition the category is no error marker. *)
Theorem get_disk_info_first_failure (os : psutil.api)
    (parts : list psutil.sdiskpart) :
  psutil.disk_partitions os = Ok parts ->
  (forall before p after e,
     parts = before ++ p :: after ->
     (forall q, In q before -> disk_failure os q = None) ->
     disk_failure os p = Some e ->
     get_disk_info os = error_marker "Failed to get disk info: " e)
  /\ (is_error_marker (get_disk_info os) <->
      exists p, In p parts /\ is_Some (disk_failure os p)).
Proof.
  intros Hparts. unfold get_disk_info. rewrite Hparts. simpl.
  assert (Hfirst : forall before p after e,
    parts = before ++ p :: after ->
    (forall q, In q before -> disk_failure os q = None) ->
    disk_failure os p = Some e ->
    try_or_error "Failed to get disk info: "
      (disk_info ← for_each (disk_step os) parts []; Ok (PDict disk_info))
    = error_marker "Failed to get disk info: " e).
  { intros before p after e -> Hb Hp.
    by rewrite (disk_loop_first_failure os before p after [] e Hb Hp). }
  split; [exact Hfirst|]. split.
  - intros Hm.
    destruct (decide (Exists (fun p => is_Some (disk_failure os p)) parts))
      as [Hex|Hno].
    + apply Exists_exists in Hex. destruct Hex as (p & Hp & Hf).
      exists p. split; [by apply list_elem_of_In|done].
    + exfalso. rewrite (disk_loop_rows os parts []) in Hm.
      * simpl in Hm. destruct Hm as [msg [= Hd]].
        assert (Hg : dict_get "error" (set_all (disk_rows os parts) [])
                     = Some (PStr msg)).
        { rewrite Hd. done. }
        destruct (in_dec String.string_dec "error"
                    (dict_keys (disk_rows os parts))) as [Hin|Hout].
        -- destruct (get_set_all_in "error" (disk_rows os parts) [] Hin)
             as (v & Hv & Hg').
           rewrite Hg' in Hg. injection Hg as ->.
           apply disk_rows_In in Hv. destruct Hv as (p & u & _ & _ & _ & Hv).
           discriminate.
        -- rewrite (get_set_all_notin _ _ [] Hout) in Hg. discriminate.
      * intros p Hp. apply disk_failure_none.
        destruct (disk_failure os p) eqn:E; [|done].
        destruct Hno. apply Exists_exists. exists p.
        split; [by apply list_elem_of_In|by rewrite E; eexists].
  - intros Hex. apply first_failure_split in Hex.
    destruct Hex as (before & p & after & e & Hsplit & Hb & Hp).
    rewrite (Hfirst before p after e Hsplit Hb Hp). apply error_marker_is.
Qed.

Lemma dict_set_keys_nodup {V} k (v : V) d :
  List.NoDup (dict_keys d) -> List.NoDup (dict_keys (dict_set k v d)).
Proof.
  intros Hnd.
  destruct (in_dec String.string_dec k (dict_keys d)) as [Hin|Hout].
  - assert (Hk : dict_keys (dict_set k v d) = dict_keys d); [|by rewrite Hk].
    clear Hnd. induction d as [|[k0 v0] d IH]; [destruct Hin|]. simpl.
    destruct (String.eqb_spec k k0) as [->|Hne]; simpl; [done|].
    f_equal. apply IH. destruct Hin as [H|H]; [by destruct Hne|done].
  - rewrite (dict_set_new k v d Hout). unfold dict_keys. rewrite map_app.
    simpl. apply NoDup_ListNoDup. apply NoDup_app. split; [|split].
    + by apply NoDup_ListNoDup.
    + intros x Hx [->|[]]%list_elem_of_In. destruct Hout.
      by apply list_elem_of_In.
    + apply NoDup_ListNoDup. constructor; [intros []|constructor].
Qed.

Lemma set_all_keys_nodup {V} (rows d : list (string * V)) :
  List.NoDup (dict_keys d) -> List.NoDup (dict_keys (set_all rows d)).
Proof.
  revert d. induction rows as [|[k v] rows IH]; intros d Hd; [done|].
  apply IH. by apply dict_set_keys_nodup.
Qed.

Lemma dict_set_length {V} k (v : V) d :
  (length (dict_set k v d) <= S (length d))%nat.
Proof.
  induction d as [|[k0 v0] d IH]; simpl; [lia|].
  destruct (String.eqb k k0); simpl; lia.
Qed.

Lemma set_all_length {V} (rows d : list (string * V)) :
  (length (set_all rows d) <= length d + length rows)%nat.
Proof.
  revert d. induction rows as [|[k v] rows IH]; intros d; simpl; [lia|].
  etransitivity; [apply IH|]. pose proof (dict_set_length k v d). lia.
Qed.

Lemma set_all_app {V} (rows rows' d : list (string * V)) :
  set_all (rows ++ rows') d = set_all rows' (set_all rows d).
Proof. unfold set_all. by rewrite fold_left_app. Qed.

Lemma disk_rows_app os xs ys :
  disk_rows os (xs ++ ys) = disk_rows os xs ++ disk_rows os ys.
Proof. unfold disk_rows. by rewrite omap_app. Qed.

Lemma disk_rows_length os parts :
  (length (disk_rows os parts) <= length parts)%nat.
Proof.
  induction parts as [|p parts IH]; simpl; [lia|].
  destruct (readable os p); simpl; lia.
Qed.

(** X4.  The keys of the disk mapping: when no partition ends the loop,
    the mapping has a key for exactly the mount points whose usage was
    read, no key twice and so at most one row for each partition, and
    where two partitions share a mount point the row is that of the one
    enumerated last. *)
Theorem get_disk_info_mount_points (os : psutil.api)
    (parts : list psutil.sdiskpart) :
  psutil.disk_partitions os = Ok parts ->
  (forall p, In p parts -> disk_failure os p = None) ->
  exists d,
    get_disk_info os = PDict d
    /\ List.NoDup (dict_keys d)
    /\ (length d <= length parts)%nat
    /\ (forall m, In m (dict_keys d) <->
          exists p, In p parts /\ psutil.mountpoint p = m
                    /\ is_Some (readable os p))
    /\ (forall before p after u,
          parts = before ++ p :: after ->
          readable os p = Some u ->
          (forall q, In q after ->
             psutil.mountpoint q = psutil.mountpoint p ->
             readable os q = None) ->
          dict_get (psutil.mountpoint p) d = Some (entry_of p u)).
Proof.
  intros Hparts Hok. unfold get_disk_info. rewrite Hparts. simpl.
  rewrite (disk_loop_rows os parts []);
    [|by intros p Hp; apply disk_failure_none, Hok].
  simpl. eexists. split; [reflexivity|]. split; [|split; [|split]].
  - apply set_all_keys_nodup. constructor.
  - etransitivity; [apply set_all_length|]. simpl. apply disk_rows_length.
  - intros m. rewrite set_all_keys, disk_rows_keys. simpl. tauto.
  - intros before p after u -> Hu Hafter.
    rewrite disk_rows_app. simpl. rewrite Hu.
    change (disk_rows os before
              ++ (psutil.mountpoint p, entry_of p u) :: disk_rows os after)
      with (disk_rows os before
              ++ [(psutil.mountpoint p, entry_of p u)] ++ disk_rows os after).
    rewrite !set_all_app. rewrite get_set_all_notin.
    + simpl. apply dict_get_set_eq.
    + intros Hin. apply disk_rows_keys in Hin.
      destruct Hin as (q & Hq & Hm & Hr).
      rewrite (Hafter q Hq Hm) in Hr. by destruct Hr.
Qed.

(** ** Processes: the slice and the failures *)

Lemma slice_to_cut {A} (n : Z) (l : list A) :
  slice_to n l = take (slice_length n (length l)) l.
Proof.
  unfold slice_to, slice_length. destruct (0 <=? n)%Z; [|done].
  destruct (decide (Z.to_nat n <= length l)%nat).
  - by rewrite Nat.min_l.
  - rewrite Nat.min_r by lia. rewrite !firstn_all2; [done|lia..].
Qed.

Lemma slice_length_le n len : (slice_length n len <= len)%nat.
Proof.
  unfold slice_length. destruct (Z.leb_spec 0 n); lia.
Qed.

Lemma descending_split key (l : list psutil.pinfo) n :
  StronglySorted (descending key) l ->
  forall a b, In a (take n l) -> In b (drop n l) -> (key b <= key a)%Q.
Proof.
  intros Hs a b Ha Hb. rewrite <- (take_drop n l) in Hs.
  apply (StronglySorted_app_1_elem_of (descending key) (take n l) (drop n l));
    [done|by apply list_elem_of_In..].
Qed.

Lemma top_of_largest key top_n (l : list psutil.pinfo) :
  exists rest,
    Permutation (slice_to top_n (py_sorted key true l) ++ rest) l
    /\ (forall a b, In a (slice_to top_n (py_sorted key true l)) ->
                    In b rest -> (key b <= key a)%Q)
    /\ length (slice_to top_n (py_sorted key true l))
       = slice_length top_n (length l).
Proof.
  destruct (py_sorted_ranks key l) as (Hperm & Hsorted & _).
  rewrite slice_to_cut.
  exists (drop (slice_length top_n (length (py_sorted key true l)))
            (py_sorted key true l)).
  split; [by rewrite take_drop|]. split.
  - by apply descending_split.
  - rewrite length_take. rewrite (Permutation_length Hperm).
    pose proof (slice_length_le top_n (length l)). lia.
Qed.


Lemma not_enumerable_split procs :
  ~ enumerable procs ->
  exists before e after,
    procs = before ++ Raise e :: after
    /\ enumerable before /\ vanished_or_denied e = false.
Proof.
  induction procs as [|r procs IH]; intros Hne.
  - destruct Hne. constructor.
  - destruct r as [p|e].
    + destruct IH as (before & e & after & -> & Hb & He).
      { intros H. apply Hne. by constructor. }
      exists (Ok p :: before), e, after. split; [done|].
      split; [by constructor|done].
    + destruct (vanished_or_denied e) eqn:E.
      * destruct IH as (before & e' & after & -> & Hb & He).
        { intros H. apply Hne. by constructor. }
        exists (Raise e :: before), e', after. split; [done|].
        split; [by constructor|done].
      * exists [], e, procs. split; [done|]. split; [constructor|done].
Qed.

(** X6.  What ends the process loop: only [NoSuchProcess] (with its
    subclass [ZombieProcess]) and [AccessDenied] are skipped.  The first
    process, in the order yielded, whose [info] raises anything else
    makes the whole category an error marker with that exception's text,
    as does a failure of the enumeration itself; the category is an error
    marker in no other case. *)
Theorem get_process_info_first_failure (os : psutil.api) (top_n : Z) :
  (forall e, psutil.process_iter os = Raise e ->
     get_process_info os top_n
     = error_marker "Failed to get process info: " e)
  /\ (forall before e after,
        psutil.process_iter os = Ok (before ++ Raise e :: after) ->
        enumerable before ->
        vanished_or_denied e = false ->
        get_process_info os top_n
        = error_marker "Failed to get process info: " e)
  /\ (forall procs, psutil.process_iter os = Ok procs ->
        (is_error_marker (get_process_info os top_n) <->
         ~ enumerable procs)).
Proof.
  assert (Hfirst : forall before e after,
    psutil.process_iter os = Ok (before ++ Raise e :: after) ->
    enumerable before ->
    vanished_or_denied e = false ->
    get_process_info os top_n
    = error_marker "Failed to get process info: " e).
  { intros before e after Hiter Hb He. unfold get_process_info.
    rewrite Hiter. simpl. rewrite for_each_app.
    rewrite (process_loop_reads before [] Hb). simpl.
    unfold vanished_or_denied in He. by destruct (exn_cls e). }
  split; [|split; [exact Hfirst|]].
  - intros e He. unfold get_process_info. by rewrite He.
  - intros procs Hiter. split.
    + intros [msg Hm] Henum.
      rewrite (get_process_info_unfold os top_n procs Hiter Henum) in Hm.
      discriminate.
    + intros Hne. apply not_enumerable_split in Hne.
      destruct Hne as (before & e & after & -> & Hb & He).
      rewrite (Hfirst before e after Hiter Hb He). apply error_marker_is.
Qed.

(** ** Alert evaluation: what it reads and what it returns *)

(** X7.  [check_alerts] reads three entries of the snapshot and nothing
    else: two snapshots that agree on [cpu_info], [memory_info] and
    [disk_info] get the same result, an exception included, whatever
    their other entries are. *)
Theorem check_alerts_reads_three_entries (py_str : pyval -> string)
    (self : SystemHealthMonitor) (hd hd' : list (string * pyval)) :
  dict_get "cpu_info" hd = dict_get "cpu_info" hd' ->
  dict_get "memory_info" hd = dict_get "memory_info" hd' ->
  dict_get "disk_info" hd = dict_get "disk_info" hd' ->
  check_alerts py_str self (PDict hd) = check_alerts py_str self (PDict hd').
Proof.
  intros Hc Hm Hd.
  unfold check_alerts, check_cpu, check_memory, check_disk,
    py_contains, py_getitem, dict_has.
  by rewrite Hc, Hm, Hd.
Qed.

(** X8.  The snapshot [collect_all_metrics] returns holds the alerts of
    its own measurements: evaluating the returned snapshot again, with
    the [alerts] entry now in it, gives the alerts stored under
    [alerts]. *)
Theorem collect_all_metrics_alerts_fixed (py_str : pyval -> string)
    (self : SystemHealthMonitor) (os : psutil.api) (snapshot : pyval) :
  collect_all_metrics py_str self os = Ok snapshot ->
  exists alerts,
    py_getitem snapshot "alerts" = Ok (PList (map PStr alerts))
    /\ check_alerts py_str self snapshot = Ok alerts.
Proof.
  unfold collect_all_metrics.
  set (hd := [("timestamp", _); ("system_info", _); ("cpu_info", _);
              ("memory_info", _); ("disk_info", _); ("network_info", _);
              ("process_info", _)]).
  destruct (check_alerts py_str self (PDict hd)) as [alerts|e] eqn:E;
    simpl; [|discriminate].
  intros [= <-]. exists alerts. split; [done|].
  rewrite <- E. reflexivity.
Qed.

Lemma check_category_new (mk : pyval -> pyval -> string) self p category
    field acc acc' :
  check_category mk self p category field acc = Ok acc' ->
  acc' = acc
  \/ exists v t, py_getitem (alert_thresholds self) field = Ok t
                 /\ acc' = acc ++ [mk v t].
Proof.
  unfold check_category.
  destruct (_ ← py_contains category p; _) as [[|]|e]; simpl;
    [| by intros [= <-]; left | discriminate].
  destruct (py_getitem p category) as [info|e]; simpl; [|discriminate].
  destruct (py_getitem info field) as [v|e]; simpl; [|discriminate].
  destruct (py_getitem (alert_thresholds self) field) as [t|e]; simpl;
    [|discriminate].
  destruct (py_gt v t) as [[|]|e]; simpl; [| |discriminate].
  - intros [= <-]. right. by exists v, t.
  - intros [= <-]. by left.
Qed.

Lemma check_disk_item_new py_str self item acc acc' :
  check_disk_item py_str self item acc = Ok acc' ->
  acc' = acc
  \/ exists v t, acc' = acc ++ [disk_alert py_str (fst item) v t].
Proof.
  unfold check_disk_item. destruct item as [m d].
  destruct (if isinstance_dict d then _ else _) as [[|]|e]; simpl;
    [| by intros [= <-]; left | discriminate].
  destruct (py_getitem d "percent") as [v|e]; simpl; [|discriminate].
  destruct (py_getitem (alert_thresholds self) "disk_percent") as [t|e];
    simpl; [|discriminate].
  destruct (py_gt v t) as [[|]|e]; simpl; [| |discriminate].
  - intros [= <-]. right. by exists v, t.
  - intros [= <-]. by left.
Qed.

Lemma check_disk_loop_new py_str self items acc acc' :
  for_each (check_disk_item py_str self) items acc = Ok acc' ->
  exists new,
    acc' = acc ++ new
    /\ (length new <= length items)%nat
    /\ Forall (fun a => is_disk_alert a = true) new.
Proof.
  revert acc. induction items as [|item items IH]; intros acc; simpl.
  - intros [= <-]. exists []. by rewrite app_nil_r.
  - destruct (check_disk_item py_str self item acc) as [acc1|e] eqn:E;
      simpl; [|discriminate].
    intros Hloop. destruct (IH acc1 Hloop) as (new & -> & Hlen & Hkind).
    apply check_disk_item_new in E. destruct E as [->|(v & t & ->)].
    + exists new. split; [done|]. split; [lia|done].
    + exists (disk_alert py_str (fst item) v t :: new).
      split; [by rewrite <- app_assoc|]. split; [simpl; lia|].
      constructor; [|done].
      exact (proj2 (proj2 (disk_alert_kind py_str (fst item) v t))).
Qed.

Lemma check_cpu_category py_str self p acc :
  check_cpu py_str self p acc
  = check_category (cpu_alert py_str) self p "cpu_info" "cpu_percent" acc.
Proof. reflexivity. Qed.

Lemma check_memory_category py_str self p acc :
  check_memory py_str self p acc
  = check_category (memory_alert py_str) self p "memory_info"
      "memory_percent" acc.
Proof. reflexivity. Qed.

(** X9.  Whatever the snapshot holds and whatever the thresholds are,
    when [check_alerts] returns it returns at most one cpu alert, then at
    most one memory alert, then at most one alert for each entry of the
    disk mapping, and nothing else. *)
Theorem check_alerts_at_most_one_each (py_str : pyval -> string)
    (self : SystemHealthMonitor) (hd : list (string * pyval))
    (alerts : list string) :
  check_alerts py_str self (PDict hd) = Ok alerts ->
  exists cpu memory disk,
    alerts = cpu ++ memory ++ disk
    /\ (length cpu <= 1)%nat
    /\ Forall (fun a => is_cpu_alert a = true) cpu
    /\ (length memory <= 1)%nat
    /\ Forall (fun a => is_memory_alert a = true) memory
    /\ (length disk <= length (disk_items hd))%nat
    /\ Forall (fun a => is_disk_alert a = true) disk.
Proof.
  unfold check_alerts. rewrite check_cpu_category.
  destruct (check_category _ self (PDict hd) "cpu_info" "cpu_percent" [])
    as [a1|e] eqn:E1; simpl; [|discriminate].
  rewrite check_memory_category.
  destruct (check_category _ self (PDict hd) "memory_info" "memory_percent"
              a1) as [a2|e] eqn:E2; simpl; [|discriminate].
  destruct (check_disk py_str self (PDict hd) a2) as [a3|e] eqn:E3; simpl;
    [|discriminate].
  intros [= <-].
  assert (H1 : exists cpu, a1 = cpu /\ (length cpu <= 1)%nat
                           /\ Forall (fun a => is_cpu_alert a = true) cpu).
  { apply check_category_new in E1. destruct E1 as [->|(v & t & _ & ->)].
    - exists []. split; [done|]. split; [simpl; lia|constructor].
    - eexists. split; [reflexivity|]. split; [simpl; lia|].
      constructor; [|constructor].
      exact (proj1 (cpu_alert_kind py_str v t)). }
  destruct H1 as (cpu & -> & Hc1 & Hc2).
  assert (H2 : exists memory,
             a2 = cpu ++ memory /\ (length memory <= 1)%nat
             /\ Forall (fun a => is_memory_alert a = true) memory).
  { apply check_category_new in E2. destruct E2 as [->|(v & t & _ & ->)].
    - exists []. rewrite app_nil_r. split; [done|].
      split; [simpl; lia|constructor].
    - eexists. split; [reflexivity|]. split; [simpl; lia|].
      constructor; [|constructor].
      exact (proj1 (proj2 (memory_alert_kind py_str v t))). }
  destruct H2 as (memory & -> & Hm1 & Hm2).
  assert (H3 : exists disk,
             a3 = (cpu ++ memory) ++ disk
             /\ (length disk <= length (disk_items hd))%nat
             /\ Forall (fun a => is_disk_alert a = true) disk).
  { unfold check_disk, disk_items in *. simpl in E3. unfold dict_has in E3.
    destruct (dict_get "disk_info" hd) as [di|]; simpl in E3.
    - destruct di; simpl in E3;
        try (injection E3 as <-; exists []; rewrite app_nil_r;
             split; [done|]; split; [simpl; lia|constructor]).
      by apply check_disk_loop_new in E3.
    - injection E3 as <-. exists []. rewrite app_nil_r.
      split; [done|]. split; [simpl; lia|constructor]. }
  destruct H3 as (disk & -> & Hd1 & Hd2).
  exists cpu, memory, disk. rewrite <- app_assoc. by repeat split.
Qed.

Lemma metric_none_contains hd category field :
  category_wf hd category field = true ->
  metric hd category field = None ->
  (c ← py_contains category (PDict hd);
   if c : bool then
     info ← py_getitem (PDict hd) category; py_contains field info
   else Ok false) = Ok false.
Proof.
  unfold category_wf, metric. simpl. unfold dict_has.
  destruct (dict_get category hd) as [[| | | | |info]|]; simpl;
    try discriminate; [|done].
  intros _ Hm. unfold dict_has. by rewrite Hm.
Qed.

Lemma check_category_absent mk self hd category field acc :
  category_wf hd category field = true ->
  metric hd category field = None ->
  check_category mk self (PDict hd) category field acc = Ok acc.
Proof.
  intros Hwf Hm. unfold check_category.
  by rewrite (metric_none_contains hd category field Hwf Hm).
Qed.

Lemma check_disk_loop_absent py_str self items acc :
  Forall (fun item => percent_of (snd item) = None) items ->
  for_each (check_disk_item py_str self) items acc = Ok acc.
Proof.
  induction 1 as [|[m d] items Hp _ IH]; simpl; [done|].
  assert (Hhas : (if isinstance_dict d then py_contains "percent" d
                  else Ok false) = Ok false).
  { destruct d; try done. simpl in *. unfold dict_has. by rewrite Hp. }
  rewrite Hhas. simpl. exact IH.
Qed.

(** X10.  A threshold is looked up only when its percentage is there.  On
    a snapshot without percentages (every category an error marker, say)
    [check_alerts] returns no alert for any monitor, one without
    thresholds included; on a snapshot with a cpu percentage a monitor
    whose mapping lacks [cpu_percent] raises [KeyError] for that key,
    whatever the rest of the snapshot is. *)
Theorem check_alerts_threshold_lookup (py_str : pyval -> string)
    (self : SystemHealthMonitor) (hd : list (string * pyval)) :
  (snapshot_wf hd = true ->
   metric hd "cpu_info" "cpu_percent" = None ->
   metric hd "memory_info" "memory_percent" = None ->
   Forall (fun item => percent_of (snd item) = None) (disk_items hd) ->
   check_alerts py_str self (PDict hd) = Ok [])
  /\ (forall th v,
        alert_thresholds self = PDict th ->
        dict_get "cpu_percent" th = None ->
        metric hd "cpu_info" "cpu_percent" = Some v ->
        check_alerts py_str self (PDict hd)
        = Raise (Exn KeyError "'cpu_percent'")).
Proof.
  split.
  - intros Hwf Hc Hm Hd. unfold snapshot_wf in Hwf.
    apply andb_prop in Hwf as [Hwf _]. apply andb_prop in Hwf as [Wc Wm].
    unfold check_alerts.
    rewrite check_cpu_category, (check_category_absent _ _ _ _ _ _ Wc Hc).
    simpl.
    rewrite check_memory_category, (check_category_absent _ _ _ _ _ _ Wm Hm).
    simpl. unfold check_disk, disk_items in *. simpl. unfold dict_has.
    destruct (dict_get "disk_info" hd) as [di|]; simpl; [|done].
    destruct di; simpl; try done.
    by rewrite (check_disk_loop_absent py_str self _ [] Hd).
  - intros th v Hth Hk Hv. unfold metric in Hv.
    destruct (dict_get "cpu_info" hd) as [[| | | | |info]|] eqn:E;
      try discriminate.
    unfold check_alerts, check_cpu. simpl. unfold dict_has. rewrite E.
    simpl. unfold dict_has. rewrite Hv. simpl. rewrite Hth. simpl.
    by rewrite Hk.
Qed.

(** ** Collection: which alerts a machine gets *)

Lemma collect_all_metrics_unfold py_str self os :
  collect_all_metrics py_str self os
  = (alerts ← check_alerts py_str self (PDict (measurements os));
     Ok (snapshot_of os alerts)).
Proof. reflexivity. Qed.

Lemma cpu_sample_num os v : cpu_sample os = Some v -> is_num v = true.
Proof.
  unfold cpu_sample. destruct (psutil.sample_cpu_percent os); [|done].
  destruct (cpu_calls_succeed os); [|done]. by intros [= <-].
Qed.

Lemma memory_sample_num os v : memory_sample os = Some v -> is_num v = true.
Proof.
  unfold memory_sample. destruct (psutil.virtual_memory os); [|done].
  destruct (memory_calls_succeed os); [|done]. by intros [= <-].
Qed.

Lemma measurements_metrics os :
  snapshot_wf (measurements os) = true
  /\ metric (measurements os) "cpu_info" "cpu_percent" = cpu_sample os
  /\ metric (measurements os) "memory_info" "memory_percent"
     = memory_sample os.
Proof.
  pose proof (get_cpu_info_cases os) as Hc.
  pose proof (get_memory_info_cases os) as Hm.
  pose proof (cpu_sample_num os) as Nc.
  pose proof (memory_sample_num os) as Nm.
  destruct (get_disk_info_shape os) as (di & Edi & Wdi & _).
  unfold snapshot_wf, category_wf, disk_items, metric, measurements. simpl.
  rewrite Edi, Wdi.
  destruct (cpu_sample os) as [vc|];
    [destruct Hc as (_ & kc & -> & _ & Gc)|destruct Hc as (_ & ec & ->)];
  (destruct (memory_sample os) as [vm|];
    [destruct Hm as (_ & km & -> & _ & Gm)|destruct Hm as (_ & em & ->)]);
  simpl; try rewrite Gc; try rewrite Gm; simpl;
  try rewrite (Nc _ eq_refl); try rewrite (Nm _ eq_refl); done.
Qed.

Section CollectAlerts.

Variable py_str : pyval -> string.
Variable self : SystemHealthMonitor.
Variables tc tm td : pyval.
Hypothesis cpu_threshold : threshold self "cpu_percent" = Some tc.
Hypothesis memory_threshold : threshold self "memory_percent" = Some tm.
Hypothesis disk_threshold : threshold self "disk_percent" = Some td.
Hypothesis cpu_threshold_num : is_num tc = true.
Hypothesis memory_threshold_num : is_num tm = true.
Hypothesis disk_threshold_num : is_num td = true.

Lemma collect_all_metrics_evaluate os :
  collect_all_metrics py_str self os
  = Ok (snapshot_of os (evaluate py_str (measurements os) tc tm td)).
Proof.
  rewrite collect_all_metrics_unfold.
  destruct (measurements_metrics os) as (Hwf & _ & _).
  by rewrite (check_alerts_spec py_str self tc tm td cpu_threshold
                memory_threshold disk_threshold cpu_threshold_num
                memory_threshold_num disk_threshold_num _ Hwf).
Qed.

(** X11.  A machine gets a cpu alert exactly when every call of
    [get_cpu_info] returns and the sample is strictly above the
    threshold: a busy cpu goes unreported when the frequency, a core
    count or the load average cannot be read.  The same holds of the
    memory alert, which a failing swap lookup hides. *)
Theorem collect_all_metrics_alert_needs_category (os : psutil.api) :
  exists alerts,
    collect_all_metrics py_str self os = Ok (snapshot_of os alerts)
    /\ (has_alert is_cpu_alert alerts <->
        exists v, cpu_sample os = Some v /\ strictly_above v tc)
    /\ (has_alert is_memory_alert alerts <->
        exists v, memory_sample os = Some v /\ strictly_above v tm)
    /\ (cpu_calls_succeed os = false -> ~ has_alert is_cpu_alert alerts)
    /\ (memory_calls_succeed os = false ->
        ~ has_alert is_memory_alert alerts).
Proof.
  exists (evaluate py_str (measurements os) tc tm td).
  split; [apply collect_all_metrics_evaluate|].
  destruct (measurements_metrics os) as (_ & Mc & Mm).
  assert (Hcpu : has_alert is_cpu_alert
                   (evaluate py_str (measurements os) tc tm td) <->
                 exists v, cpu_sample os = Some v /\ strictly_above v tc).
  { unfold has_alert. rewrite <- Mc. split.
    - intros (a & Ha). apply evaluate_cpu in Ha.
      apply alert_if_In in Ha. destruct Ha as (v & Hv & Habove & _). eauto.
    - intros (v & Hv & Habove). exists (cpu_alert py_str v tc).
      apply evaluate_cpu. apply alert_if_In. eauto. }
  assert (Hmem : has_alert is_memory_alert
                   (evaluate py_str (measurements os) tc tm td) <->
                 exists v, memory_sample os = Some v /\ strictly_above v tm).
  { unfold has_alert. rewrite <- Mm. split.
    - intros (a & Ha). apply evaluate_memory in Ha.
      apply alert_if_In in Ha. destruct Ha as (v & Hv & Habove & _). eauto.
    - intros (v & Hv & Habove). exists (memory_alert py_str v tm).
      apply evaluate_memory. apply alert_if_In. eauto. }
  split; [exact Hcpu|]. split; [exact Hmem|]. split.
  - intros Hfail Ha. apply Hcpu in Ha. destruct Ha as (v & Hv & _).
    unfold cpu_sample in Hv. rewrite Hfail in Hv.
    by destruct (psutil.sample_cpu_percent os).
  - intros Hfail Ha. apply Hmem in Ha. destruct Ha as (v & Hv & _).
    unfold memory_sample in Hv. rewrite Hfail in Hv.
    by destruct (psutil.virtual_memory os).
Qed.

End CollectAlerts.

(** ** The summary *)

Section Summary.

Variable py_str : pyval -> string.

Lemma Pr_bind_ok {A B} (m : Pr A) (f : A -> Pr B) a out :
  m = (Ok a, out) ->
  m ≫= f = (fst (f a), out ++ snd (f a)).
Proof. intros ->. simpl. by destruct (f a). Qed.

Lemma print_summary_blocks data ts o1 o2 o3 o4 o5 :
  py_getitem data "timestamp" = Ok ts ->
  print_system py_str data = (Ok tt, o1) ->
  print_cpu py_str data = (Ok tt, o2) ->
  print_memory py_str data = (Ok tt, o3) ->
  print_disks py_str data = (Ok tt, o4) ->
  print_alerts py_str data = (Ok tt, o5) ->
  print_summary py_str data
  = (Ok tt, summary_header py_str ts ++ o1 ++ o2 ++ o3 ++ o4 ++ o5
              ++ [Printed rule]).
Proof.
  intros Hts H1 H2 H3 H4 H5. unfold print_summary, eval, print.
  rewrite Hts, H1, H2, H3, H4, H5. simpl.
  reflexivity.
Qed.

Lemma print_system_dict hd info :
  dict_get "system_info" hd = Some (PDict info) ->
  exists l1 l2,
    print_system py_str (PDict hd) = (Ok tt, [Printed l1; Printed l2])
    /\ (dict_get "hostname" info = None ->
        dict_get "platform" info = None ->
        dict_get "uptime_hours" info = None ->
        [Printed l1; Printed l2] = system_unknown py_str).
Proof.
  intros H. unfold print_system, eval, print. simpl. unfold dict_has.
  rewrite H. simpl. do 2 eexists. split; [reflexivity|].
  by intros -> -> ->.
Qed.

Lemma print_cpu_dict hd info :
  dict_get "cpu_info" hd = Some (PDict info) ->
  exists l1 l2,
    print_cpu py_str (PDict hd) = (Ok tt, [Printed l1; Printed l2])
    /\ (dict_get "cpu_percent" info = None ->
        dict_get "cpu_count_logical" info = None ->
        dict_get "cpu_count_physical" info = None ->
        [Printed l1; Printed l2] = cpu_unknown py_str).
Proof.
  intros H. unfold print_cpu, eval, print. simpl. unfold dict_has.
  rewrite H. simpl. do 2 eexists. split; [reflexivity|].
  by intros -> -> ->.
Qed.

Lemma print_memory_dict hd info :
  dict_get "memory_info" hd = Some (PDict info) ->
  exists l1 l2,
    print_memory py_str (PDict hd) = (Ok tt, [Printed l1; Printed l2])
    /\ (dict_get "memory_percent" info = None ->
        dict_get "memory_used_gb" info = None ->
        dict_get "memory_total_gb" info = None ->
        [Printed l1; Printed l2] = memory_unknown py_str).
Proof.
  intros H. unfold print_memory, eval, print. simpl. unfold dict_has.
  rewrite H. simpl. do 2 eexists. split; [reflexivity|].
  by intros -> -> ->.
Qed.

Lemma print_disk_rows items :
  exists rows,
    for_each_pr (print_disk_row py_str) items = (Ok tt, rows)
    /\ length rows
       = length (List.filter (fun item => isinstance_dict (snd item)) items)
    /\ sleeps rows = [] /\ writes rows = [].
Proof.
  induction items as [|[m d] items (rows & IH & Hlen & Hs & Hw)]; simpl.
  - by exists [].
  - rewrite IH. destruct d; simpl; eauto.
    eexists. split; [reflexivity|]. simpl. by rewrite Hlen, Hs, Hw.
Qed.

Lemma print_disks_dict hd items :
  dict_get "disk_info" hd = Some (PDict items) ->
  exists rows,
    print_disks py_str (PDict hd)
    = (Ok tt, Printed (nl +:+ "Disk Usage:") :: rows)
    /\ length rows
       = length (List.filter (fun item => isinstance_dict (snd item)) items)
    /\ sleeps rows = [] /\ writes rows = [].
Proof.
  intros H. unfold print_disks, eval, print. simpl. unfold dict_has.
  rewrite H. simpl.
  destruct (print_disk_rows items) as (rows & -> & Hlen).
  by exists rows.
Qed.

Lemma print_bullets alerts :
  for_each_pr (fun alert => print ("  • " +:+ py_str alert))
    (map PStr alerts)
  = (Ok tt, map (fun a => Printed ("  • " +:+ py_str (PStr a))) alerts).
Proof.
  unfold print. induction alerts as [|a alerts IH]; simpl; [done|].
  by rewrite IH.
Qed.

Lemma print_alerts_list hd alerts :
  dict_get "alerts" hd = Some (PList (map PStr alerts)) ->
  print_alerts py_str (PDict hd) = (Ok tt, alert_lines py_str alerts).
Proof.
  intros H. unfold print_alerts, eval, print. simpl. rewrite H. simpl.
  destruct alerts as [|a alerts]; simpl; [done|].
  pose proof (print_bullets alerts) as Hb. unfold print in Hb.
  by rewrite Hb.
Qed.

End Summary.

Lemma collect_all_metrics_snapshot py_str self os snapshot :
  collect_all_metrics py_str self os = Ok snapshot ->
  exists alerts,
    check_alerts py_str self (PDict (measurements os)) = Ok alerts
    /\ snapshot = snapshot_of os alerts.
Proof.
  rewrite collect_all_metrics_unfold.
  destruct (check_alerts py_str self (PDict (measurements os)))
    as [alerts|e]; simpl; [|discriminate].
  intros [= <-]. by exists alerts.
Qed.

Lemma filter_dict_rows (d : list (string * pyval)) keys :
  Forall (fun kv => has_keys keys (snd kv)) d ->
  List.filter (fun item => isinstance_dict (snd item)) d = d.
Proof.
  induction 1 as [|[k v] d Hkv _ IH]; simpl; [done|].
  destruct Hkv as (kvs & Hv & _). simpl in Hv. subst v. simpl.
  by rewrite IH.
Qed.

Lemma print_summary_collected_blocks py_str os alerts :
  exists system cpu memory disk,
    print_summary py_str (snapshot_of os alerts)
    = (Ok tt,
       summary_header py_str (PStr (psutil.now os))
         ++ system ++ cpu ++ memory
         ++ (Printed (nl +:+ "Disk Usage:") :: disk)
         ++ alert_lines py_str alerts ++ [Printed rule])
    /\ (length system = 2 /\ length cpu = 2 /\ length memory = 2)%nat
    /\ (forall d, get_disk_info os = PDict d ->
          ~ is_error_marker (PDict d) -> length disk = length d)
    /\ (is_error_marker (get_system_info os) ->
        system = system_unknown py_str)
    /\ (cpu_calls_succeed os = false -> cpu = cpu_unknown py_str)
    /\ (memory_calls_succeed os = false -> memory = memory_unknown py_str)
    /\ (is_error_marker (get_disk_info os) -> disk = [])
    /\ sleeps disk = [] /\ writes disk = [].
Proof.
  assert (Hsys : exists info, get_system_info os = PDict info
            /\ (is_error_marker (get_system_info os) ->
                dict_get "hostname" info = None
                /\ dict_get "platform" info = None
                /\ dict_get "uptime_hours" info = None)).
  { destruct (get_system_info_shape os) as [[msg ->]|(kvs & -> & _)].
    - by eexists.
    - eexists. split; [done|]. intros [msg [= ->]]. done. }
  destruct Hsys as (si & Esi & Hsi).
  assert (Hcpu : exists info, get_cpu_info os = PDict info
            /\ (cpu_calls_succeed os = false ->
                dict_get "cpu_percent" info = None
                /\ dict_get "cpu_count_logical" info = None
                /\ dict_get "cpu_count_physical" info = None)).
  { pose proof (get_cpu_info_cases os) as H.
    destruct (cpu_sample os); [destruct H as (-> & kvs & -> & _)
                              |destruct H as (_ & e & ->)].
    - by eexists.
    - by eexists. }
  destruct Hcpu as (ci & Eci & Hci).
  assert (Hmem : exists info, get_memory_info os = PDict info
            /\ (memory_calls_succeed os = false ->
                dict_get "memory_percent" info = None
                /\ dict_get "memory_used_gb" info = None
                /\ dict_get "memory_total_gb" info = None)).
  { pose proof (get_memory_info_cases os) as H.
    destruct (memory_sample os); [destruct H as (-> & kvs & -> & _)
                                 |destruct H as (_ & e & ->)].
    - by eexists.
    - by eexists. }
  destruct Hmem as (mi & Emi & Hmi).
  destruct (get_disk_info_shape os) as (di & Edi & _ & Sdi).
  set (hd := measurements os ++ [("alerts", PList (map PStr alerts))]).
  assert (Gs : dict_get "system_info" hd = Some (PDict si))
    by (by rewrite <- Esi).
  assert (Gc : dict_get "cpu_info" hd = Some (PDict ci))
    by (by rewrite <- Eci).
  assert (Gm : dict_get "memory_info" hd = Some (PDict mi))
    by (by rewrite <- Emi).
  assert (Gd : dict_get "disk_info" hd = Some (PDict di))
    by (by rewrite <- Edi).
  assert (Ga : dict_get "alerts" hd = Some (PList (map PStr alerts)))
    by done.
  destruct (print_system_dict py_str hd si Gs) as (s1 & s2 & Ps & Us).
  destruct (print_cpu_dict py_str hd ci Gc) as (c1 & c2 & Pc & Uc).
  destruct (print_memory_dict py_str hd mi Gm) as (m1 & m2 & Pm & Um).
  destruct (print_disks_dict py_str hd di Gd)
    as (rows & Pd & Ld & Sd & Wd).
  pose proof (print_alerts_list py_str hd alerts Ga) as Pa.
  exists [Printed s1; Printed s2], [Printed c1; Printed c2],
         [Printed m1; Printed m2], rows.
  split.
  { unfold snapshot_of. fold hd.
    by rewrite (print_summary_blocks py_str (PDict hd)
                  (PStr (psutil.now os)) _ _ _ _ _ eq_refl Ps Pc Pm Pd Pa). }
  split; [done|]. split; [|split; [|split; [|split; [|split]]]].
  - intros d Ed Hne. rewrite Edi in Ed. injection Ed as <-.
    destruct Sdi as [Hm|(kvs & [= <-] & Hrows)]; [contradiction|].
    by rewrite Ld, (filter_dict_rows di disk_keys Hrows).
  - intros Hm. destruct (Hsi Hm) as (? & ? & ?). by apply Us.
  - intros Hf. destruct (Hci Hf) as (? & ? & ?). by apply Uc.
  - intros Hf. destruct (Hmi Hf) as (? & ? & ?). by apply Um.
  - rewrite Edi. intros [msg [= ->]]. simpl in Ld. by destruct rows.
  - done.
Qed.

(** X12.  Collection and summary fit: [print_summary] raises on no
    snapshot that [collect_all_metrics] returns, whatever psutil did.  It
    prints the header with the timestamp of the collection, two lines
    each for system, cpu and memory, the disk heading with one line for
    each row of the disk mapping, the alerts in their order, each on a
    line of its own (or the line that tells there are none), and the
    closing rule. *)
Theorem print_summary_of_collected (py_str : pyval -> string)
    (self : SystemHealthMonitor) (os : psutil.api) (snapshot : pyval) :
  collect_all_metrics py_str self os = Ok snapshot ->
  exists alerts system cpu memory disk,
    check_alerts py_str self (PDict (measurements os)) = Ok alerts
    /\ print_summary py_str snapshot
       = (Ok tt,
          summary_header py_str (PStr (psutil.now os))
            ++ system ++ cpu ++ memory
            ++ (Printed (nl +:+ "Disk Usage:") :: disk)
            ++ alert_lines py_str alerts ++ [Printed rule])
    /\ (length system = 2 /\ length cpu = 2 /\ length memory = 2)%nat
    /\ (forall d, get_disk_info os = PDict d ->
          ~ is_error_marker (PDict d) -> length disk = length d).
Proof.
  intros Hrun.
  destruct (collect_all_metrics_snapshot py_str self os snapshot Hrun)
    as (alerts & Ha & ->).
  destruct (print_summary_collected_blocks py_str os alerts)
    as (system & cpu & memory & disk & Hp & Hl & Hd & _).
  by exists alerts, system, cpu, memory, disk.
Qed.

(** X13.  A category that failed is shown as unknown, not as failed: for
    a category that is an error marker the summary prints its lines with
    [N/A] in the place of every value, and the text of the error is not
    printed; for a failed disk category it prints the heading and no
    row. *)
Theorem print_summary_failed_category (py_str : pyval -> string)
    (os : psutil.api) (alerts : list string) :
  exists system cpu memory disk,
    print_summary py_str (snapshot_of os alerts)
    = (Ok tt,
       summary_header py_str (PStr (psutil.now os))
         ++ system ++ cpu ++ memory
         ++ (Printed (nl +:+ "Disk Usage:") :: disk)
         ++ alert_lines py_str alerts ++ [Printed rule])
    /\ (length system = 2 /\ length cpu = 2 /\ length memory = 2)%nat
    /\ (is_error_marker (get_system_info os) ->
        system = system_unknown py_str)
    /\ (cpu_calls_succeed os = false -> cpu = cpu_unknown py_str)
    /\ (memory_calls_succeed os = false -> memory = memory_unknown py_str)
    /\ (is_error_marker (get_disk_info os) -> disk = []).
Proof.
  destruct (print_summary_collected_blocks py_str os alerts)
    as (system & cpu & memory & disk & Hp & Hl & _ & Hs & Hc & Hm & Hd & _).
  by exists system, cpu, memory, disk.
Qed.

(** X14.  What the summary needs of a snapshot: the timestamp and nothing
    else.  Without a [timestamp] entry [print_summary] raises [KeyError]
    after the three lines of the header; with one, and none of the other
    entries, it prints the header, reports that there are no alerts, and
    returns. *)
Theorem print_summary_needs_timestamp (py_str : pyval -> string)
    (hd : list (string * pyval)) :
  (dict_get "timestamp" hd = None ->
   print_summary py_str (PDict hd)
   = (Raise (Exn KeyError "'timestamp'"),
      [Printed (nl +:+ rule); Printed "SYSTEM HEALTH SUMMARY";
       Printed rule]))
  /\ (forall ts,
        dict_get "timestamp" hd = Some ts ->
        dict_get "system_info" hd = None ->
        dict_get "cpu_info" hd = None ->
        dict_get "memory_info" hd = None ->
        dict_get "disk_info" hd = None ->
        dict_get "alerts" hd = None ->
        print_summary py_str (PDict hd)
        = (Ok tt, summary_header py_str ts ++ alert_lines py_str []
                    ++ [Printed rule])).
Proof.
  split.
  - intros H. unfold print_summary, eval, print. simpl. by rewrite H.
  - intros ts Hts Hs Hc Hm Hd Ha.
    rewrite (print_summary_blocks py_str (PDict hd) ts [] [] [] []
               (alert_lines py_str [])); try done.
    + simpl. by rewrite Hts.
    + unfold print_system, eval. simpl. unfold dict_has. by rewrite Hs.
    + unfold print_cpu, eval. simpl. unfold dict_has. by rewrite Hc.
    + unfold print_memory, eval. simpl. unfold dict_has. by rewrite Hm.
    + unfold print_disks, eval. simpl. unfold dict_has. by rewrite Hd.
    + unfold print_alerts, eval. simpl. by rewrite Ha.
Qed.

(** ** Traces: what only prints *)

Lemma only_prints_print s : only_prints (print s).
Proof. by repeat constructor. Qed.

Lemma only_prints_eval {A} (r : result A) : only_prints (eval r).
Proof. constructor. Qed.

Lemma only_prints_ret {A} (a : A) : only_prints (mret a : Pr A).
Proof. constructor. Qed.

Lemma only_prints_bind {A B} (m : Pr A) (f : A -> Pr B) :
  only_prints m -> (forall a, only_prints (f a)) -> only_prints (m ≫= f).
Proof.
  unfold only_prints. destruct m as [[a|e] out]; simpl; [|done].
  intros Hm Hf. specialize (Hf a). destruct (f a) as [r out']. simpl in *.
  by apply Forall_app.
Qed.

Lemma only_prints_if {A} (b : bool) (m1 m2 : Pr A) :
  only_prints m1 -> only_prints m2 -> only_prints (if b then m1 else m2).
Proof. by destruct b. Qed.

Lemma only_prints_for_each {A} (body : A -> Pr unit) xs :
  (forall x, only_prints (body x)) -> only_prints (for_each_pr body xs).
Proof.
  intros Hb. induction xs as [|x xs IH]; simpl; [constructor|].
  apply only_prints_bind; [apply Hb|by intros _].
Qed.

Ltac prints :=
  repeat first
    [ apply only_prints_print | apply only_prints_eval
    | apply only_prints_ret
    | apply only_prints_bind; [|intros ?]
    | apply only_prints_if
    | apply only_prints_for_each; intros ? ].

Lemma only_prints_disk_row py_str item :
  only_prints (print_disk_row py_str item).
Proof. destruct item as [m d]. unfold print_disk_row. prints. Qed.

Lemma print_summary_only_prints py_str data :
  only_prints (print_summary py_str data).
Proof.
  unfold print_summary, print_system, print_cpu, print_memory, print_disks,
    print_alerts.
  prints.
  - match goal with |- only_prints (match ?v with _ => _ end) =>
      destruct v end; prints. apply only_prints_disk_row.
Qed.

Lemma only_prints_sleeps {A} (m : Pr A) :
  only_prints m -> sleeps (snd m) = [] /\ writes (snd m) = [].
Proof.
  unfold only_prints. induction 1 as [|e out He _ [IH1 IH2]]; [done|].
  destruct e; simpl; try done.
Qed.

(** ** Runs of [main] *)

Lemma sleep_refusal_accepted seconds os_error :
  (0 <= seconds <= longest_sleep)%Z ->
  sleep_refusal seconds os_error = os_error.
Proof.
  unfold sleep_refusal, longest_sleep. intros H.
  destruct (Z.ltb_spec PyTime_MAX (seconds * 1000000000));
    [unfold PyTime_MAX in *; lia|].
  destruct (Z.ltb_spec (seconds * 1000000000) (- PyTime_MAX - 1));
    [unfold PyTime_MAX in *; lia|].
  cbn [orb]. destruct (Z.ltb_spec seconds 0); [lia|done].
Qed.

Lemma sleep_refusal_negative seconds os_error :
  (seconds < 0)%Z ->
  sleep_refusal seconds os_error
  = Some (Exn (OtherError (if (- longest_sleep <=? seconds)%Z
                           then "ValueError" else "OverflowError"))
            (if (- longest_sleep <=? seconds)%Z
             then "sleep length must be non-negative"
             else "timestamp too large to convert to C _PyTime_t")).
Proof.
  unfold sleep_refusal. intros H.
  destruct (Z.ltb_spec PyTime_MAX (seconds * 1000000000));
    [unfold PyTime_MAX in *; lia|].
  destruct (Z.leb_spec (- longest_sleep) seconds);
    destruct (Z.ltb_spec (seconds * 1000000000) (- PyTime_MAX - 1));
    try (unfold PyTime_MAX, longest_sleep in *; lia); cbn [orb]; [|done].
  destruct (Z.ltb_spec seconds 0); [done|lia].
Qed.

Lemma sleep_refusal_too_long seconds os_error :
  (longest_sleep < seconds)%Z ->
  sleep_refusal seconds os_error
  = Some (Exn (OtherError "OverflowError")
            "timestamp too large to convert to C _PyTime_t").
Proof.
  unfold sleep_refusal, longest_sleep. intros H.
  destruct (Z.ltb_spec PyTime_MAX (seconds * 1000000000));
    [done|unfold PyTime_MAX in *; lia].
Qed.

Lemma file_from_app c out out' f :
  file_from c (out ++ out') f = file_from (file_from c out f) out' f.
Proof. unfold file_from. by rewrite fold_left_app. Qed.

Lemma file_from_prints c out f :
  Forall is_printed out -> file_from c out f = c.
Proof.
  intros H. revert c. induction H as [|e out He _ IH]; intros c; [done|].
  destruct e; try done. apply IH.
Qed.

Section Main.

Variable py_str : pyval -> string.
Variable args : Args.
Variable w : World.

Lemma main_monitor_collects os :
  collect_all_metrics py_str (main_monitor args) os
  = Ok (snapshot_of os
          (evaluate py_str (measurements os) (PFloat (cpu_threshold args))
             (PFloat (memory_threshold args))
             (PFloat (disk_threshold args)))).
Proof. by apply collect_all_metrics_evaluate. Qed.

Lemma save_to_file_trace fs data filename :
  save_to_file fs data filename
  = (Ok tt, save_events fs (target_file fs filename) data).
Proof.
  unfold save_to_file, write_file, save_events, target_file, eval.
  destruct filename;
    (destruct (open_w fs _) as [[]|e]; [|done]);
    by destruct (json_dump fs _ data) as [[]|e].
Qed.

(** What one iteration does: the snapshot, its summary, and the save. *)
Lemma run_once_trace i :
  exists alerts summary,
    collect_all_metrics py_str (main_monitor args) (os_at w i)
    = Ok (snapshot_of (os_at w i) alerts)
    /\ print_summary py_str (snapshot_of (os_at w i) alerts)
       = (Ok tt, summary)
    /\ Forall is_printed summary
    /\ run_once py_str (main_monitor args) args w i
       = (Ok tt,
          summary
            ++ (if save args
                then save_events (fs_at w i)
                       (target_file (fs_at w i) (output args))
                       (snapshot_of (os_at w i) alerts)
                else [])).
Proof.
  eexists.
  destruct (print_summary_collected_blocks py_str (os_at w i)
              (evaluate py_str (measurements (os_at w i))
                 (PFloat (cpu_threshold args))
                 (PFloat (memory_threshold args))
                 (PFloat (disk_threshold args))))
    as (system & cpu & memory & disk & Hp & _).
  eexists. split; [apply main_monitor_collects|].
  split; [exact Hp|].
  pose proof (print_summary_only_prints py_str
    (snapshot_of (os_at w i)
       (evaluate py_str (measurements (os_at w i))
          (PFloat (cpu_threshold args)) (PFloat (memory_threshold args))
          (PFloat (disk_threshold args))))) as Hq.
  unfold only_prints in Hq. rewrite Hp in Hq. simpl in Hq.
  split; [exact Hq|].
  unfold run_once, eval. rewrite main_monitor_collects. simpl.
  rewrite Hp. destruct (save args).
  - rewrite save_to_file_trace. simpl. by rewrite <- !app_assoc.
  - simpl. by rewrite <- !app_assoc.
Qed.

Lemma run_once_work i :
  run_once py_str (main_monitor args) args w i
  = (Ok tt, iteration_work py_str args w i).
Proof.
  unfold iteration_work.
  destruct (run_once_trace i) as (alerts & summary & _ & _ & _ & ->).
  done.
Qed.

Lemma monitor_loop_step fuel i :
  monitor_loop py_str (main_monitor args) args w (S fuel) i
  = match sleep_refused args w i with
    | Some e => (Raise e, iteration_work py_str args w i)
    | None =>
        if interrupt_at w i then
          (Ok Interrupted, iteration_trace py_str args w i)
        else
          (fst (monitor_loop py_str (main_monitor args) args w fuel (S i)),
           iteration_trace py_str args w i
             ++ snd (monitor_loop py_str (main_monitor args) args w fuel
                       (S i)))
    end.
Proof.
  unfold iteration_trace, sleep_refused.
  change (monitor_loop py_str (main_monitor args) args w (S fuel) i)
    with (_ ← run_once py_str (main_monitor args) args w i;
          interrupted ←
            time_sleep (interval args) (sleep_error_at w i (interval args))
              (interrupt_at w i);
          if interrupted : bool then mret Interrupted
          else monitor_loop py_str (main_monitor args) args w fuel (S i)).
  rewrite run_once_work. unfold time_sleep, eval.
  destruct (sleep_refusal _ _); simpl.
  - by rewrite ?app_nil_r.
  - destruct (interrupt_at w i); simpl.
    + by rewrite ?app_nil_r.
    + destruct (monitor_loop py_str (main_monitor args) args w fuel (S i)).
      simpl. first [done | by rewrite <- !app_assoc].
Qed.

Lemma flat_map_seq_S {A} (f : nat -> list A) i n :
  flat_map f (seq i (S n)) = f i ++ flat_map f (seq (S i) n).
Proof. reflexivity. Qed.

Lemma monitor_loop_interrupted k : forall fuel i,
  (forall j, (j <= k)%nat -> sleep_refused args w (i + j) = None) ->
  (forall j, (j < k)%nat -> interrupt_at w (i + j) = false) ->
  interrupt_at w (i + k) = true ->
  (k < fuel)%nat ->
  monitor_loop py_str (main_monitor args) args w fuel i
  = (Ok Interrupted,
     flat_map (iteration_trace py_str args w) (seq i (S k))).
Proof.
  induction k as [|k IH]; intros fuel i Hok Hno Hat Hfuel;
    (destruct fuel as [|fuel]; [lia|]);
    rewrite monitor_loop_step;
    pose proof (Hok 0%nat ltac:(lia)) as Hok0;
    rewrite Nat.add_0_r in Hok0; rewrite Hok0.
  - rewrite Nat.add_0_r in Hat. rewrite Hat. simpl. by rewrite app_nil_r.
  - pose proof (Hno 0%nat ltac:(lia)) as H0. rewrite Nat.add_0_r in H0.
    rewrite H0. rewrite (IH fuel (S i)); [| | | |lia].
    + by rewrite (flat_map_seq_S _ i (S k)).
    + intros j Hj. specialize (Hok (S j) ltac:(lia)).
      by replace (S i + j)%nat with (i + S j)%nat by lia.
    + intros j Hj. specialize (Hno (S j) ltac:(lia)).
      by replace (S i + j)%nat with (i + S j)%nat by lia.
    + by replace (S i + k)%nat with (i + S k)%nat by lia.
Qed.

Lemma monitor_loop_running fuel : forall i,
  (forall j, (j < fuel)%nat -> sleep_refused args w (i + j) = None) ->
  (forall j, (j < fuel)%nat -> interrupt_at w (i + j) = false) ->
  monitor_loop py_str (main_monitor args) args w fuel i
  = (Ok OutOfFuel, flat_map (iteration_trace py_str args w) (seq i fuel)).
Proof.
  induction fuel as [|fuel IH]; intros i Hok Hno; [done|].
  rewrite monitor_loop_step.
  pose proof (Hok 0%nat ltac:(lia)) as Hok0. rewrite Nat.add_0_r in Hok0.
  rewrite Hok0.
  pose proof (Hno 0%nat ltac:(lia)) as H0. rewrite Nat.add_0_r in H0.
  rewrite H0. rewrite (IH (S i)); [done| |].
  - intros j Hj. specialize (Hok (S j) ltac:(lia)).
    by replace (S i + j)%nat with (i + S j)%nat by lia.
  - intros j Hj. specialize (Hno (S j) ltac:(lia)).
    by replace (S i + j)%nat with (i + S j)%nat by lia.
Qed.

(** The loop raises only what a sleep raises. *)
Lemma monitor_loop_raises fuel : forall i e,
  fst (monitor_loop py_str (main_monitor args) args w fuel i) = Raise e ->
  exists j, (i <= j < i + fuel)%nat /\ sleep_refused args w j = Some e.
Proof.
  induction fuel as [|fuel IH]; intros i e; [discriminate|].
  rewrite monitor_loop_step.
  destruct (sleep_refused args w i) as [e'|] eqn:E; simpl.
  - intros [= <-]. exists i. split; [lia|done].
  - destruct (interrupt_at w i); simpl; [discriminate|].
    intros H. destruct (IH (S i) e H) as (j & Hj & Hr).
    exists j. split; [lia|done].
Qed.

Lemma main_unfold fuel :
  main py_str args w fuel
  = let '(r, out) :=
      (if continuous args then
         (fst (monitor_loop py_str (main_monitor args) args w fuel 0),
          start_lines py_str args
            ++ snd (monitor_loop py_str (main_monitor args) args w fuel 0))
       else (Ok Done, iteration_work py_str args w 0)) in
    match r with
    | Ok Done => (Finished, out)
    | Ok OutOfFuel => (Running, out)
    | Ok Interrupted =>
        (Exit 0,
         out ++ [Printed (nl +:+ nl +:+ "Monitoring stopped by user")])
    | Raise e => (Exit 1, out ++ [Printed ("Error: " +:+ exn_msg e)])
    end.
Proof.
  unfold main. fold (main_monitor args). destruct (continuous args).
  - unfold print. simpl.
    by destruct (monitor_loop py_str (main_monitor args) args w fuel 0).
  - rewrite run_once_work. simpl. by rewrite app_nil_r.
Qed.

(** The first sleep that is refused ends the run. *)
Lemma main_sleep_refused fuel e :
  continuous args = true ->
  (0 < fuel)%nat ->
  sleep_refused args w 0 = Some e ->
  main py_str args w fuel
  = (Exit 1,
     start_lines py_str args ++ iteration_work py_str args w 0
       ++ [Printed ("Error: " +:+ exn_msg e)]).
Proof.
  intros Hmode Hfuel He. destruct fuel as [|fuel]; [lia|].
  rewrite main_unfold, Hmode, monitor_loop_step, He. simpl.
  first [done | by rewrite <- !app_assoc].
Qed.

End Main.

Lemma sleeps_app out out' : sleeps (out ++ out') = sleeps out ++ sleeps out'.
Proof. unfold sleeps. by rewrite omap_app. Qed.

Lemma sleeps_prints out : Forall is_printed out -> sleeps out = [].
Proof. induction 1 as [|e out He _ IH]; [done|]. by destruct e. Qed.

Lemma save_events_sleeps fs name data : sleeps (save_events fs name data) = [].
Proof.
  unfold save_events. destruct (open_w fs name) as [[]|e]; [|done].
  by destruct (json_dump fs name data) as [[]|e].
Qed.

Lemma iteration_work_sleeps py_str args w i :
  sleeps (iteration_work py_str args w i) = [].
Proof.
  unfold iteration_work.
  destruct (run_once_trace py_str args w i)
    as (alerts & summary & _ & _ & Hs & ->).
  simpl. rewrite sleeps_app, (sleeps_prints summary Hs). simpl.
  destruct (save args); [apply save_events_sleeps|done].
Qed.

Lemma sleeps_iterations py_str args w i n :
  sleeps (flat_map (iteration_trace py_str args w) (seq i n))
  = replicate n (interval args).
Proof.
  revert i. induction n as [|n IH]; intros i; [done|].
  rewrite flat_map_seq_S, sleeps_app, IH. unfold iteration_trace.
  rewrite sleeps_app. by rewrite iteration_work_sleeps.
Qed.

(** X15.  The monitor [main] builds holds the three thresholds of the
    command line, whatever their values: the fallback of [__init__] on
    the defaults never applies to it, also when every threshold is 0,
    and a collection with this monitor returns a snapshot on every
    machine. *)
Theorem main_monitor_thresholds (args : Args) :
  alert_thresholds (main_monitor args) = main_thresholds args
  /\ threshold (main_monitor args) "cpu_percent"
     = Some (PFloat (cpu_threshold args))
  /\ threshold (main_monitor args) "memory_percent"
     = Some (PFloat (memory_threshold args))
  /\ threshold (main_monitor args) "disk_percent"
     = Some (PFloat (disk_threshold args))
  /\ forall py_str os,
       exists alerts,
         collect_all_metrics py_str (main_monitor args) os
         = Ok (snapshot_of os alerts).
Proof.
  repeat split. intros py_str os. eexists.
  apply main_monitor_collects.
Qed.

(** X16.  A single run always finishes: whatever psutil and the file
    system do, [main] without [--continuous] collects once, prints the
    summary of that snapshot, never sleeps, and returns without calling
    [sys.exit].  With [--save] it writes that same snapshot, under the
    name given or the name made of the time stamp; a failure to open the
    file, or to write it once it is open and empty, is printed and is
    not fatal. *)
Theorem main_single_run (py_str : pyval -> string) (args : Args) (w : World)
    (fuel : nat) :
  continuous args = false ->
  exists alerts summary saved,
    collect_all_metrics py_str (main_monitor args) (os_at w 0)
    = Ok (snapshot_of (os_at w 0) alerts)
    /\ print_summary py_str (snapshot_of (os_at w 0) alerts)
       = (Ok tt, summary)
    /\ main py_str args w fuel = (Finished, summary ++ saved)
    /\ sleeps (summary ++ saved) = []
    /\ (save args = false -> saved = [])
    /\ (save args = true ->
        saved
        = match open_w (fs_at w 0)
                  (target_file (fs_at w 0) (output args)) with
          | Raise e => [Printed ("Error saving to file: " +:+ exn_msg e)]
          | Ok _ =>
              match json_dump (fs_at w 0)
                      (target_file (fs_at w 0) (output args))
                      (snapshot_of (os_at w 0) alerts) with
              | Ok _ =>
                  [Opened (target_file (fs_at w 0) (output args));
                   Wrote (target_file (fs_at w 0) (output args))
                     (snapshot_of (os_at w 0) alerts);
                   Printed ("Health data saved to: "
                              +:+ target_file (fs_at w 0) (output args))]
              | Raise e =>
                  [Opened (target_file (fs_at w 0) (output args));
                   Printed ("Error saving to file: " +:+ exn_msg e)]
              end
          end).
Proof.
  intros Hmode. rewrite main_unfold, Hmode.
  pose proof (iteration_work_sleeps py_str args w 0) as Hsl.
  unfold iteration_work in *.
  destruct (run_once_trace py_str args w 0)
    as (alerts & summary & Hc & Hp & _ & Hrun).
  rewrite Hrun in *. simpl in *.
  exists alerts, summary. eexists. split; [exact Hc|]. split; [exact Hp|].
  split; [reflexivity|]. split; [exact Hsl|].
  split; intros Hsave; rewrite Hsave; [done|].
  unfold save_events.
  destruct (open_w (fs_at w 0) _) as [[]|e]; [|done].
  by destruct (json_dump (fs_at w 0) _ _) as [[]|e].
Qed.

(** X17.  A negative [--interval] ends continuous monitoring after one
    collection: the first iteration is done in full, the sleep is
    refused, and [main] prints the error and exits with code 1 without
    having slept.  The error is that the sleep length must be
    non-negative, or, below [- longest_sleep], that the time is too large
    for the interpreter's clock. *)
Theorem main_negative_interval (py_str : pyval -> string) (args : Args)
    (w : World) (fuel : nat) :
  continuous args = true ->
  (interval args < 0)%Z ->
  (0 < fuel)%nat ->
  main py_str args w fuel
  = (Exit 1,
     start_lines py_str args ++ iteration_work py_str args w 0
       ++ [Printed ("Error: "
                      +:+ (if (- longest_sleep <=? interval args)%Z
                           then "sleep length must be non-negative"
                           else "timestamp too large to convert to C _PyTime_t"))])
  /\ sleeps (snd (main py_str args w fuel)) = []
  /\ run_once py_str (main_monitor args) args w 0
     = (Ok tt, iteration_work py_str args w 0).
Proof.
  intros Hmode Hneg Hfuel.
  pose proof (main_sleep_refused py_str args w fuel _ Hmode Hfuel
                (sleep_refusal_negative (interval args)
                   (sleep_error_at w 0 (interval args)) Hneg)) as Hmain.
  simpl exn_msg in Hmain.
  split; [exact Hmain|]. split; [|apply run_once_work].
  rewrite Hmain. cbn [snd]. rewrite !sleeps_app.
  by rewrite iteration_work_sleeps.
Qed.

(** X18.  Ctrl+C ends continuous monitoring with code 0: for an interval
    [time.sleep] takes, when the interrupt comes during the sleep of
    iteration [k], [main] has done [k + 1] iterations in full, each
    followed by a sleep of [--interval] seconds, prints that monitoring
    was stopped, and exits with code 0. *)
Theorem main_interrupted (py_str : pyval -> string) (args : Args)
    (w : World) (fuel k : nat) :
  continuous args = true ->
  (0 <= interval args <= longest_sleep)%Z ->
  (forall j, (j <= k)%nat -> sleep_error_at w j (interval args) = None) ->
  (forall j, (j < k)%nat -> interrupt_at w j = false) ->
  interrupt_at w k = true ->
  (k < fuel)%nat ->
  main py_str args w fuel
  = (Exit 0,
     start_lines py_str args ++ iterations py_str args w (S k)
       ++ [Printed (nl +:+ nl +:+ "Monitoring stopped by user")])
  /\ sleeps (snd (main py_str args w fuel))
     = replicate (S k) (interval args).
Proof.
  intros Hmode Hint Hos Hno Hat Hfuel.
  assert (Hok : forall j, (j <= k)%nat -> sleep_refused args w (0 + j) = None).
  { intros j Hj. unfold sleep_refused. simpl.
    rewrite (sleep_refusal_accepted _ _ Hint). by apply Hos. }
  assert (Hmain : main py_str args w fuel
    = (Exit 0,
       start_lines py_str args ++ iterations py_str args w (S k)
         ++ [Printed (nl +:+ nl +:+ "Monitoring stopped by user")])).
  { rewrite main_unfold, Hmode.
    rewrite (monitor_loop_interrupted py_str args w k fuel 0 Hok Hno Hat
               Hfuel).
    simpl. first [done | by rewrite <- !app_assoc]. }
  split; [exact Hmain|]. rewrite Hmain. cbn [snd].
  rewrite !sleeps_app. unfold iterations. rewrite sleeps_iterations.
  simpl. by rewrite ?app_nil_r.
Qed.

(** X19.  Continuous monitoring ends on its own only when a sleep is
    refused.  While [time.sleep] takes the interval and no interrupt
    comes, [main] is still looping after any number of iterations,
    having done each in full, whatever psutil and the file system did in
    them: no failure of a collector or of a save ends it.  And whenever
    [main] exits with code 1, the sleep of one of its iterations has
    raised: the interval is negative or longer than [longest_sleep]
    seconds, or the system's call failed. *)
Theorem main_keeps_running (py_str : pyval -> string) (args : Args)
    (w : World) (fuel : nat) :
  continuous args = true ->
  ((0 <= interval args <= longest_sleep)%Z ->
   (forall j, (j < fuel)%nat -> sleep_error_at w j (interval args) = None) ->
   (forall j, (j < fuel)%nat -> interrupt_at w j = false) ->
   main py_str args w fuel
   = (Running, start_lines py_str args ++ iterations py_str args w fuel)
   /\ sleeps (snd (main py_str args w fuel))
      = replicate fuel (interval args))
  /\ (fst (main py_str args w fuel) = Exit 1 ->
      exists i e,
        (i < fuel)%nat
        /\ sleep_refusal (interval args) (sleep_error_at w i (interval args))
           = Some e
        /\ ((interval args < 0)%Z \/ (longest_sleep < interval args)%Z
            \/ sleep_error_at w i (interval args) = Some e))
  /\ forall i, run_once py_str (main_monitor args) args w i
               = (Ok tt, iteration_work py_str args w i).
Proof.
  intros Hmode. split; [|split; [|intros i; apply run_once_work]].
  - intros Hint Hos Hno.
    assert (Hok : forall j, (j < fuel)%nat ->
                    sleep_refused args w (0 + j) = None).
    { intros j Hj. unfold sleep_refused. simpl.
      rewrite (sleep_refusal_accepted _ _ Hint). by apply Hos. }
    assert (Hmain : main py_str args w fuel
      = (Running,
         start_lines py_str args ++ iterations py_str args w fuel)).
    { rewrite main_unfold, Hmode.
      by rewrite (monitor_loop_running py_str args w fuel 0 Hok Hno). }
    split; [exact Hmain|]. rewrite Hmain. cbn [snd].
    rewrite sleeps_app. unfold iterations. by rewrite sleeps_iterations.
  - rewrite main_unfold, Hmode.
    destruct (fst (monitor_loop py_str (main_monitor args) args w fuel 0))
      as [[| |]|e] eqn:E; simpl; try discriminate.
    intros _. destruct (monitor_loop_raises py_str args w fuel 0 e E)
      as (i & Hi & Hr).
    exists i, e. split; [lia|]. split; [exact Hr|].
    unfold sleep_refused in Hr.
    destruct (Z.ltb_spec (interval args) 0); [by left|].
    destruct (Z.ltb_spec longest_sleep (interval args)); [by right; left|].
    right. right. by rewrite sleep_refusal_accepted in Hr by lia.
Qed.

(** What the save of one iteration leaves of a file. *)
Lemma iteration_work_file py_str args w i c0 f :
  file_from c0 (iteration_work py_str args w i) f = c0
  \/ exists c d,
       file_from c0 (iteration_work py_str args w i) f = Some c
       /\ save args = true
       /\ f = target_file (fs_at w i) (output args)
       /\ collect_all_metrics py_str (main_monitor args) (os_at w i) = Ok d
       /\ open_w (fs_at w i) f = Ok tt
       /\ match c with
          | Whole d' => d' = d /\ json_dump (fs_at w i) f d = Ok tt
          | Incomplete => exists e, json_dump (fs_at w i) f d = Raise e
          end.
Proof.
  unfold iteration_work.
  destruct (run_once_trace py_str args w i)
    as (alerts & summary & Hc & _ & Hs & ->).
  simpl. rewrite file_from_app, (file_from_prints c0 summary f Hs).
  destruct (save args); [|by left].
  unfold save_events.
  set (name := target_file (fs_at w i) (output args)).
  destruct (open_w (fs_at w i) name) as [[]|e] eqn:Eo; [|by left].
  destruct (String.eqb_spec name f) as [<-|Hne].
  - right.
    destruct (json_dump (fs_at w i) name _) as [[]|e] eqn:Ed.
    + exists (Whole (snapshot_of (os_at w i) alerts)),
             (snapshot_of (os_at w i) alerts).
      unfold file_from. simpl. rewrite String.eqb_refl. by repeat split.
    + exists Incomplete, (snapshot_of (os_at w i) alerts).
      unfold file_from. simpl. rewrite String.eqb_refl.
      repeat split; try done. by exists e.
  - left. apply String.eqb_neq in Hne.
    destruct (json_dump (fs_at w i) name _) as [[]|e];
      unfold file_from; simpl; by rewrite Hne.
Qed.

Lemma iteration_work_keeps py_str args w i c0 f :
  (forall c, c0 = Some c -> file_of_run py_str args w f c) ->
  forall c, file_from c0 (iteration_work py_str args w i) f = Some c ->
            file_of_run py_str args w f c.
Proof.
  intros H0 c Hc.
  destruct (iteration_work_file py_str args w i c0 f)
    as [E|(c' & d & E & Hsave & Hf & Hcol & Ho & Hd)].
  - rewrite E in Hc. by apply H0.
  - rewrite E in Hc. injection Hc as <-. split; [done|]. by exists i, d.
Qed.

Lemma monitor_loop_keeps py_str args w f fuel : forall i c0,
  (forall c, c0 = Some c -> file_of_run py_str args w f c) ->
  forall c,
    file_from c0
      (snd (monitor_loop py_str (main_monitor args) args w fuel i)) f
    = Some c ->
    file_of_run py_str args w f c.
Proof.
  induction fuel as [|fuel IH]; intros i c0 H0 c; [by apply H0|].
  rewrite monitor_loop_step. unfold iteration_trace.
  destruct (sleep_refused args w i); simpl.
  - by apply iteration_work_keeps.
  - destruct (interrupt_at w i); simpl.
    + rewrite file_from_app. simpl. by apply iteration_work_keeps.
    + rewrite !file_from_app. simpl. apply IH.
      by apply iteration_work_keeps.
Qed.

(** X20.  What a run leaves of a file: in every run, single or continuous
    and however it ends, a file that [main] has opened is the file
    [save_to_file] names in one of the iterations, [--save] was given, and
    the file holds either the whole snapshot collected in that iteration
    or, when writing it raised after the file was opened and emptied, an
    incomplete text.  With [--output] every iteration opens that one
    name.  And a further save under the name of such a file keeps nothing
    of what the file held: it leaves the file as it was only when it
    cannot open it; once it has opened it the file holds the new snapshot,
    or an incomplete text when the writing raised. *)
Theorem main_files (py_str : pyval -> string) (args : Args) (w : World)
    (fuel : nat) (f : string) (c : content) :
  file_after (snd (main py_str args w fuel)) f = Some c ->
  save args = true
  /\ (forall name, output args = Some name -> f = name)
  /\ (exists i d,
        f = target_file (fs_at w i) (output args)
        /\ collect_all_metrics py_str (main_monitor args) (os_at w i) = Ok d
        /\ open_w (fs_at w i) f = Ok tt
        /\ match c with
           | Whole d' => d' = d /\ json_dump (fs_at w i) f d = Ok tt
           | Incomplete => exists e, json_dump (fs_at w i) f d = Raise e
           end)
  /\ forall fs data,
       file_from (Some c) (snd (save_to_file fs data (Some f))) f
       = match open_w fs f with
         | Raise _ => Some c
         | Ok _ =>
             match json_dump fs f data with
             | Ok _ => Some (Whole data)
             | Raise _ => Some Incomplete
             end
         end.
Proof.
  intros Hc.
  assert (Hnext : forall fs data,
    file_from (Some c) (snd (save_to_file fs data (Some f))) f
    = match open_w fs f with
      | Raise _ => Some c
      | Ok _ =>
          match json_dump fs f data with
          | Ok _ => Some (Whole data)
          | Raise _ => Some Incomplete
          end
      end).
  { intros fs data. rewrite save_to_file_trace. cbn [snd target_file].
    unfold save_events, file_from.
    destruct (open_w fs f) as [[]|e]; [|done].
    destruct (json_dump fs f data) as [[]|e]; simpl;
      by rewrite String.eqb_refl. }
  assert (H : file_of_run py_str args w f c).
  { unfold file_after in Hc. rewrite main_unfold in Hc.
    destruct (continuous args).
    - destruct (fst (monitor_loop py_str (main_monitor args) args w fuel 0))
        as [[| |]|e]; simpl in Hc;
        rewrite ?file_from_app in Hc; simpl in Hc;
        by apply (monitor_loop_keeps py_str args w f fuel 0 None).
    - simpl in Hc. by apply (iteration_work_keeps py_str args w 0 None f). }
  destruct H as (Hsave & i & d & Hf & Hrest).
  split; [exact Hsave|]. split; [|split; [|exact Hnext]].
  - intros name Hname. by rewrite Hf, Hname.
  - by exists i, d.
Qed.

(** ** The store: what is shared and what is not *)

Lemma threshold_h_instance h self th k :
  h !! self = Some (OInstance [("alert_thresholds", th)]) ->
  threshold_h self k h = getitem_h th k h.
Proof. intros H. unfold threshold_h, getattr. by rewrite H. Qed.

(** X21.  [__init__] keeps the mapping it is given, not a copy: a monitor
    built on a mapping that is not empty holds that very dictionary, so
    an assignment [d[k] = v] its caller makes afterwards is the
    threshold the monitor reads for [k] from then on, and leaves its
    other thresholds as they were. *)
Theorem new_monitor_st_shares_mapping (h : heap) (d : loc)
    (kvs : list (string * val)) :
  h !! d = Some (ODict kvs) ->
  kvs <> [] ->
  exists self h1,
    new_monitor_st (VRef d) h = (Ok self, h1)
    /\ getattr h1 self "alert_thresholds" = Ok (VRef d)
    /\ forall k v,
         exists h2,
           setitem d k v h1 = (Ok tt, h2)
           /\ threshold_h self k h2 = Ok v
           /\ (forall k', k <> k' ->
                 threshold_h self k' h2 = threshold_h self k' h1).
Proof.
  intros Hd Hne.
  destruct (new_monitor_st_run (VRef d) h)
    as (self & h1 & Hrun & Hself & _ & Htruthy & _).
  assert (Ht : truthy_h h (VRef d) = true).
  { simpl. rewrite Hd. by destruct kvs. }
  specialize (Htruthy Ht). subst h1.
  assert (Hsd : self <> d) by (intros ->; rewrite Hd in Hself; done).
  exists self, (<[self := OInstance [("alert_thresholds", VRef d)]]> h).
  split; [exact Hrun|]. split.
  { unfold getattr. by rewrite lookup_insert_eq. }
  intros k v. unfold setitem. rewrite lookup_insert_ne by done. rewrite Hd.
  eexists. split; [reflexivity|].
  set (h1 := <[self := OInstance [("alert_thresholds", VRef d)]]> h).
  assert (H1 : h1 !! self
               = Some (OInstance [("alert_thresholds", VRef d)])).
  { unfold h1. by rewrite lookup_insert_eq. }
  assert (H1d : h1 !! d = Some (ODict kvs)).
  { unfold h1. by rewrite lookup_insert_ne. }
  set (h2 := <[d := ODict (dict_set k v kvs)]> h1).
  assert (H2 : h2 !! self
               = Some (OInstance [("alert_thresholds", VRef d)])).
  { unfold h2. by rewrite lookup_insert_ne. }
  assert (H2d : h2 !! d = Some (ODict (dict_set k v kvs))).
  { unfold h2. by rewrite lookup_insert_eq. }
  split.
  - rewrite (threshold_h_instance h2 self (VRef d) k H2). simpl.
    by rewrite H2d, dict_get_set_eq.
  - intros k' Hk.
    rewrite (threshold_h_instance h2 self (VRef d) k' H2).
    rewrite (threshold_h_instance h1 self (VRef d) k' H1). simpl.
    by rewrite H2d, H1d, (dict_get_set_ne k k' v kvs Hk).
Qed.

(** X22.  The defaults are made anew for each monitor: two monitors
    built without a mapping hold two different dictionaries, and no
    assignment to a dictionary that was there before a monitor was built
    changes a threshold that monitor reads. *)
Theorem new_monitor_st_fresh_defaults (h : heap) (arg : val) :
  truthy_h h arg = false ->
  exists self h1 l,
    new_monitor_st arg h = (Ok self, h1)
    /\ getattr h1 self "alert_thresholds" = Ok (VRef l)
    /\ (forall d k v r h2,
          is_Some (h !! d) ->
          setitem d k v h1 = (r, h2) ->
          forall k', threshold_h self k' h2 = threshold_h self k' h1)
    /\ exists self' h2 l',
         new_monitor_st VNone h1 = (Ok self', h2)
         /\ getattr h2 self' "alert_thresholds" = Ok (VRef l')
         /\ getattr h2 self "alert_thresholds" = Ok (VRef l)
         /\ l' <> l
         /\ h2 !! l = Some default_thresholds_obj
         /\ h2 !! l' = Some default_thresholds_obj.
Proof.
  intros Hf.
  destruct (new_monitor_st_run arg h)
    as (self & h1 & Hrun & Hself & Hsub & _ & Hfalsy).
  destruct (Hfalsy Hf) as (l & Hls & Hl & ->). clear Hfalsy.
  set (h1 := <[self := OInstance [("alert_thresholds", VRef l)]]>
               (<[l := default_thresholds_obj]> h)) in *.
  assert (H1self : h1 !! self
                   = Some (OInstance [("alert_thresholds", VRef l)])).
  { unfold h1. by rewrite lookup_insert_eq. }
  assert (H1l : h1 !! l = Some default_thresholds_obj).
  { unfold h1. rewrite lookup_insert_ne by done. by rewrite lookup_insert_eq. }
  exists self, h1, l. split; [exact Hrun|]. split.
  { unfold getattr. by rewrite H1self. }
  split.
  - intros d k v r h2 [o Hd] Hset k'.
    assert (Hds : d <> self) by (intros ->; rewrite Hd in Hself; done).
    assert (Hdl : d <> l) by (intros ->; rewrite Hd in Hl; done).
    unfold setitem in Hset.
    assert (H2 : h2 !! self = h1 !! self /\ h2 !! l = h1 !! l).
    { destruct (h1 !! d) as [[| |]|]; injection Hset as <- <-;
        rewrite ?lookup_insert_ne by done; done. }
    destruct H2 as [H2s H2l].
    rewrite (threshold_h_instance h2 self (VRef l)) by (by rewrite H2s).
    rewrite (threshold_h_instance h1 self (VRef l)) by done.
    simpl. by rewrite H2l.
  - destruct (new_monitor_st_run VNone h1)
      as (self' & h2 & Hrun' & Hself' & _ & _ & Hfalsy').
    destruct (Hfalsy' eq_refl) as (l' & Hls' & Hl' & Eh2). clear Hfalsy'.
    exists self', h2, l'. split; [exact Hrun'|].
    assert (Hss : self' <> self)
      by (intros ->; rewrite H1self in Hself'; done).
    assert (Hsl : self' <> l) by (intros ->; rewrite H1l in Hself'; done).
    assert (Hll : l' <> l) by (intros ->; rewrite H1l in Hl'; done).
    assert (Hls2 : l' <> self) by (intros ->; rewrite H1self in Hl'; done).
    assert (L1 : h2 !! self'
                 = Some (OInstance [("alert_thresholds", VRef l')])).
    { subst h2. by rewrite lookup_insert_eq. }
    assert (L2 : h2 !! self = h1 !! self).
    { subst h2. by rewrite !lookup_insert_ne. }
    assert (L3 : h2 !! l = h1 !! l).
    { subst h2. by rewrite !lookup_insert_ne. }
    assert (L4 : h2 !! l' = Some default_thresholds_obj).
    { subst h2. rewrite lookup_insert_ne by done.
      by rewrite lookup_insert_eq. }
    unfold getattr. rewrite L1, L2, H1self, L3, H1l, L4. done.
Qed.

(** X23.  Two evaluations of the same snapshot return two lists with the
    same alerts: the second call creates a list of its own and leaves the
    list the first call returned as it is, so a caller that changes one
    does not change the other. *)
Theorem check_alerts_st_twice (py_str : pyval -> string) (depth : nat)
    (h : heap) (self : loc) (th hd : val) (pth p : pyval)
    (alerts : list string) :
  getattr h self "alert_thresholds" = Ok th ->
  reify depth h th = Some pth ->
  reify depth h hd = Some p ->
  check_alerts py_str {| alert_thresholds := pth |} p = Ok alerts ->
  exists l1 h1 l2 h2,
    check_alerts_st py_str depth self hd h = (Ok (VRef l1), h1)
    /\ check_alerts_st py_str depth self hd h1 = (Ok (VRef l2), h2)
    /\ l1 <> l2
    /\ h1 !! l1 = Some (OList (VStr <$> alerts))
    /\ h2 !! l1 = Some (OList (VStr <$> alerts))
    /\ h2 !! l2 = Some (OList (VStr <$> alerts)).
Proof.
  intros Hattr Hth Hhd Hrun.
  pose proof (check_alerts_st_refines py_str depth h self th hd pth p
                Hattr Hth Hhd) as H1.
  rewrite Hrun in H1. destruct H1 as (l1 & Hl1 & Hrun1).
  set (h1 := <[l1 := OList (VStr <$> alerts)]> h) in *.
  assert (Hsub : h ⊆ h1) by (by apply insert_subseteq).
  assert (Hattr1 : getattr h1 self "alert_thresholds" = Ok th).
  { unfold getattr in *. destruct (h !! self) as [o|] eqn:E; [|done].
    by rewrite (lookup_weaken h h1 self o E Hsub). }
  pose proof (check_alerts_st_refines py_str depth h1 self th hd pth p
                Hattr1 (reify_mono depth h h1 th pth Hsub Hth)
                (reify_mono depth h h1 hd p Hsub Hhd)) as H2.
  rewrite Hrun in H2. destruct H2 as (l2 & Hl2 & Hrun2).
  assert (Hne : l1 <> l2).
  { intros ->. unfold h1 in Hl2. by rewrite lookup_insert_eq in Hl2. }
  exists l1, h1, l2, (<[l2 := OList (VStr <$> alerts)]> h1).
  split; [exact Hrun1|]. split; [exact Hrun2|].
  split; [exact Hne|]. split; [|split].
  - unfold h1. by rewrite lookup_insert_eq.
  - rewrite lookup_insert_ne by done. unfold h1. by rewrite lookup_insert_eq.
  - by rewrite lookup_insert_eq.
Qed.

(** ** Thresholds and percentages *)

Lemma exceeds_at_least v t t' :
  at_least t' t -> exceeds v t' = true -> exceeds v t = true.
Proof.
  intros (a & b & Ha & Hb & Hab) H. apply exceeds_lt in H.
  destruct H as (x & b' & Hx & Hb' & Hlt). rewrite Hb in Hb'.
  injection Hb' as <-. apply exceeds_lt. exists x, a.
  split; [done|]. split; [done|]. by eapply Qle_lt_trans.
Qed.

Lemma alert_if_at_least mk mk' value t t' :
  at_least t' t ->
  (length (alert_if mk' value t') <= length (alert_if mk value t))%nat.
Proof.
  intros Hle. unfold alert_if. destruct value as [v|]; [|done].
  destruct (exceeds v t') eqn:E; [|simpl; lia].
  by rewrite (exceeds_at_least v t t' Hle E).
Qed.

Lemma disk_alerts_at_least py_str items t t' :
  at_least t' t ->
  (length (disk_alerts py_str items t')
   <= length (disk_alerts py_str items t))%nat.
Proof.
  intros Hle. unfold disk_alerts.
  induction items as [|item items IH]; simpl; [lia|].
  rewrite !length_app.
  pose proof (alert_if_at_least (disk_alert py_str (fst item))
                (disk_alert py_str (fst item)) (percent_of (snd item))
                t t' Hle). lia.
Qed.

(** X24.  Raising thresholds never adds an alert: of two monitors that
    evaluate the same snapshot, the one whose three thresholds are at
    least those of the other reports at most as many alerts, and reports
    a category or a mount point only if the other does. *)
Theorem check_alerts_thresholds_monotone (py_str : pyval -> string)
    (self self' : SystemHealthMonitor) (tc tm td tc' tm' td' : pyval)
    (hd : list (string * pyval)) :
  threshold self "cpu_percent" = Some tc ->
  threshold self "memory_percent" = Some tm ->
  threshold self "disk_percent" = Some td ->
  threshold self' "cpu_percent" = Some tc' ->
  threshold self' "memory_percent" = Some tm' ->
  threshold self' "disk_percent" = Some td' ->
  at_least tc' tc -> at_least tm' tm -> at_least td' td ->
  snapshot_wf hd = true ->
  exists alerts alerts',
    check_alerts py_str self (PDict hd) = Ok alerts
    /\ check_alerts py_str self' (PDict hd) = Ok alerts'
    /\ (length alerts' <= length alerts)%nat
    /\ (has_alert is_cpu_alert alerts' -> has_alert is_cpu_alert alerts)
    /\ (has_alert is_memory_alert alerts' ->
        has_alert is_memory_alert alerts)
    /\ (forall m v, In (m, v) (offending_mounts (disk_items hd) td') ->
                    In (m, v) (offending_mounts (disk_items hd) td)).
Proof.
  intros Hc Hm Hd Hc' Hm' Hd' Lc Lm Ld Hwf.
  assert (Hnum : forall t' t, at_least t' t ->
                   is_num t = true /\ is_num t' = true).
  { intros t' t (a & b & Ha & Hb & _). by destruct t, t'. }
  destruct (Hnum _ _ Lc) as [Nc Nc'], (Hnum _ _ Lm) as [Nm Nm'],
    (Hnum _ _ Ld) as [Nd Nd'].
  exists (evaluate py_str hd tc tm td), (evaluate py_str hd tc' tm' td').
  split; [by apply check_alerts_spec|].
  split; [by apply check_alerts_spec|]. split; [|split; [|split]].
  - unfold evaluate, cpu_alerts, memory_alerts. rewrite !length_app.
    pose proof (alert_if_at_least (cpu_alert py_str) (cpu_alert py_str)
                  (metric hd "cpu_info" "cpu_percent") tc tc' Lc).
    pose proof (alert_if_at_least (memory_alert py_str) (memory_alert py_str)
                  (metric hd "memory_info" "memory_percent") tm tm' Lm).
    pose proof (disk_alerts_at_least py_str (disk_items hd) td td' Ld). lia.
  - intros (a & Ha). apply evaluate_cpu, alert_if_In in Ha.
    destruct Ha as (v & Hv & Habove & _).
    exists (cpu_alert py_str v tc). apply evaluate_cpu, alert_if_In.
    exists v. split; [done|]. split; [|done].
    by apply exceeds_lt, (exceeds_at_least v tc tc' Lc), exceeds_lt.
  - intros (a & Ha). apply evaluate_memory, alert_if_In in Ha.
    destruct Ha as (v & Hv & Habove & _).
    exists (memory_alert py_str v tm). apply evaluate_memory, alert_if_In.
    exists v. split; [done|]. split; [|done].
    by apply exceeds_lt, (exceeds_at_least v tm tm' Lm), exceeds_lt.
  - intros m v Hin. apply offending_mounts_In in Hin.
    destruct Hin as (d & Hd1 & Hd2 & Habove). apply offending_mounts_In.
    exists d. split; [done|]. split; [done|].
    by apply exceeds_lt, (exceeds_at_least v td td' Ld), exceeds_lt.
Qed.

(** ** Floats between two bounds *)

Lemma round_half_even_le (y : Q) (n : Z) :
  (y <= inject_Z n)%Q -> (round_half_even y <= n)%Z.
Proof.
  intros H. unfold round_half_even.
  assert (Hf : (Qfloor y <= n)%Z).
  { rewrite <- (Qfloor_Z n). by apply Qfloor_resp_le. }
  assert (Hlast : Qfloor y = n -> (y - inject_Z (Qfloor y) ?= 1 # 2)%Q = Lt).
  { intros E. apply Qlt_alt. rewrite E.
    apply Qle_lt_trans with 0%Q; [|reflexivity].
    apply (Qplus_le_l _ _ (inject_Z n)). ring_simplify. exact H. }
  destruct (Z.eq_dec (Qfloor y) n) as [E|E].
  - rewrite (Hlast E). lia.
  - destruct (y - inject_Z (Qfloor y) ?= 1 # 2)%Q;
      [destruct (Z.even (Qfloor y))|..]; lia.
Qed.

Lemma round_half_even_ge (y : Q) (n : Z) :
  (inject_Z n <= y)%Q -> (n <= round_half_even y)%Z.
Proof.
  intros H. unfold round_half_even.
  assert (Hf : (n <= Qfloor y)%Z).
  { rewrite <- (Qfloor_Z n). by apply Qfloor_resp_le. }
  destruct (y - inject_Z (Qfloor y) ?= 1 # 2)%Q;
    [destruct (Z.even (Qfloor y))|..]; lia.
Qed.

Lemma two_pow_pos (e : Z) : (0 < 2 ^ e)%Q.
Proof. by apply Qpower_0_lt. Qed.

Lemma two_pow_le (a b : Z) : (a <= b)%Z -> (2 ^ a <= 2 ^ b)%Q.
Proof. intros H. apply Qpower_le_compat_l; [exact H|discriminate]. Qed.

Lemma two_pow_lt_inv (a b : Z) : (2 ^ a < 2 ^ b)%Q -> (a < b)%Z.
Proof.
  intros H. destruct (Z.lt_ge_cases a b) as [Hlt|Hge]; [exact Hlt|].
  exfalso. apply (Qlt_irrefl (2 ^ a)).
  eapply Qlt_le_trans; [exact H|]. by apply two_pow_le.
Qed.

Lemma two_pow_Z (n : Z) : (0 <= n)%Z -> (inject_Z (2 ^ n) == 2 ^ n)%Q.
Proof. intros H. by rewrite Zpower_Qpower. Qed.

(** The integer bounds of [Z.log2], in the rationals. *)
Lemma log2_bounds (n : Z) :
  (0 < n)%Z ->
  (2 ^ Z.log2 n <= inject_Z n)%Q /\ (inject_Z n < 2 ^ (Z.log2 n + 1))%Q.
Proof.
  intros H. destruct (Z.log2_spec n H) as [Hl Hu].
  pose proof (Z.log2_nonneg n) as H0. split.
  - rewrite <- two_pow_Z by done. by rewrite <- Zle_Qle.
  - rewrite <- two_pow_Z by lia. rewrite <- Zlt_Qlt.
    by replace (Z.log2 n + 1)%Z with (Z.succ (Z.log2 n)) by lia.
Qed.

Lemma exponent_spec (x : Q) :
  (0 < x)%Q ->
  (2 ^ exponent x <= x)%Q /\ (x < 2 ^ (exponent x + 1))%Q.
Proof.
  intros Hx. unfold exponent.
  set (n := Qnum x). set (d := Zpos (Qden x)).
  assert (Hn : (0 < n)%Z).
  { unfold n. destruct x as [xn xd]. unfold Qlt in Hx. simpl in *. lia. }
  assert (Hd : (0 < d)%Z) by done.
  destruct (log2_bounds n Hn) as [Ln Un].
  destruct (log2_bounds d Hd) as [Ld Ud].
  set (ln := Z.log2 n) in *. set (ld := Z.log2 d) in *.
  assert (Ex : (x == inject_Z n / inject_Z d)%Q).
  { unfold n, d. destruct x as [xn xd]. simpl. apply Qmake_Qdiv. }
  assert (Dpos : (0 < inject_Z d)%Q).
  { change 0%Q with (inject_Z 0). by rewrite <- Zlt_Qlt. }
  assert (Npos : (0 < inject_Z n)%Q).
  { change 0%Q with (inject_Z 0). by rewrite <- Zlt_Qlt. }
  (* x < 2^(ln - ld + 1) *)
  assert (Hup : (x < 2 ^ (ln - ld + 1))%Q).
  { rewrite Ex. apply Qlt_shift_div_r; [exact Dpos|].
    apply Qlt_le_trans with (2 ^ (ln + 1))%Q; [exact Un|].
    replace (ln + 1)%Z with ((ln - ld + 1) + ld)%Z by lia.
    rewrite Qpower_plus by discriminate.
    apply Qmult_le_l; [apply two_pow_pos|exact Ld]. }
  (* 2^(ln - ld - 1) < x *)
  assert (Hlow : (2 ^ (ln - ld - 1) < x)%Q).
  { rewrite Ex. apply Qlt_shift_div_l; [exact Dpos|].
    apply Qlt_le_trans with (2 ^ (ln - ld - 1) * 2 ^ (ld + 1))%Q.
    - apply Qmult_lt_l; [apply two_pow_pos|exact Ud].
    - rewrite <- Qpower_plus by discriminate.
      by replace (ln - ld - 1 + (ld + 1))%Z with ln by lia. }
  destruct (Qle_bool (2 ^ (ln - ld)) x) eqn:E.
  - apply Qle_bool_iff in E. split; [exact E|exact Hup].
  - split; [by apply Qlt_le_weak|].
    replace (ln - ld - 1 + 1)%Z with (ln - ld)%Z by lia.
    apply Qnot_le_lt. intros H. apply Qle_bool_iff in H. congruence.
Qed.

(** Rounding does not pass a number that has a significand of 53 bits. *)
Lemma round53_le (x : Q) (m p : Z) :
  (0 < x)%Q ->
  (2 ^ 52 <= m < 2 ^ 53)%Z ->
  (x <= inject_Z m * 2 ^ p)%Q ->
  (round53 x <= inject_Z m * 2 ^ p)%Q.
Proof.
  intros Hx Hm Hy. unfold round53.
  destruct (exponent_spec x Hx) as [El Eu].
  set (e := exponent x) in *.
  assert (Hm1 : (inject_Z m < 2 ^ 53)%Q).
  { rewrite <- (two_pow_Z 53) by lia. rewrite <- Zlt_Qlt. lia. }
  assert (Hm0 : (2 ^ 52 <= inject_Z m)%Q).
  { rewrite <- (two_pow_Z 52) by lia. rewrite <- Zle_Qle. lia. }
  assert (He : (e <= 52 + p)%Z).
  { assert (H : (2 ^ e < 2 ^ (53 + p))%Q).
    { eapply Qle_lt_trans; [exact El|]. eapply Qle_lt_trans; [exact Hy|].
      rewrite Qpower_plus by discriminate.
      apply Qmult_lt_r; [apply two_pow_pos|exact Hm1]. }
    apply two_pow_lt_inv in H. lia. }
  destruct (Z.eq_dec e (52 + p)%Z) as [E|E].
  - replace (e - 52)%Z with p by lia.
    apply Qmult_le_r; [apply two_pow_pos|].
    rewrite <- Zle_Qle. apply round_half_even_le.
    apply Qle_shift_div_r; [apply two_pow_pos|exact Hy].
  - apply Qle_trans with (2 ^ (e + 1))%Q.
    + replace (e + 1)%Z with (53 + (e - 52))%Z by lia.
      rewrite Qpower_plus by discriminate.
      apply Qmult_le_r; [apply two_pow_pos|].
      rewrite <- (two_pow_Z 53) by lia. rewrite <- Zle_Qle.
      apply round_half_even_le. rewrite (two_pow_Z 53) by lia.
      apply Qle_shift_div_r; [apply two_pow_pos|].
      rewrite <- Qpower_plus by discriminate.
      replace (53 + (e - 52))%Z with (e + 1)%Z by lia.
      by apply Qlt_le_weak.
    + apply Qle_trans with (2 ^ (52 + p))%Q; [apply two_pow_le; lia|].
      rewrite Qpower_plus by discriminate.
      apply Qmult_le_r; [apply two_pow_pos|exact Hm0].
Qed.

Lemma round53_nonneg (x : Q) : (0 < x)%Q -> (0 <= round53 x)%Q.
Proof.
  intros Hx. unfold round53. apply Qmult_le_0_compat.
  - change 0%Q with (inject_Z 0). rewrite <- Zle_Qle.
    apply round_half_even_ge. simpl.
    apply Qle_shift_div_l; [apply two_pow_pos|].
    rewrite Qmult_0_l. by apply Qlt_le_weak.
  - apply Qlt_le_weak, two_pow_pos.
Qed.

Lemma nearest_float_nonneg (x : Q) : (0 <= x)%Q -> (0 <= nearest_float x)%Q.
Proof.
  intros Hx. unfold nearest_float. rewrite Qred_correct.
  destruct x as [[|n|n] d]; simpl.
  - done.
  - by apply round53_nonneg.
  - exfalso. unfold Qle in Hx. simpl in Hx. lia.
Qed.

Lemma nearest_float_le (x : Q) (m p : Z) :
  (0 <= x)%Q ->
  (2 ^ 52 <= m < 2 ^ 53)%Z ->
  (x <= inject_Z m * 2 ^ p)%Q ->
  (nearest_float x <= inject_Z m * 2 ^ p)%Q.
Proof.
  intros Hx Hm Hy. unfold nearest_float. rewrite Qred_correct.
  destruct x as [[|n|n] d]; simpl.
  - apply Qmult_le_0_compat; [|apply Qlt_le_weak, two_pow_pos].
    change 0%Q with (inject_Z 0). rewrite <- Zle_Qle. lia.
  - by apply round53_le.
  - exfalso. unfold Qle in Hx. simpl in Hx. lia.
Qed.

Lemma nearest_float_le_1 (x : Q) :
  (0 <= x)%Q -> (x <= 1)%Q -> (nearest_float x <= 1)%Q.
Proof.
  intros H0 H1.
  assert (E : (1 == inject_Z (2 ^ 52) * 2 ^ (-52))%Q) by reflexivity.
  rewrite E. apply nearest_float_le; [done|lia|by rewrite <- E].
Qed.

Lemma nearest_float_le_100 (x : Q) :
  (0 <= x)%Q -> (x <= 100)%Q -> (nearest_float x <= 100)%Q.
Proof.
  intros H0 H1.
  assert (E : (100 == inject_Z (100 * 2 ^ 46) * 2 ^ (-46))%Q) by reflexivity.
  rewrite E. apply nearest_float_le; [done|lia|by rewrite <- E].
Qed.

Lemma py_round2_bounds (x : Q) :
  (0 <= x)%Q -> (x <= 100)%Q ->
  (0 <= py_round2 x)%Q /\ (py_round2 x <= 100)%Q.
Proof.
  intros H0 H100. unfold py_round2.
  set (k := round_half_even (x * 100)).
  assert (Hk0 : (0 <= k)%Z).
  { apply round_half_even_ge. apply Qmult_le_0_compat; [done|by compute]. }
  assert (Hk1 : (k <= 10000)%Z).
  { apply round_half_even_le. apply Qle_trans with (100 * 100)%Q; [|by compute].
    apply Qmult_le_compat_r; [done|by compute]. }
  assert (Hq0 : (0 <= k # 100)%Q) by (unfold Qle; simpl; lia).
  assert (Hq1 : (k # 100 <= 100)%Q) by (unfold Qle; simpl; lia).
  split; [by apply nearest_float_nonneg|by apply nearest_float_le_100].
Qed.

(** X25.  The percentage of a disk row is a percentage: for a partition
    whose usage has [0 <= used <= total] and a total that is not zero,
    the row [get_disk_info] stores has a [percent] between 0 and 100, so
    a disk threshold of 100 or more raises no alert for it. *)
Theorem disk_entry_percent_bounds (partition : psutil.sdiskpart)
    (usage : psutil.sdiskusage) (t : pyval) :
  (0 <= psutil.du_used usage <= psutil.du_total usage)%Z ->
  psutil.du_total usage <> 0%Z ->
  exists row x,
    disk_entry partition usage = Ok row
    /\ percent_of row = Some (PFloat x)
    /\ (0 <= x)%Q /\ (x <= 100)%Q
    /\ (at_least t (PInt 100) -> exceeds (PFloat x) t = false).
Proof.
  intros Hrange Hne. unfold disk_entry, py_truediv.
  destruct (Z.eqb_spec (psutil.du_total usage) 0) as [E|_]; [done|]. simpl.
  eexists. eexists. split; [reflexivity|]. split; [reflexivity|].
  set (q := nearest_float (inject_Z (psutil.du_used usage)
                           / inject_Z (psutil.du_total usage))).
  set (r := float_mul q 100).
  assert (Hq : (0 <= q)%Q /\ (q <= 1)%Q).
  { assert (Ht : (0 < inject_Z (psutil.du_total usage))%Q).
    { change 0%Q with (inject_Z 0). rewrite <- Zlt_Qlt. lia. }
    assert (Hq0 : (0 <= inject_Z (psutil.du_used usage)
                        / inject_Z (psutil.du_total usage))%Q).
    { apply Qle_shift_div_l; [done|]. rewrite Qmult_0_l.
      change 0%Q with (inject_Z 0). rewrite <- Zle_Qle. lia. }
    assert (Hq1 : (inject_Z (psutil.du_used usage)
                   / inject_Z (psutil.du_total usage) <= 1)%Q).
    { apply Qle_shift_div_r; [done|]. rewrite Qmult_1_l.
      rewrite <- Zle_Qle. lia. }
    split; [by apply nearest_float_nonneg|by apply nearest_float_le_1]. }
  assert (Hr : (0 <= r)%Q /\ (r <= 100)%Q).
  { assert (H0 : (0 <= q * 100)%Q).
    { apply Qmult_le_0_compat; [apply Hq|by compute]. }
    assert (H1 : (q * 100 <= 100)%Q).
    { apply Qle_trans with (1 * 100)%Q; [|by compute].
      apply Qmult_le_compat_r; [apply Hq|by compute]. }
    unfold r, float_mul.
    split; [by apply nearest_float_nonneg|by apply nearest_float_le_100]. }
  destruct (py_round2_bounds r (proj1 Hr) (proj2 Hr)) as [B0 B1].
  split; [exact B0|]. split; [exact B1|].
  intros (a & b & Ha & Hb & Hab). simpl in Ha. injection Ha as <-.
  destruct (exceeds (PFloat (py_round2 r)) t) eqn:E; [|done].
  apply exceeds_lt in E. destruct E as (x & b' & Hx & Hb' & Hlt).
  simpl in Hx. injection Hx as <-. rewrite Hb in Hb'. injection Hb' as <-.
  exfalso. apply (Qlt_irrefl b).
  eapply Qlt_le_trans; [exact Hlt|]. by eapply Qle_trans.
Qed.

(** ** The system category *)

Lemma get_system_info_marker os : is_error_marker (get_system_info os).
Proof.
  unfold get_system_info.
  destruct (psutil.boot_time os) as [t|e]; simpl; [|apply error_marker_is].
  destruct (psutil.format_timestamp os t) as [b|e]; simpl;
    [|apply error_marker_is].
  destruct (psutil.uname os) as [u|e]; simpl; apply error_marker_is.
Qed.

(** X26.  [get_system_info] never returns data.  The result of
    [os.uname()] has no attribute [system], so when the boot time, its
    date and [os.uname()] are read the collector ends on that
    [AttributeError], and it ends on an earlier exception otherwise: on
    every machine the category is an error marker, and the summary of a
    collected snapshot shows the system lines with [N/A] for every
    value. *)
Theorem get_system_info_never_data (os : psutil.api) :
  is_error_marker (get_system_info os)
  /\ ~ has_keys system_keys (get_system_info os)
  /\ (forall t s u,
        psutil.boot_time os = Ok t ->
        psutil.format_timestamp os t = Ok s ->
        psutil.uname os = Ok u ->
        get_system_info os
        = PDict [("error",
                  PStr ("Failed to get system info: "
                          +:+ "'posix.uname_result' object has no "
                          +:+ "attribute 'system'"))])
  /\ forall py_str alerts,
       exists rest,
         print_summary py_str (snapshot_of os alerts)
         = (Ok tt,
            summary_header py_str (PStr (psutil.now os))
              ++ system_unknown py_str ++ rest).
Proof.
  pose proof (get_system_info_marker os) as Hm.
  split; [exact Hm|]. split; [|split].
  - destruct Hm as [msg ->]. intros (kvs & [= <-] & Hk). discriminate.
  - intros t s u Ht Hs Hu. unfold get_system_info.
    by rewrite Ht; simpl; rewrite Hs; simpl; rewrite Hu.
  - intros py_str alerts.
    destruct (print_summary_collected_blocks py_str os alerts)
      as (system & cpu & memory & disk & Hp & _ & _ & Hs & _).
    rewrite (Hs Hm) in Hp. eexists. exact Hp.
Qed.

(** ** The properties at the sample machines *)

(** X1 at a machine whose frequency cannot be read: the sample was taken,
    and yet the category has no percentage. *)
Lemma collectors_all_or_nothing_witness :
  psutil.sample_cpu_percent machine_no_freq = Ok 92.3%Q
  /\ is_error_marker (get_cpu_info machine_no_freq)
  /\ has_keys memory_keys (get_memory_info machine_no_freq).
Proof.
  destruct (collectors_all_or_nothing machine_no_freq)
    as ((_ & Hc & _) & (_ & _ & Hm)).
  split; [reflexivity|]. split; [by apply Hc|by apply Hm].
Defined.

(** X2 at the sample machine: the loopback interface. *)
Lemma get_network_info_rows_witness :
  exists d st,
    get_network_info machine_denied = PDict d
    /\ d = [("lo", net_row st)].
Proof.
  destruct (get_network_info_rows machine_denied) as (_ & H).
  destruct (H _ eq_refl) as (d & Hd & _ & _ & _ & Hrows).
  exists d. eexists. split; [exact Hd|]. rewrite Hrows; [reflexivity|].
  repeat constructor. intros [].
Defined.

(** X3 at a machine with a pseudo file system: the row of "/" is lost. *)
Lemma get_disk_info_first_failure_witness :
  get_disk_info machine_proc
  = PDict [("error", PStr "Failed to get disk info: division by zero")].
Proof.
  apply (proj1 (get_disk_info_first_failure machine_proc
                  [root_part; proc_part; data_part] eq_refl)
           [root_part] proc_part [data_part]
           (Exn ZeroDivisionError "division by zero")).
  - reflexivity.
  - intros q [<-|[]]. reflexivity.
  - reflexivity.
Defined.

(** X4 at a machine with "/data" mounted twice. *)
Lemma get_disk_info_mount_points_witness :
  exists d u,
    get_disk_info machine_remounted = PDict d
    /\ (length d <= 4)%nat
    /\ dict_get "/data" d = Some (entry_of data_again u).
Proof.
  destruct (get_disk_info_mount_points machine_remounted
              [root_part; data_part; cdrom_part; data_again] eq_refl)
    as (d & Hd & _ & Hlen & _ & Hlast).
  { intros p [<-|[<-|[<-|[<-|[]]]]]; reflexivity. }
  exists d. eexists. split; [exact Hd|]. split; [exact Hlen|].
  apply (Hlast [root_part; data_part; cdrom_part] data_again []);
    [reflexivity|reflexivity|intros q []].
Defined.


(** X6 at a machine with a process that cannot be read: the process
    skipped before it does not matter, the one after it is not reached. *)
Lemma get_process_info_first_failure_witness :
  get_process_info machine_broken_process 5
  = PDict [("error",
            PStr "Failed to get process info: [Errno 5] Input/output error")].
Proof.
  destruct (get_process_info_first_failure machine_broken_process 5)
    as (_ & H & _).
  apply (H [Ok early_process; Raise (Exn AccessDenied "pid=4")]
           (Exn (OtherError "OSError") "[Errno 5] Input/output error")
           [Ok late_process]); [reflexivity| |reflexivity].
  repeat constructor.
Defined.

(** X7 at the scenario, with and without other entries. *)
Lemma check_alerts_reads_three_entries_witness :
  check_alerts str_stub (__init__ PNone)
    (PDict (("timestamp", PStr "2023-11-14 23:13:20") :: scenario
              ++ [("alerts", PList [PStr "stale"])]))
  = check_alerts str_stub (__init__ PNone) (PDict scenario).
Proof.
  apply check_alerts_reads_three_entries; reflexivity.
Defined.

(** X8 at the sample machine. *)
Lemma collect_all_metrics_alerts_fixed_witness :
  exists snapshot alerts,
    collect_all_metrics str_stub (__init__ PNone) machine_denied
    = Ok snapshot
    /\ py_getitem snapshot "alerts" = Ok (PList (map PStr alerts))
    /\ check_alerts str_stub (__init__ PNone) snapshot = Ok alerts.
Proof.
  pose proof (collect_all_metrics_evaluate str_stub (__init__ PNone)
                (PFloat 80) (PFloat 85) (PFloat 90)
                eq_refl eq_refl eq_refl eq_refl eq_refl eq_refl
                machine_denied) as Hrun.
  destruct (collect_all_metrics_alerts_fixed str_stub (__init__ PNone)
              machine_denied _ Hrun) as (alerts & Hget & Hagain).
  eexists. exists alerts. split; [exact Hrun|].
  split; [exact Hget|exact Hagain].
Defined.

(** X9 at the scenario. *)
Lemma check_alerts_at_most_one_each_witness :
  exists cpu memory disk,
    [cpu_alert str_stub (PFloat 92.3) (PFloat 80);
     disk_alert str_stub "/" (PFloat 95.5) (PFloat 90)]
    = cpu ++ memory ++ disk
    /\ (length cpu <= 1)%nat /\ (length memory <= 1)%nat
    /\ (length disk <= 2)%nat.
Proof.
  destruct (check_alerts_at_most_one_each str_stub (__init__ PNone)
              scenario _ eq_refl)
    as (cpu & memory & disk & Hsplit & Hc & _ & Hm & _ & Hd & _).
  by exists cpu, memory, disk.
Defined.

(** X10 at the scenario, for a monitor that has only a memory
    threshold. *)
Lemma check_alerts_threshold_lookup_witness :
  check_alerts str_stub (__init__ (PDict [("memory_percent", PFloat 85)]))
    (PDict scenario)
  = Raise (Exn KeyError "'cpu_percent'").
Proof.
  destruct (check_alerts_threshold_lookup str_stub
              (__init__ (PDict [("memory_percent", PFloat 85)])) scenario)
    as (_ & H).
  by apply (H [("memory_percent", PFloat 85)] (PFloat 92.3)).
Defined.

(** X11 at a machine whose frequency cannot be read: the cpu is at 92.3,
    above the threshold of 80, and no cpu alert is raised. *)
Lemma collect_all_metrics_alert_needs_category_witness :
  exists alerts,
    collect_all_metrics str_stub (__init__ PNone) machine_no_freq
    = Ok (snapshot_of machine_no_freq alerts)
    /\ psutil.sample_cpu_percent machine_no_freq = Ok 92.3%Q
    /\ ~ has_alert is_cpu_alert alerts.
Proof.
  destruct (collect_all_metrics_alert_needs_category str_stub
              (__init__ PNone) (PFloat 80) (PFloat 85) (PFloat 90)
              eq_refl eq_refl eq_refl eq_refl eq_refl eq_refl machine_no_freq)
    as (alerts & Hrun & _ & _ & Hc & _).
  exists alerts. split; [exact Hrun|]. split; [reflexivity|].
  by apply Hc.
Defined.

(** X12 at the sample machine: two disk rows, two alerts. *)
Lemma print_summary_of_collected_witness :
  exists snapshot alerts out,
    collect_all_metrics str_stub (__init__ PNone) machine_denied
    = Ok snapshot
    /\ print_summary str_stub snapshot = (Ok tt, out)
    /\ check_alerts str_stub (__init__ PNone)
         (PDict (measurements machine_denied)) = Ok alerts.
Proof.
  pose proof (collect_all_metrics_evaluate str_stub (__init__ PNone)
                (PFloat 80) (PFloat 85) (PFloat 90)
                eq_refl eq_refl eq_refl eq_refl eq_refl eq_refl
                machine_denied) as Hrun.
  destruct (print_summary_of_collected str_stub (__init__ PNone)
              machine_denied _ Hrun)
    as (alerts & system & cpu & memory & disk & Ha & Hp & _).
  eexists. exists alerts. eexists. split; [exact Hrun|].
  split; [exact Hp|exact Ha].
Defined.

(** X13 at a machine whose frequency cannot be read. *)
Lemma print_summary_failed_category_witness :
  exists out,
    print_summary str_stub (snapshot_of machine_no_freq []) = (Ok tt, out)
    /\ In (Printed (nl +:+ "CPU Usage: N/A%")) out.
Proof.
  destruct (print_summary_failed_category str_stub machine_no_freq [])
    as (system & cpu & memory & disk & Hp & _ & _ & Hc & _).
  eexists. split; [exact Hp|]. rewrite (Hc eq_refl).
  rewrite !in_app_iff. right. right. left. by left.
Defined.

(** X14 at a snapshot that is empty and at one that has only the
    timestamp. *)
Lemma print_summary_needs_timestamp_witness :
  fst (print_summary str_stub (PDict [])) = Raise (Exn KeyError "'timestamp'")
  /\ length (snd (print_summary str_stub (PDict []))) = 3%nat
  /\ fst (print_summary str_stub (PDict [("timestamp", PStr "now")]))
     = Ok tt.
Proof.
  destruct (print_summary_needs_timestamp str_stub []) as (H1 & _).
  destruct (print_summary_needs_timestamp str_stub
              [("timestamp", PStr "now")]) as (_ & H2).
  rewrite (H1 eq_refl).
  rewrite (H2 (PStr "now") eq_refl eq_refl eq_refl eq_refl eq_refl eq_refl).
  by repeat split.
Defined.

(** X15 with every threshold at 0. *)
Lemma main_monitor_thresholds_witness :
  alert_thresholds
    (main_monitor {| save := false; output := None; cpu_threshold := 0;
                     memory_threshold := 0; disk_threshold := 0;
                     continuous := false; interval := 30 |})
  = PDict [("cpu_percent", PFloat 0); ("memory_percent", PFloat 0);
           ("disk_percent", PFloat 0)].
Proof.
  exact (proj1 (main_monitor_thresholds
                  {| save := false; output := None; cpu_threshold := 0;
                     memory_threshold := 0; disk_threshold := 0;
                     continuous := false; interval := 30 |})).
Defined.

(** X16 on a file system that is full: the file is opened and emptied,
    and the run still finishes. *)
Lemma main_single_run_witness :
  exists summary,
    main str_stub (sample_args false 30) (sample_world fs_full 0) 1
    = (Finished,
       summary
         ++ [Opened "health.json";
             Printed ("Error saving to file: "
                        +:+ "[Errno 28] No space left on device")]).
Proof.
  destruct (main_single_run str_stub (sample_args false 30)
              (sample_world fs_full 0) 1 eq_refl)
    as (alerts & summary & saved & _ & _ & Hmain & _ & _ & Hsaved).
  exists summary. rewrite Hmain. by rewrite (Hsaved eq_refl).
Defined.

(** X17 with [--interval -1], and with [--interval -10000000000], whose
    length in nanoseconds does not fit the interpreter's clock. *)
Lemma main_negative_interval_witness :
  fst (main str_stub (sample_args true (-1)) (sample_world fs_writable 2) 5)
  = Exit 1
  /\ sleeps (snd (main str_stub (sample_args true (-1))
                    (sample_world fs_writable 2) 5)) = []
  /\ last (snd (main str_stub (sample_args true (-1))
                  (sample_world fs_writable 2) 5))
     = Some (Printed "Error: sleep length must be non-negative")
  /\ last (snd (main str_stub (sample_args true (-10000000000))
                  (sample_world fs_writable 2) 5))
     = Some (Printed
               "Error: timestamp too large to convert to C _PyTime_t").
Proof.
  destruct (main_negative_interval str_stub (sample_args true (-1))
              (sample_world fs_writable 2) 5 eq_refl)
    as (Hmain & Hsleeps & _); [simpl; lia|lia|].
  destruct (main_negative_interval str_stub
              (sample_args true (-10000000000))
              (sample_world fs_writable 2) 5 eq_refl)
    as (Hmain' & _); [simpl; lia|lia|].
  split; [by rewrite Hmain|]. split; [exact Hsleeps|]. split.
  - rewrite Hmain. cbn [snd]. by rewrite !app_assoc, last_snoc.
  - rewrite Hmain'. cbn [snd]. by rewrite !app_assoc, last_snoc.
Defined.

(** X18 with Ctrl+C during the third sleep. *)
Lemma main_interrupted_witness :
  fst (main str_stub (sample_args true 30) (sample_world fs_writable 2) 5)
  = Exit 0
  /\ sleeps (snd (main str_stub (sample_args true 30)
                    (sample_world fs_writable 2) 5))
     = [30; 30; 30]%Z.
Proof.
  destruct (main_interrupted str_stub (sample_args true 30)
              (sample_world fs_writable 2) 5 2 eq_refl)
    as (Hmain & Hsleeps);
    [unfold longest_sleep; simpl; lia|done| |reflexivity|lia|].
  { intros [|[|j]] Hj; [reflexivity|reflexivity|lia]. }
  split; [by rewrite Hmain|exact Hsleeps].
Defined.

(** X19 on a file system that cannot be written, for three iterations;
    and on a system whose sleep call fails at the second iteration. *)
Lemma main_keeps_running_witness :
  fst (main str_stub (sample_args true 30) (sample_world fs_read_only 7) 3)
  = Running
  /\ sleeps (snd (main str_stub (sample_args true 30)
                    (sample_world fs_read_only 7) 3))
     = [30; 30; 30]%Z
  /\ fst (main str_stub (sample_args true 30)
            (world_sleep_fails fs_writable 1) 3) = Exit 1
  /\ exists i e,
       sleep_error_at (world_sleep_fails fs_writable 1) i 30 = Some e.
Proof.
  destruct (main_keeps_running str_stub (sample_args true 30)
              (sample_world fs_read_only 7) 3 eq_refl) as (Hrun & _ & _).
  destruct Hrun as (Hmain & Hsleeps);
    [unfold longest_sleep; simpl; lia|done| |].
  { intros [|[|[|j]]] Hj; [reflexivity..|lia]. }
  split; [by rewrite Hmain|]. split; [exact Hsleeps|].
  destruct (main_keeps_running str_stub (sample_args true 30)
              (world_sleep_fails fs_writable 1) 3 eq_refl) as (_ & Hexit & _).
  assert (H1 : fst (main str_stub (sample_args true 30)
                      (world_sleep_fails fs_writable 1) 3) = Exit 1)
    by (by vm_compute).
  split; [exact H1|].
  destruct (Hexit H1) as (i & e & _ & _ & [H|[H|H]]).
  - simpl in H. lia.
  - unfold longest_sleep in H. simpl in H. lia.
  - by exists i, e.
Defined.

(** X20 with [--output health.json] on a disk that fills up after the
    first iteration: the first iteration writes the snapshot, the second
    opens the file and fails, and an incomplete file is what is left. *)
Lemma main_files_witness :
  length (writes (snd (main str_stub (sample_args true 30)
                         (world_filling_up 1) 5))) = 1%nat
  /\ file_after (snd (main str_stub (sample_args true 30)
                        (world_filling_up 1) 5)) "health.json"
     = Some Incomplete
  /\ (exists i d e,
        json_dump (fs_at (world_filling_up 1) i) "health.json" d = Raise e)
  /\ file_from (Some Incomplete)
       (snd (save_to_file fs_writable (PInt 1) (Some "health.json")))
       "health.json"
     = Some (Whole (PInt 1)).
Proof.
  assert (H : file_after (snd (main str_stub (sample_args true 30)
                                 (world_filling_up 1) 5)) "health.json"
              = Some Incomplete) by (by vm_compute).
  split; [by vm_compute|]. split; [exact H|].
  destruct (main_files str_stub (sample_args true 30) (world_filling_up 1)
              5 "health.json" Incomplete H)
    as (_ & _ & (i & d & _ & _ & _ & e & He) & Hnext).
  split; [by exists i, d, e|].
  exact (Hnext fs_writable (PInt 1)).
Defined.

(** X21 at the scenario: the caller lowers the cpu threshold after the
    monitor was built. *)
Lemma new_monitor_st_shares_mapping_witness :
  exists self h1 h2,
    new_monitor_st (VRef 8%positive) scenario_heap = (Ok self, h1)
    /\ setitem 8%positive "cpu_percent" (VFloat 50) h1 = (Ok tt, h2)
    /\ threshold_h self "cpu_percent" h2 = Ok (VFloat 50).
Proof.
  destruct (new_monitor_st_shares_mapping scenario_heap 8%positive
              [("cpu_percent", VFloat 80); ("memory_percent", VFloat 85);
               ("disk_percent", VFloat 90)] eq_refl)
    as (self & h1 & Hrun & _ & Hset); [done|].
  destruct (Hset "cpu_percent" (VFloat 50)) as (h2 & Hh2 & Hread & _).
  exists self, h1, h2. split; [exact Hrun|]. split; [exact Hh2|exact Hread].
Defined.

(** X22 at the scenario. *)
Lemma new_monitor_st_fresh_defaults_witness :
  exists self h1 l self' h2 l',
    new_monitor_st VNone scenario_heap = (Ok self, h1)
    /\ new_monitor_st VNone h1 = (Ok self', h2)
    /\ getattr h2 self "alert_thresholds" = Ok (VRef l)
    /\ getattr h2 self' "alert_thresholds" = Ok (VRef l')
    /\ l' <> l.
Proof.
  destruct (new_monitor_st_fresh_defaults scenario_heap VNone eq_refl)
    as (self & h1 & l & Hrun & _ & _
        & self' & h2 & l' & Hrun' & Hattr' & Hattr & Hne & _).
  exists self, h1, l, self', h2, l'. split; [exact Hrun|].
  split; [exact Hrun'|]. split; [exact Hattr|]. split; [exact Hattr'|].
  exact Hne.
Defined.

(** X23 at the scenario. *)
Lemma check_alerts_st_twice_witness :
  exists l1 h1 l2 h2,
    check_alerts_st str_stub 10 7%positive (VRef 1%positive) scenario_heap
    = (Ok (VRef l1), h1)
    /\ check_alerts_st str_stub 10 7%positive (VRef 1%positive) h1
       = (Ok (VRef l2), h2)
    /\ l1 <> l2
    /\ h2 !! l1 = h2 !! l2.
Proof.
  destruct (check_alerts_st_twice str_stub 10 scenario_heap 7%positive
              (VRef 8%positive) (VRef 1%positive) default_thresholds
              (PDict scenario)
              [cpu_alert str_stub (PFloat 92.3) (PFloat 80);
               disk_alert str_stub "/" (PFloat 95.5) (PFloat 90)]
              eq_refl eq_refl eq_refl eq_refl)
    as (l1 & h1 & l2 & h2 & H1 & H2 & Hne & _ & Ha & Hb).
  exists l1, h1, l2, h2. split; [exact H1|]. split; [exact H2|].
  split; [exact Hne|]. exact (eq_trans Ha (eq_sym Hb)).
Defined.

(** X24 at the scenario: with thresholds of 95, 95 and 96 the two alerts
    of the defaults are gone. *)
Lemma check_alerts_thresholds_monotone_witness :
  exists alerts alerts',
    check_alerts str_stub (__init__ PNone) (PDict scenario) = Ok alerts
    /\ check_alerts str_stub
         (__init__ (PDict [("cpu_percent", PFloat 95);
                           ("memory_percent", PFloat 95);
                           ("disk_percent", PFloat 96)]))
         (PDict scenario) = Ok alerts'
    /\ (length alerts' <= length alerts)%nat.
Proof.
  destruct (check_alerts_thresholds_monotone str_stub (__init__ PNone)
              (__init__ (PDict [("cpu_percent", PFloat 95);
                                ("memory_percent", PFloat 95);
                                ("disk_percent", PFloat 96)]))
              (PFloat 80) (PFloat 85) (PFloat 90)
              (PFloat 95) (PFloat 95) (PFloat 96) scenario
              eq_refl eq_refl eq_refl eq_refl eq_refl eq_refl)
    as (alerts & alerts' & H1 & H2 & Hlen & _);
    try (eexists _, _; split; [reflexivity|];
         split; [reflexivity|]; by compute);
    [reflexivity|].
  by exists alerts, alerts'.
Defined.

(** X25 for the usage of "/" at the sample machine. *)
Lemma disk_entry_percent_bounds_witness :
  exists row x,
    disk_entry root_part
      {| psutil.du_total := 107374182400; psutil.du_used := 102542344192;
         psutil.du_free := 4831838208 |} = Ok row
    /\ percent_of row = Some (PFloat x)
    /\ (x <= 100)%Q
    /\ exceeds (PFloat x) (PInt 100) = false.
Proof.
  destruct (disk_entry_percent_bounds root_part
              {| psutil.du_total := 107374182400;
                 psutil.du_used := 102542344192;
                 psutil.du_free := 4831838208 |} (PInt 100))
    as (row & x & Hrow & Hp & _ & Hle & Hexc); [simpl; lia|done|].
  exists row, x. split; [exact Hrow|]. split; [exact Hp|].
  split; [exact Hle|]. apply Hexc.
  eexists _, _. split; [reflexivity|]. split; [reflexivity|]. by compute.
Defined.

(** X26 at the sample machine, where every call of the collector
    returns. *)
Lemma get_system_info_never_data_witness :
  get_system_info machine_denied
  = PDict [("error",
            PStr ("Failed to get system info: "
                    +:+ "'posix.uname_result' object has no "
                    +:+ "attribute 'system'"))].
Proof.
  destruct (get_system_info_never_data machine_denied) as (_ & _ & H & _).
  by eapply H.
Defined.
